(** * HACS repository lifecycle: a shallow embedding

    The development follows [custom_components/hacs/repositories/base.py]
    and [custom_components/hacs/validate/__init__.py].  Python objects are
    records, attributes annotated [str = None] are [option string], the
    mutable repository object and the world it acts on (file system, event
    bus, store) are threaded explicitly, and exceptions are values. *)

From Stdlib Require Import ZArith Ascii String List Bool Lia.
From stdpp Require Import base option strings gmap list pretty.

Open Scope string_scope.
Set Warnings "-register-all".

(** * Python helpers *)

(** [str.split(sep)] for a one-character separator: never returns an empty
    list, and keeps empty pieces. *)
Fixpoint split (sep : ascii) (s : string) : list string :=
  match s with
  | EmptyString => [""]
  | String c s' =>
      if Ascii.eqb c sep then "" :: split sep s'
      else match split sep s' with
           | [] => [String c ""]
           | w :: ws => String c w :: ws
           end
  end.

(** [xs[-1]] on a list of strings; [split] never yields the empty list, for
    which Python would raise. *)
Definition last_piece (xs : list string) : string := List.last xs "".

(** [x in xs] for strings. *)
Definition str_in (x : string) (xs : list string) : bool :=
  existsb (String.eqb x) xs.

(** Equality of two optional strings, as Python's [==] between values that
    are each a [str] or [None]. *)
Definition opt_eqb (a b : option string) : bool :=
  match a, b with
  | Some x, Some y => String.eqb x y
  | None, None => true
  | _, _ => false
  end.

(** [str(v)] / f-string rendering of a value that is a [str] or [None]. *)
Definition py_str (v : option string) : string :=
  match v with Some s => s | None => "None" end.

(** * VersionPolicy *)

Module Version.

Definition digit_of (c : ascii) : option N :=
  let n := N_of_ascii c in
  if ((48 <=? n) && (n <=? 57))%N then Some (n - 48)%N else None.

Fixpoint number_of (s : string) (acc : N) : option N :=
  match s with
  | EmptyString => Some acc
  | String c s' =>
      match digit_of c with
      | Some d => number_of s' (10 * acc + d)%N
      | None => None
      end
  end.

(** One dotted component: a non-empty run of decimal digits. *)
Definition component (s : string) : option N :=
  match s with
  | EmptyString => None
  | _ => number_of s 0
  end.

Fixpoint components (l : list string) : option (list N) :=
  match l with
  | [] => Some []
  | s :: l' =>
      match component s, components l' with
      | Some n, Some ns => Some (n :: ns)
      | _, _ => None
      end
  end.

(** A parsed version: the numeric components and the pre-release suffix,
    if any (the text after the first dash). *)
Record t := { numeric : list N; suffix : option string }.

Definition split_suffix (s : string) : string * option string :=
  match split "-" s with
  | [] => (s, None)
  | [n] => (n, None)
  | n :: rest => (n, Some (String.concat "-" rest))
  end.

Definition parse (s : string) : option t :=
  let '(num, suf) := split_suffix s in
  match components (split "." num) with
  | Some ns => Some {| numeric := ns; suffix := suf |}
  | None => None
  end.

(** Component-wise comparison; a missing component counts as 0. *)
Fixpoint compare_components (a b : list N) {struct a} : comparison :=
  match a with
  | [] => if forallb (N.eqb 0) b then Eq else Lt
  | x :: a' =>
      match b with
      | [] =>
          match (x ?= 0)%N with
          | Eq => compare_components a' []
          | c => c
          end
      | y :: b' =>
          match (x ?= y)%N with
          | Eq => compare_components a' b'
          | c => c
          end
      end
  end.

(** The order of two parsed versions, where the rules fix one: the numeric
    part decides first; with equal numeric parts a version without suffix
    is above one with a suffix, and two different suffixes are left
    unordered. *)
Definition compare (a b : t) : option comparison :=
  match compare_components (numeric a) (numeric b) with
  | Eq =>
      match suffix a, suffix b with
      | None, None => Some Eq
      | None, Some _ => Some Gt
      | Some _, None => Some Lt
      | Some x, Some y => if String.eqb x y then Some Eq else None
      end
  | c => Some c
  end.

Definition order (left right : string) : option comparison :=
  match parse left, parse right with
  | Some a, Some b => compare a b
  | _, _ => None
  end.

(** A dotted numeric version string: it parses and has no suffix. *)
Definition dotted_numeric (s : string) : bool :=
  match parse s with
  | Some v => match suffix v with None => true | Some _ => false end
  | None => false
  end.

End Version.

(** Modelled from the spec: [version_left_higher_then_right] of
    [custom_components/hacs/utils/version.py] is not part of the sources at
    hand.  Section 4.1 gives the precedence rules: dotted numeric versions
    with optional pre-release suffixes, the higher numeric component wins,
    missing components default to 0, and a pre-release suffix is always lower
    than the same numeric version without one. *)
Definition version_left_higher_then_right (left right : string) : bool :=
  match Version.order left right with
  | Some Gt => true
  | _ => false
  end.

(** Modelled from the spec: [version_left_higher_or_equal_then_right] of the
    same absent module, the host-compatibility test of section 4.4
    ([can_download] holds when the host version satisfies the declared
    minimum), under the precedence rules of section 4.1. *)
Definition version_left_higher_or_equal_then_right (left right : string) : bool :=
  match Version.order left right with
  | Some Gt | Some Eq => true
  | _ => false
  end.

(** * Values, exceptions and outcomes *)

(** Python values as they arrive from [json.loads] and from the attribute
    dictionary of the remote repository object.  A dictionary keeps its
    insertion order, which is the order [for key in data] visits. *)
Inductive pyval :=
| PyNone
| PyBool (b : bool)
| PyInt (z : Z)
| PyStr (s : string)
| PyList (l : list pyval)
| PyDict (d : list (string * pyval)).

(** [d.get(key, default)] on a dictionary. *)
Fixpoint dict_get (key : string) (d : list (string * pyval)) (default : pyval) : pyval :=
  match d with
  | [] => default
  | (k, v) :: d' => if String.eqb k key then v else dict_get key d' default
  end.

(** The exceptions the modelled code raises or catches.  [PyException]
    stands for any other subclass of [Exception] (TypeError, ValueError,
    OSError, ...); [SystemExit] is what [exit()] raises and is a
    [BaseException] only. *)
Inductive exn :=
| HacsException (msg : string)
| HacsNotModifiedException
| HacsRepositoryExistException
| AIOGitHubAPIException
| PyException (kind msg : string)
| SystemExit (msg : string).

(** [isinstance(e, Exception)]. *)
Definition is_Exception (e : exn) : bool :=
  match e with
  | SystemExit _ => false
  | _ => true
  end.

(** What a collaborator or a pure helper gives back: a value or an
    exception. *)
Inductive result (A : Type) :=
| Returns (a : A)
| Raises (e : exn).
Arguments Returns {A} a.
Arguments Raises {A} e.

(** Runs the model does not follow to a result.  [IllTyped]: a value reached
    an attribute whose annotated type it does not have; Python would store
    it, the records below are typed by the annotations of the source.
    [NeverReturns]: a wait loop whose condition nothing in the modelled world
    can change. *)
Inductive beyond :=
| IllTyped
| NeverReturns.

(** The result of running a piece of code: a value, a raised exception, or a
    run beyond the model, which no [except] clause catches. *)
Inductive outcome (A : Type) :=
| Ok (a : A)
| Raise (e : exn)
| Beyond (b : beyond).
Arguments Ok {A} a.
Arguments Raise {A} e.
Arguments Beyond {A} b.

(** Stateful code: the state is returned whatever the outcome, since a
    Python object keeps the mutations made before an exception. *)
Definition M (S A : Type) : Type := S -> outcome A * S.

Definition ret {S A} (a : A) : M S A := fun s => (Ok a, s).

Definition bind {S A B} (m : M S A) (k : A -> M S B) : M S B :=
  fun s =>
    match m s with
    | (Ok a, s') => k a s'
    | (Raise e, s') => (Raise e, s')
    | (Beyond b, s') => (Beyond b, s')
    end.

Definition raise {S A} (e : exn) : M S A := fun s => (Raise e, s).
Definition beyond_model {S A} (b : beyond) : M S A := fun s => (Beyond b, s).
Definition lift {S A} (o : result A) : M S A :=
  fun s => match o with
           | Returns a => (Ok a, s)
           | Raises e => (Raise e, s)
           end.
Definition get {S} : M S S := fun s => (Ok s, s).
Definition gets {S A} (f : S -> A) : M S A := fun s => (Ok (f s), s).
Definition modify {S} (f : S -> S) : M S unit := fun s => (Ok tt, f s).

(** [try: body / except <caught>: handler]. *)
Definition try_except {S A} (body : M S A) (caught : exn -> bool)
    (handler : exn -> M S A) : M S A :=
  fun s =>
    match body s with
    | (Raise e, s') => if caught e then handler e s' else (Raise e, s')
    | r => r
    end.

(** [if c: body] with no [else]. *)
Definition when {S} (c : bool) (body : M S unit) : M S unit :=
  if c then body else ret tt.

(** [for x in xs: body(x)]. *)
Fixpoint for_each {S A} (xs : list A) (body : A -> M S unit) : M S unit :=
  match xs with
  | [] => ret tt
  | x :: xs' => bind (body x) (fun _ => for_each xs' body)
  end.

Declare Scope py_scope.
Delimit Scope py_scope with py.
Notation "x <- m ;; k" := (bind m (fun x => k))
  (at level 100, m at next level, right associativity) : py_scope.
Notation "m ;; k" := (bind m (fun _ => k))
  (at level 100, right associativity) : py_scope.
Open Scope py_scope.

(** * RepositoryData *)

(** [pushed_at] is annotated [str] and holds a [datetime] once
    [update_data] has parsed it. *)
Inductive pushed :=
| PushedText (s : string)
| PushedTime (t : Z).

(** The attributes of [RepositoryData] that the operations below read or
    write, typed by their annotations ([id] is stored through [str(...)]).
    The remaining attributes are listed in [other_attributes]: assigning
    them never changes an attribute kept here. *)
Record RepositoryData := {
  category : string;
  config_flow : bool;
  default_branch : option string;
  domain : string;
  etag_repository : option string;
  filename : string;
  full_name : string;
  homeassistant : option string;
  id : string;
  installed : bool;
  installed_commit : option string;
  installed_version : option string;
  last_commit : option string;
  last_version : option string;
  last_updated : pyval;
  new : bool;
  persistent_directory : option string;
  pushed_at : pushed;
  releases : bool;
  selected_tag : option string;
  zip_release : bool
}.

Definition other_attributes : list string :=
  ["archived"; "authors"; "content_in_root"; "country"; "description";
   "domains"; "downloads"; "file_name"; "first_install"; "fork"; "hacs";
   "hide"; "hide_default_branch"; "iot_class"; "manifest_name";
   "open_issues"; "published_tags"; "render_readme"; "show_beta";
   "stargazers_count"; "topics"; "_storage_data"].

(** [RepositoryData()]: the class defaults. *)
Definition RepositoryData_default : RepositoryData := {|
  category := ""; config_flow := false; default_branch := None; domain := "";
  etag_repository := None; filename := ""; full_name := ""; homeassistant := None;
  id := "0"; installed := false; installed_commit := None;
  installed_version := None; last_commit := None; last_version := None;
  last_updated := PyInt 0; new := true; persistent_directory := None;
  pushed_at := PushedText ""; releases := false; selected_tag := None;
  zip_release := false |}.

(** Attribute assignment.  [field_setter proj] builds [fun v d => d'] where
    [d'] is [d] with the attribute [proj] replaced by [v]. *)
Definition RepositoryData_eta (d : RepositoryData) : RepositoryData :=
  Build_RepositoryData (category d) (config_flow d) (default_branch d) (domain d)
    (etag_repository d) (filename d) (full_name d) (homeassistant d) (id d)
    (installed d) (installed_commit d) (installed_version d) (last_commit d)
    (last_version d) (last_updated d) (new d) (persistent_directory d)
    (pushed_at d) (releases d) (selected_tag d) (zip_release d).

Ltac field_setter eta proj :=
  let v := fresh "v" in
  let d := fresh "d" in
  intros v d;
  let body := eval cbv beta delta [eta] in (eta d) in
  match eval pattern (proj d) in body with
  | ?F _ => let r := eval cbv beta in (F v) in exact r
  end.

Definition set_category : string -> RepositoryData -> RepositoryData.
Proof. field_setter RepositoryData_eta category. Defined.
Definition set_config_flow : bool -> RepositoryData -> RepositoryData.
Proof. field_setter RepositoryData_eta config_flow. Defined.
Definition set_default_branch : option string -> RepositoryData -> RepositoryData.
Proof. field_setter RepositoryData_eta default_branch. Defined.
Definition set_domain : string -> RepositoryData -> RepositoryData.
Proof. field_setter RepositoryData_eta domain. Defined.
Definition set_etag_repository : option string -> RepositoryData -> RepositoryData.
Proof. field_setter RepositoryData_eta etag_repository. Defined.
Definition set_filename : string -> RepositoryData -> RepositoryData.
Proof. field_setter RepositoryData_eta filename. Defined.
Definition set_full_name : string -> RepositoryData -> RepositoryData.
Proof. field_setter RepositoryData_eta full_name. Defined.
Definition set_homeassistant : option string -> RepositoryData -> RepositoryData.
Proof. field_setter RepositoryData_eta homeassistant. Defined.
Definition set_id : string -> RepositoryData -> RepositoryData.
Proof. field_setter RepositoryData_eta id. Defined.
Definition set_installed : bool -> RepositoryData -> RepositoryData.
Proof. field_setter RepositoryData_eta installed. Defined.
Definition set_installed_commit : option string -> RepositoryData -> RepositoryData.
Proof. field_setter RepositoryData_eta installed_commit. Defined.
Definition set_installed_version : option string -> RepositoryData -> RepositoryData.
Proof. field_setter RepositoryData_eta installed_version. Defined.
Definition set_last_commit : option string -> RepositoryData -> RepositoryData.
Proof. field_setter RepositoryData_eta last_commit. Defined.
Definition set_last_version : option string -> RepositoryData -> RepositoryData.
Proof. field_setter RepositoryData_eta last_version. Defined.
Definition set_last_updated : pyval -> RepositoryData -> RepositoryData.
Proof. field_setter RepositoryData_eta last_updated. Defined.
Definition set_new : bool -> RepositoryData -> RepositoryData.
Proof. field_setter RepositoryData_eta new. Defined.
Definition set_persistent_directory : option string -> RepositoryData -> RepositoryData.
Proof. field_setter RepositoryData_eta persistent_directory. Defined.
Definition set_pushed_at : pushed -> RepositoryData -> RepositoryData.
Proof. field_setter RepositoryData_eta pushed_at. Defined.
Definition set_releases : bool -> RepositoryData -> RepositoryData.
Proof. field_setter RepositoryData_eta releases. Defined.
Definition set_selected_tag : option string -> RepositoryData -> RepositoryData.
Proof. field_setter RepositoryData_eta selected_tag. Defined.
Definition set_zip_release : bool -> RepositoryData -> RepositoryData.
Proof. field_setter RepositoryData_eta zip_release. Defined.

(** [RepositoryData.name]. *)
Definition name (d : RepositoryData) : string :=
  if str_in (category d) ["integration"; "netdaemon"] then domain d
  else last_piece (split "/" (full_name d)).

(** Letters and letter case of ASCII text. *)
Definition is_lower (c : ascii) : bool :=
  let n := nat_of_ascii c in ((97 <=? n) && (n <=? 122))%nat.
Definition is_upper (c : ascii) : bool :=
  let n := nat_of_ascii c in ((65 <=? n) && (n <=? 90))%nat.
Definition to_upper (c : ascii) : ascii :=
  if is_lower c then ascii_of_nat (nat_of_ascii c - 32) else c.
Definition to_lower (c : ascii) : ascii :=
  if is_upper c then ascii_of_nat (nat_of_ascii c + 32) else c.

Fixpoint title_from (inside_word : bool) (s : string) : string :=
  match s with
  | EmptyString => EmptyString
  | String c s' =>
      let letter := is_lower c || is_upper c in
      String (if inside_word then to_lower c else to_upper c) (title_from letter s')
  end.

(** [str.isascii()]. *)
Fixpoint is_ascii (s : string) : bool :=
  match s with
  | EmptyString => true
  | String c s' => (nat_of_ascii c <? 128)%nat && is_ascii s'
  end.

(** [str.title()].  On ASCII text the first letter of every run of letters
    is upper case and the others are lower case.  On any other text the
    result is the one of the built-in method, [beyond_ascii], which is taken
    as it is: it follows the case tables of Unicode and may change the
    length of the text. *)
Definition title (beyond_ascii : string -> string) (s : string) : string :=
  if is_ascii s then title_from false s else beyond_ascii s.

(** * The repository object and its surroundings *)

(** [d[key]] guarded by [key in d]. *)
Fixpoint dict_lookup (key : string) (d : list (string * pyval)) : option pyval :=
  match d with
  | [] => None
  | (k, v) :: d' => if String.eqb k key then Some v else dict_lookup key d'
  end.

(** [d[key] = v]: an entry that is there is overwritten in place, a new one
    comes last. *)
Fixpoint dict_set (key : string) (v : pyval) (d : list (string * pyval))
    : list (string * pyval) :=
  match d with
  | [] => [(key, v)]
  | (k, x) :: d' => if String.eqb k key then (k, v) :: d' else (k, x) :: dict_set key v d'
  end.

(** [HacsManifest]: an object made by [from_dict] is determined by the
    dictionary it was built from, which is what the record keeps (with the
    country entry rewritten, see [normalise_country]).  [HacsManifest()]
    gives every attribute of the class its default, [from_dict] stores the
    dictionary under [manifest] and then sets one attribute per key. *)
Record HacsManifest := { manifest : list (string * pyval) }.

(** The instance dictionary of [HacsManifest()] once [manifest] has been
    assigned: the attributes of the class with their defaults. *)
Definition HacsManifest_defaults (given : list (string * pyval)) : list (string * pyval) :=
  [("name", PyNone); ("content_in_root", PyBool false); ("zip_release", PyBool false);
   ("filename", PyNone); ("manifest", PyDict given); ("hacs", PyNone);
   ("hide_default_branch", PyBool false); ("domains", PyList []); ("country", PyList []);
   ("homeassistant", PyNone); ("persistent_directory", PyNone); ("iot_class", PyNone);
   ("render_readme", PyBool false)].

(** The exception [setattr(manifest_data, key, value)] raises, if any, for a
    key and a value that come from JSON: [__class__] accepts only a class,
    [__dict__] only a dictionary, and [__weakref__] cannot be written. *)
Definition setattr_refused (key : string) (v : pyval) : option exn :=
  if String.eqb key "__class__" then
    Some (PyException "TypeError" "__class__ must be set to a class")
  else if String.eqb key "__weakref__" then
    Some (PyException "AttributeError" "attribute '__weakref__' is not writable")
  else if String.eqb key "__dict__" then
    match v with
    | PyDict _ => None
    | _ => Some (PyException "TypeError" "__dict__ must be set to a dictionary")
    end
  else None.

(** The first exception of the loop [for key in manifest: setattr(..)]. *)
Fixpoint first_refused (d : list (string * pyval)) : option exn :=
  match d with
  | [] => None
  | (k, v) :: d' =>
      match setattr_refused k v with
      | Some e => Some e
      | None => first_refused d'
      end
  end.

(** One [setattr(manifest_data, key, value)] that goes through: assigning
    a dictionary to [__dict__] replaces the instance dictionary, any other
    key sets an entry of it. *)
Definition setattr_manifest (attrs : list (string * pyval)) (kv : string * pyval)
    : list (string * pyval) :=
  if String.eqb (fst kv) "__dict__" then
    match snd kv with
    | PyDict replaced => replaced
    | _ => attrs
    end
  else dict_set (fst kv) (snd kv) attrs.

(** The instance dictionary of a manifest object after the loop. *)
Definition instance_dict (m : HacsManifest) : list (string * pyval) :=
  fold_left setattr_manifest (manifest m) (HacsManifest_defaults (manifest m)).

(** [manifest_data.<key>], for a key that names nothing on the class itself
    ([attr.s] takes the attributes of the class body off the class): the
    entry of the instance dictionary, and [AttributeError] without one. *)
Definition manifest_attr (m : HacsManifest) (key : string) : result pyval :=
  match dict_lookup key (instance_dict m) with
  | Some v => Returns v
  | None => Raises (PyException "AttributeError"
                      "'HacsManifest' object has no attribute")
  end.

(** [if country := manifest.get("country"): if isinstance(country, str):
    manifest["country"] = [country]]: the entry is rewritten in place. *)
Fixpoint normalise_country (d : list (string * pyval)) : list (string * pyval) :=
  match d with
  | [] => []
  | (k, v) :: d' =>
      if String.eqb k "country" then
        match v with
        | PyStr EmptyString => (k, v) :: d'
        | PyStr c => (k, PyList [PyStr c]) :: d'
        | _ => (k, v) :: d'
        end
      else (k, v) :: normalise_country d'
  end.

(** [HacsManifest.from_dict]: [None] raises [HacsException]; a value that is
    not a dictionary has no [get] and raises [AttributeError]; for a
    dictionary the country entry is rewritten and every key is set as an
    attribute, which raises at the first key that [setattr] refuses. *)
Definition HacsManifest_from_dict (v : pyval) : result HacsManifest :=
  match v with
  | PyNone => Raises (HacsException "Missing manifest data")
  | PyDict d =>
      match first_refused (normalise_country d) with
      | Some e => Raises e
      | None => Returns {| manifest := normalise_country d |}
      end
  | _ => Raises (PyException "AttributeError" "object has no attribute 'get'")
  end.

(** The handle on the remote repository ([repository_object]). *)
Record RepositoryObject := { attributes : list (string * pyval) }.

(** One release asset and one release, as [download_zip_files] reads them. *)
Record Asset := { asset_name : string; download_url : string }.
Record Release := { tag_name : string; assets : list Asset }.

(** [HacsRepository]: the attributes the modelled methods use.
    [content_path_local] is [content.path.local], [validate_errors] is
    [validate.errors], [tree] holds the [filename] of every tree entry,
    [additional_info] is [information.additional_info]. *)
Record HacsRepository := {
  data : RepositoryData;
  content_path_local : option string;
  content_single : bool;
  repository_object : option RepositoryObject;
  repository_manifest : HacsManifest;
  validate_errors : list string;
  releases_objects : list Release;
  pending_restart : bool;
  tree : list string;
  ref : option string;
  additional_info : option string
}.

Definition HacsRepository_eta (r : HacsRepository) : HacsRepository :=
  Build_HacsRepository (data r) (content_path_local r) (content_single r)
    (repository_object r) (repository_manifest r) (validate_errors r)
    (releases_objects r) (pending_restart r) (tree r) (ref r) (additional_info r).

Definition set_data : RepositoryData -> HacsRepository -> HacsRepository.
Proof. field_setter HacsRepository_eta data. Defined.
Definition set_repository_object : option RepositoryObject -> HacsRepository -> HacsRepository.
Proof. field_setter HacsRepository_eta repository_object. Defined.
Definition set_repository_manifest : HacsManifest -> HacsRepository -> HacsRepository.
Proof. field_setter HacsRepository_eta repository_manifest. Defined.
Definition set_validate_errors : list string -> HacsRepository -> HacsRepository.
Proof. field_setter HacsRepository_eta validate_errors. Defined.
Definition set_pending_restart : bool -> HacsRepository -> HacsRepository.
Proof. field_setter HacsRepository_eta pending_restart. Defined.
Definition set_ref : option string -> HacsRepository -> HacsRepository.
Proof. field_setter HacsRepository_eta ref. Defined.
Definition set_additional_info : option string -> HacsRepository -> HacsRepository.
Proof. field_setter HacsRepository_eta additional_info. Defined.

(** [self.data.<attribute> = v]. *)
Definition on_data (f : RepositoryData -> RepositoryData) (r : HacsRepository) : HacsRepository :=
  set_data (f (data r)) r.

(** [HacsRepository()] with the defaults of [__init__]. *)
Definition HacsRepository_default : HacsRepository := {|
  data := RepositoryData_default; content_path_local := None;
  content_single := false; repository_object := None;
  repository_manifest := {| manifest := [] |}; validate_errors := [];
  releases_objects := []; pending_restart := false; tree := []; ref := None;
  additional_info := None |}.

(** [__str__]: [<Category owner/name>]; [beyond_ascii] is [str.title()] on
    text that is not ASCII. *)
Definition repr (beyond_ascii : string -> string) (r : HacsRepository) : string :=
  "<" ++ title beyond_ascii (category (data r)) ++ " " ++ full_name (data r) ++ ">".

(** What the code reads from the [hacs] object: [system.action] (the
    automated, CI mode, as [base.py] reads it), [action] (the same mode, as
    the validation package reads it), [system.running],
    [core.ha_version.string], [core.config_path],
    [configuration.theme_path] and [common.renamed_repositories]. *)
Record Hacs := {
  system_action : bool;
  hacs_action : bool;
  system_running : bool;
  ha_version : string;
  config_path : string;
  theme_path : string;
  renamed_repositories : list (string * string)
}.

(** * Derived properties of a repository *)

Section Properties.

Variable hacs : Hacs.

(** [display_installed_version]. *)
Definition display_installed_version (r : HacsRepository) : string :=
  match installed_version (data r) with
  | Some v => v
  | None =>
      match installed_commit (data r) with
      | Some c => c
      | None => ""
      end
  end.

(** [display_available_version]. *)
Definition display_available_version (r : HacsRepository) : string :=
  match last_version (data r) with
  | Some v => v
  | None =>
      match last_commit (data r) with
      | Some c => c
      | None => ""
      end
  end.

(** [display_version_or_commit]. *)
Definition display_version_or_commit (r : HacsRepository) : string :=
  if releases (data r) then "version" else "commit".

(** [can_download]. *)
Definition can_download (r : HacsRepository) : bool :=
  match homeassistant (data r) with
  | Some minimum =>
      if releases (data r) then
        if negb (version_left_higher_or_equal_then_right (ha_version hacs) minimum)
        then false
        else true
      else true
  | None => true
  end.

(** [pending_update]: every [return] of the source is one branch. *)
Definition pending_update (r : HacsRepository) : bool :=
  if negb (can_download r) then false
  else if installed (data r) then
    if match selected_tag (data r) with
       | Some tag => opt_eqb (Some tag) (default_branch (data r))
       | None => false
       end
    then
      if negb (opt_eqb (installed_commit (data r)) (last_commit (data r)))
      then true
      else false
    else if String.eqb (display_version_or_commit r) "version"
            && version_left_higher_then_right
                 (display_available_version r) (display_installed_version r)
    then true
    else if negb (String.eqb (display_installed_version r) (display_available_version r))
    then true
    else false
  else false.

(** [display_status]. *)
Definition display_status (r : HacsRepository) : string :=
  if new (data r) then "new"
  else if pending_restart r then "pending-restart"
  else if pending_update r then "pending-upgrade"
  else if installed (data r) then "installed"
  else "default".

(** [main_action]: the dictionary lookup [actions[self.display_status]]. *)
Definition main_action (r : HacsRepository) : option string :=
  let actions :=
    [("new", "INSTALL"); ("default", "INSTALL"); ("installed", "REINSTALL");
     ("pending-restart", "REINSTALL"); ("pending-upgrade", "UPGRADE")] in
  snd <$> List.find (fun kv => String.eqb (fst kv) (display_status r)) actions.

End Properties.

(** * Further attributes of a repository *)

(** [text.replace(old, new)] for one-character [old] and [new]. *)
Fixpoint replace_char (old new : ascii) (text : string) : string :=
  match text with
  | EmptyString => EmptyString
  | String c rest =>
      String (if Ascii.eqb c old then new else c) (replace_char old new rest)
  end.

(** [display_name]; [integration_manifest] is the attribute of that name,
    a dictionary, which the record [HacsRepository] does not keep, and
    [beyond_ascii] is [str.title()] on text that is not ASCII.  The manifest
    name is whatever value the manifest gave it. *)
Definition display_name (beyond_ascii : string -> string)
    (integration_manifest : list (string * pyval)) (r : HacsRepository) : result pyval :=
  let derived :=
    PyStr (title beyond_ascii (replace_char "_" " " (replace_char "-" " "
             (last_piece (split "/" (full_name (data r))))))) in
  match manifest_attr (repository_manifest r) "name" with
  | Raises e => Raises e
  | Returns PyNone =>
      if String.eqb (category (data r)) "integration" then
        match integration_manifest with
        | [] => Returns derived
        | _ :: _ =>
            match dict_lookup "name" integration_manifest with
            | Some v => Returns v
            | None => Returns derived
            end
        end
      else Returns derived
  | Returns given => Returns given
  end.

(** [str.lower()] on ASCII text. *)
Fixpoint lower (s : string) : string :=
  match s with
  | EmptyString => EmptyString
  | String c rest => String (to_lower c) (lower rest)
  end.





Section Descriptions.

Variable hacs : Hacs.

(** [display_status_description]: the dictionary lookup
    [description[self.display_status]]. *)
Definition display_status_description (r : HacsRepository) : option string :=
  let description :=
    [("default", "Not installed."); ("pending-restart", "Restart pending.");
     ("pending-upgrade", "Upgrade pending."); ("installed", "No action required.");
     ("new", "This is a newly added repository.")] in
  snd <$> List.find (fun kv => String.eqb (fst kv) (display_status hacs r)) description.

End Descriptions.

(** * The world a repository acts on *)

(** The local file system under the managed root: every existing path with
    what it is.  Temporary files and directories are not part of it. *)
Inductive Node :=
| File (content : string)
| Dir.

(** [hass.bus.async_fire(event_type, {"id": .., "action": .., "repository": ..})]. *)
Record Event := {
  event_type : string;
  event_id : Z;
  action : string;
  repository : string
}.

(** Operations on collaborators, recorded in the order they are started. *)
Inductive Call :=
| UpdateRepository
| BackupCreate (path : string)
| BackupRestore (path : string)
| BackupCleanup (path : string)
| NetDaemonCreate
| NetDaemonRestore
| NetDaemonCleanup
| DownloadContent
| DownloadFile (url : string)
| ServiceCall (service_domain service : string)
| ReloadCustomComponents
| RemoveStore (key : string)
| RunCheck (module class : string).

Inductive Level := ERROR | INFO | DEBUG.

(** A validation check class: where it is defined, the name of its first
    base class, and whether the check fails on a repository (what
    [_async_run_check] leaves in [failed]). *)
Record CheckClass := {
  class_name : string;
  class_module : string;
  base_name : string;
  fails_on : HacsRepository -> bool
}.

(** [fs] is the file system, [bus] the events fired, [store] the keys of the
    persisted store entries, [log] the lines logged (the methods of
    [HacsRepository] are modelled with their [logger.error] lines only),
    [calls] the record of collaborator operations, and [RULES] the
    module-level registry of the validation package. *)
Record World := {
  fs : gmap string Node;
  bus : list Event;
  store : gset string;
  log : list (Level * string);
  calls : list Call;
  RULES : gmap string (list CheckClass)
}.

Definition World_eta (w : World) : World :=
  Build_World (fs w) (bus w) (store w) (log w) (calls w) (RULES w).

Definition set_fs : gmap string Node -> World -> World.
Proof. field_setter World_eta fs. Defined.
Definition set_bus : list Event -> World -> World.
Proof. field_setter World_eta bus. Defined.
Definition set_store : gset string -> World -> World.
Proof. field_setter World_eta store. Defined.
Definition set_log : list (Level * string) -> World -> World.
Proof. field_setter World_eta log. Defined.
Definition set_calls : list Call -> World -> World.
Proof. field_setter World_eta calls. Defined.
Definition set_RULES : gmap string (list CheckClass) -> World -> World.
Proof. field_setter World_eta RULES. Defined.

(** The state a method runs in: the repository object ([self]) and the
    world. *)
Record State := { self : HacsRepository; world : World }.

Definition on_self (f : HacsRepository -> HacsRepository) (s : State) : State :=
  {| self := f (self s); world := world s |}.
Definition on_world (f : World -> World) (s : State) : State :=
  {| self := self s; world := f (world s) |}.

(** Run code on [self.data] inside a method. *)
Definition in_data {A} (m : M RepositoryData A) : M State A :=
  fun s =>
    let '(o, d) := m (data (self s)) in
    (o, on_self (set_data d) s).

Definition logger (level : Level) (line : string) : M State unit :=
  modify (on_world (fun w => set_log (log w ++ [(level, line)]) w)).

Definition record (c : Call) : M State unit :=
  modify (on_world (fun w => set_calls (calls w ++ [c]) w)).

Definition async_fire (e : Event) : M State unit :=
  modify (on_world (fun w => set_bus (bus w ++ [e]) w)).

Definition append_error (e : string) : M State unit :=
  modify (on_self (fun r => set_validate_errors (validate_errors r ++ [e]) r)).

(** ** File system primitives *)

(** [q] is [p] or lies below the directory [p]. *)
Definition under (p q : string) : bool :=
  String.eqb p q || String.prefix (p ++ "/") q.

Definition os_path_exists (p : string) (f : gmap string Node) : bool :=
  match f !! p with
  | Some _ => true
  | None => false
  end.

(** [os.remove]. *)
Definition os_remove (p : string) : M State unit :=
  w <- gets world;;
  match fs w !! p with
  | Some (File _) => modify (on_world (set_fs (delete p (fs w))))
  | Some Dir => raise (PyException "IsADirectoryError" p)
  | None => raise (PyException "FileNotFoundError" p)
  end.

(** What is left of a file system without [p] and everything below it. *)
Definition without_tree (p : string) (f : gmap string Node) : gmap string Node :=
  filter (fun kv => under p (fst kv) = false) f.

(** The part of a file system made of [p] and everything below it. *)
Definition subtree (p : string) (f : gmap string Node) : gmap string Node :=
  filter (fun kv => under p (fst kv) = true) f.

(** [shutil.rmtree]. *)
Definition shutil_rmtree (p : string) : M State unit :=
  w <- gets world;;
  match fs w !! p with
  | Some Dir => modify (on_world (set_fs (without_tree p (fs w))))
  | Some (File _) => raise (PyException "NotADirectoryError" p)
  | None => raise (PyException "FileNotFoundError" p)
  end.

(** [while os.path.exists(p): await sleep(1)].  Sleeping changes nothing in
    the modelled world, so the loop ends at once or never. *)
Definition wait_until_gone (p : string) : M State unit :=
  w <- gets world;;
  if os_path_exists p (fs w) then beyond_model NeverReturns else ret tt.

(** * The collaborators *)

(** Everything the methods call that is neither in [base.py] nor described
    by the specification enough to be written down: the date parser, the
    JSON parser, the code-hosting client, the download helpers, the safety
    predicate of [utils/path.py], the host application and the hooks that
    subclasses define. *)
Record Env := {
  (** [datetime.strptime(text, format)], [None] for a [ValueError]. *)
  strptime : string -> string -> option Z;
  (** [json.loads]. *)
  json_loads : string -> result pyval;
  (** [get_repository(session, token, full_name, etag)]: the repository
      object and its new caching token, [HacsNotModifiedException] when the
      token sent is still current. *)
  get_repository : string -> option string -> result (RepositoryObject * option string);
  (** [repository_object.set_last_commit()] followed by [.last_commit]. *)
  fetch_last_commit : RepositoryObject -> result (option string);
  (** [repository_object.get_contents(path, ref)], its [.content]. *)
  get_contents : RepositoryObject -> string -> option string -> result string;
  (** [get_info_md_content(repository)]. *)
  get_info_md_content : HacsRepository -> result (option string);
  (** [download_content(repository)]: the file system it leaves and the
      errors it appends to [validate.errors]. *)
  download_content : HacsRepository -> gmap string Node -> gmap string Node * list string;
  (** [async_download_file(url)]. *)
  async_download_file : string -> result (option string);
  (** [tempfile.mkdtemp()]. *)
  mkdtemp : result string;
  (** [hacs.async_save_file(location, content)]. *)
  async_save_file : string -> string -> result bool;
  (** [zipfile.ZipFile(temp_file).extractall(..)]: the entries of the
      archive found at [temp_file], with their paths inside the archive. *)
  zip_entries : string -> result (list (string * Node));
  (** [is_safe(hacs, path)]. *)
  is_safe : Hacs -> string -> bool;
  (** [str.title()] on text that is not ASCII, where the result follows
      the case tables of Unicode; see [title]. *)
  str_title : string -> string;
  (** The exception a call into the host application raises, if any
      ([services.async_call], [reload_custom_components]). *)
  host : Call -> option exn;
  (** [update_repository()], defined by the category subclasses. *)
  update_repository : M State unit;
  (** What [BackupNetDaemon.restore] leaves, from the file system at the
      time of [create] and the current one. *)
  netdaemon_restore : gmap string Node -> gmap string Node -> gmap string Node;
  (** What [load_repository_checks] finds on disk: the files under the
      validation package, named relative to it, each with the classes that
      importing it as a module would bring into view. *)
  check_modules : list (string * list CheckClass)
}.

(** * RepositoryData.update_data *)

(** [c in s] for a one-character [c]. *)
Fixpoint has_char (c : ascii) (s : string) : bool :=
  match s with
  | EmptyString => false
  | String c' s' => Ascii.eqb c c' || has_char c s'
  end.

(** [setattr(self, key, value)] for an attribute typed [bool], [str = None]
    or [str]. *)
Definition store_bool (set : bool -> RepositoryData -> RepositoryData) (v : pyval)
    : M RepositoryData unit :=
  match v with
  | PyBool b => modify (set b)
  | _ => beyond_model IllTyped
  end.

Definition store_optional (set : option string -> RepositoryData -> RepositoryData)
    (v : pyval) : M RepositoryData unit :=
  match v with
  | PyNone => modify (set None)
  | PyStr s => modify (set (Some s))
  | _ => beyond_model IllTyped
  end.

Definition store_text (set : string -> RepositoryData -> RepositoryData) (v : pyval)
    : M RepositoryData unit :=
  match v with
  | PyStr s => modify (set s)
  | _ => beyond_model IllTyped
  end.

(** [setattr(self, key, value)] for the keys that have no branch of their
    own in [update_data]. *)
Definition setattr (key : string) (v : pyval) : M RepositoryData unit :=
  if String.eqb key "category" then store_text set_category v
  else if String.eqb key "config_flow" then store_bool set_config_flow v
  else if String.eqb key "default_branch" then store_optional set_default_branch v
  else if String.eqb key "domain" then store_text set_domain v
  else if String.eqb key "etag_repository" then store_optional set_etag_repository v
  else if String.eqb key "filename" then store_text set_filename v
  else if String.eqb key "full_name" then store_text set_full_name v
  else if String.eqb key "homeassistant" then store_optional set_homeassistant v
  else if String.eqb key "installed" then store_bool set_installed v
  else if String.eqb key "installed_commit" then store_optional set_installed_commit v
  else if String.eqb key "installed_version" then store_optional set_installed_version v
  else if String.eqb key "last_commit" then store_optional set_last_commit v
  else if String.eqb key "last_version" then store_optional set_last_version v
  else if String.eqb key "last_updated" then modify (set_last_updated v)
  else if String.eqb key "new" then store_bool set_new v
  else if String.eqb key "persistent_directory" then store_optional set_persistent_directory v
  else if String.eqb key "releases" then store_bool set_releases v
  else if String.eqb key "selected_tag" then store_optional set_selected_tag v
  else if String.eqb key "zip_release" then store_bool set_zip_release v
  else ret tt.

Definition kept_attributes : list string :=
  ["category"; "config_flow"; "default_branch"; "domain"; "etag_repository";
   "filename"; "full_name"; "homeassistant"; "id"; "installed";
   "installed_commit"; "installed_version"; "last_commit"; "last_version";
   "last_updated"; "new"; "persistent_directory"; "pushed_at"; "releases";
   "selected_tag"; "zip_release"].

(** [str(value)] for the [id] attribute. *)
Definition str_of (v : pyval) : option string :=
  match v with
  | PyNone => Some "None"
  | PyBool true => Some "True"
  | PyBool false => Some "False"
  | PyInt z => Some (pretty z)
  | PyStr s => Some s
  | _ => None
  end.

Section UpdateData.

Variable env : Env.

(** The body of [for key in data] in [update_data]. *)
Definition update_key (key : string) (v : pyval) : M RepositoryData unit :=
  if negb (str_in key (kept_attributes ++ other_attributes)) then ret tt
  else if String.eqb key "pushed_at" then
    match v with
    | PyStr s =>
        if String.eqb s "" then ret tt
        else
          let format :=
            if has_char "Z" s then "%Y-%m-%dT%H:%M:%SZ" else "%Y-%m-%dT%H:%M:%S" in
          match strptime env s format with
          | Some t => modify (set_pushed_at (PushedTime t))
          | None => raise (PyException "ValueError" "time data does not match format")
          end
    | _ => raise (PyException "TypeError" "not a string")
    end
  else if String.eqb key "id" then
    match str_of v with
    | Some s => modify (set_id s)
    | None => beyond_model IllTyped
    end
  else if String.eqb key "country" then ret tt
  else setattr key v.

(** [RepositoryData.update_data]. *)
Definition update_data (d : list (string * pyval)) : M RepositoryData unit :=
  for_each d (fun kv => update_key (fst kv) (snd kv)).

End UpdateData.

(** * Backups *)

(** Modelled from the spec: the [Backup] class of
    [custom_components/hacs/backup.py] is not part of the sources at hand.
    Section 4.3: [create] copies the source into a temporary location and is
    a no-op when the source does not exist; [restore] copies the snapshot
    back over the source, overwriting, after which the local content is the
    snapshot (section 8, scenario 4); [cleanup] deletes the temporary
    storage.  The snapshot is kept in the object. *)
Record Backup := {
  local_path : string;
  snapshot : option (gmap string Node)
}.

Definition Backup_create (path : string) : M State Backup :=
  record (BackupCreate path);;
  w <- gets world;;
  ret {| local_path := path;
         snapshot := if os_path_exists path (fs w)
                     then Some (subtree path (fs w)) else None |}.

Definition Backup_restore (b : Backup) : M State unit :=
  record (BackupRestore (local_path b));;
  match snapshot b with
  | Some saved =>
      modify (on_world (fun w => set_fs (saved ∪ without_tree (local_path b) (fs w)) w))
  | None => ret tt
  end.

Definition Backup_cleanup (b : Backup) : M State unit :=
  record (BackupCleanup (local_path b)).

(** What [persistent_directory] is bound to in [async_install_repository]:
    a [Backup] of the persistent directory, or a [BackupNetDaemon], of which
    only the file system at the time of [create] is known. *)
Inductive Persistent :=
| PersistentBackup (b : Backup)
| PersistentNetDaemon (then_fs : gmap string Node).

(** * Methods of HacsRepository *)

(** Modelled from the spec: [version_to_download] of
    [custom_components/hacs/utils/version.py] is not part of the sources at
    hand.  Section 4.1: the version to fetch is the resolved version when
    releases are used and a version was resolved, otherwise the default
    branch; an explicit pinned ref always wins over both. *)
Definition version_to_download (r : HacsRepository) : option string :=
  match selected_tag (data r) with
  | Some pinned => Some pinned
  | None =>
      if releases (data r) then
        match last_version (data r) with
        | Some v => Some v
        | None => default_branch (data r)
        end
      else default_branch (data r)
  end.

(** [str(exception)]. *)
Definition exn_str (e : exn) : string :=
  match e with
  | HacsException msg => msg
  | PyException _ msg => msg
  | SystemExit msg => msg
  | _ => ""
  end.

(** Truth value of an attribute that is a [str] or [None]. *)
Definition truthy (v : option string) : bool :=
  match v with
  | Some s => negb (String.eqb s "")
  | None => false
  end.

(** [dict[key]] on [renamed_repositories]. *)
Fixpoint renamed (key : string) (d : list (string * string)) : option string :=
  match d with
  | [] => None
  | (k, v) :: d' => if String.eqb k key then Some v else renamed key d'
  end.

Section Lifecycle.

Variable hacs : Hacs.
Variable env : Env.

(** A call into the host application: recorded, then its outcome. *)
Definition call_host (c : Call) : M State unit :=
  record c;;
  match host env c with
  | None => ret tt
  | Some e => raise e
  end.

(** Modelled from the spec: [common_update_data] of
    [custom_components/hacs/utils/validate_repository.py] is not part of
    the sources at hand.  Sections 4.4 and 6: the repository attributes
    are fetched with the caching token, which is left out when the refresh
    is forced or the repository is installed; when the remote reports no
    change the prior state is kept; otherwise the attributes are written
    into the record and the new token is stored.  The fetch and the two
    assignments are those of [common_registration] in [base.py]. *)
Definition common_update_data (ignore_issues force : bool) : M State unit :=
  r <- gets self;;
  let etag :=
    if force || installed (data r) then None else etag_repository (data r) in
  try_except
    (fetched <- lift (get_repository env (full_name (data r)) etag);;
     modify (on_self (set_repository_object (Some (fst fetched))));;
     in_data (update_data env (attributes (fst fetched)));;
     modify (on_self (on_data (set_etag_repository (snd fetched)))))
    (fun e => match e with HacsNotModifiedException => true | _ => false end)
    (fun _ => ret tt).

(** [update_data(json.loads(..))]: iterating a value that is not a
    dictionary and indexing it by its elements raises. *)
Definition update_data_from (v : pyval) : M State unit :=
  match v with
  | PyDict d => in_data (update_data env d)
  | _ => raise (PyException "TypeError" "not a dictionary")
  end.

(** [get_repository_manifest_content]. *)
Definition get_repository_manifest_content : M State unit :=
  r <- gets self;;
  if negb (str_in "hacs.json" (tree r)) then
    if system_action hacs then
      raise (HacsException "::error:: No hacs.json file in the root of the repository.")
    else ret tt
  else
    modify (on_self (set_ref (version_to_download r)));;
    try_except
      (r <- gets self;;
       content <-
         match repository_object r with
         | Some object => lift (get_contents env object "hacs.json" (ref r))
         | None => raise (PyException "AttributeError" "'NoneType' object has no attribute 'get_contents'")
         end;;
       parsed <- lift (json_loads env content);;
       from_dict <- lift (HacsManifest_from_dict parsed);;
       modify (on_self (set_repository_manifest from_dict));;
       parsed_again <- lift (json_loads env content);;
       update_data_from parsed_again)
      is_Exception
      (fun exception =>
         if system_action hacs then
           raise (HacsException
                    ("::error:: hacs.json file is not valid (" ++ exn_str exception ++ ")."))
         else ret tt).

(** [common_update]. *)
Definition common_update (ignore_issues force : bool) : M State bool :=
  r <- gets self;;
  let current_etag := etag_repository (data r) in
  try_except
    (common_update_data ignore_issues force)
    (fun e => match e with HacsRepositoryExistException => true | _ => false end)
    (fun _ =>
       r <- gets self;;
       match renamed (full_name (data r)) (renamed_repositories hacs) with
       | Some moved => modify (on_self (on_data (set_full_name moved)))
       | None => raise (PyException "KeyError" (full_name (data r)))
       end;;
       common_update_data ignore_issues force);;
  r <- gets self;;
  if negb (installed (data r))
     && opt_eqb current_etag (etag_repository (data r))
     && negb force
  then ret false
  else
    object <-
      match repository_object r with
      | Some object => ret object
      | None => raise (PyException "AttributeError" "'NoneType' object has no attribute 'attributes'")
      end;;
    modify (on_self (on_data (set_last_updated (dict_get "pushed_at" (attributes object) (PyInt 0)))));;
    commit <- lift (fetch_last_commit env object);;
    modify (on_self (on_data (set_last_commit commit)));;
    get_repository_manifest_content;;
    r <- gets self;;
    info <- lift (get_info_md_content env r);;
    modify (on_self (set_additional_info info));;
    ret true.

(** ** Downloading release archives *)

(** Where [extractall(self.content.path.local)] writes an archive entry;
    without a path the entries go to the working directory. *)
Definition extract_to (local : option string) (entry : string) : string :=
  match local with
  | Some dir => dir ++ "/" ++ entry
  | None => entry
  end.

Definition write_entries (local : option string) (entries : list (string * Node))
    (f : gmap string Node) : gmap string Node :=
  fold_left (fun acc e => <[extract_to local (fst e) := snd e]> acc) entries f.

(** [async_download_zip_file]. *)
Definition async_download_zip_file (content : Asset) : M State unit :=
  try_except
    (record (DownloadFile (download_url content));;
     filecontent <- lift (async_download_file env (download_url content));;
     match filecontent with
     | None => append_error ("[" ++ asset_name content ++ "] was not downloaded")
     | Some bytes =>
         temp_dir <- lift (mkdtemp env);;
         r <- gets self;;
         let temp_file := temp_dir ++ "/" ++ filename (data r) in
         result <- lift (async_save_file env temp_file bytes);;
         entries <- lift (zip_entries env temp_file);;
         modify (on_world (fun w => set_fs (write_entries (content_path_local r) entries (fs w)) w));;
         if result then ret tt
         else append_error ("[" ++ asset_name content ++ "] was not downloaded")
     end)
    (fun _ => true)
    (fun _ => append_error "Download was not completed").

(** The tag a release is matched against: [self.ref.split("/")[1]]. *)
Definition ref_tag (r : HacsRepository) : result string :=
  match ref r with
  | None => Raises (PyException "AttributeError" "'NoneType' object has no attribute 'split'")
  | Some text =>
      match split "/" text with
      | _ :: tag :: _ => Returns tag
      | _ => Raises (PyException "IndexError" "list index out of range")
      end
  end.

(** The [for release in self.releases.objects] loop: the assets of the
    last release whose tag matches; [contents] starts as [False], which
    like the empty list means there is nothing to fetch. *)
Fixpoint matching_assets (r : HacsRepository) (objects : list Release)
    (contents : list Asset) : result (list Asset) :=
  match objects with
  | [] => Returns contents
  | release :: rest =>
      match ref_tag r with
      | Returns tag =>
          matching_assets r rest
            (if String.eqb (tag_name release) tag then assets release else contents)
      | Raises e => Raises e
      end
  end.

(** [download_zip_files]; the queue runs the downloads it was given, here
    in the order they were added. *)
Definition download_zip_files : M State unit :=
  try_except
    (r <- gets self;;
     contents <- lift (matching_assets r (releases_objects r) []);;
     for_each contents async_download_zip_file)
    (fun _ => true)
    (fun _ => append_error "Download was not completed").

(** The [else] branch of the download step: [download_content(self)]. *)
Definition run_download_content : M State unit :=
  record DownloadContent;;
  s <- get;;
  let '(files, errors) := download_content env (self s) (fs (world s)) in
  modify (on_world (set_fs files));;
  modify (on_self (fun r => set_validate_errors (validate_errors r ++ errors) r)).

(** ** Uninstall *)

(** The part of [remove_local_directory] after [local_path] is bound;
    [os.path.exists(None)] raises. *)
Definition remove_path (local_path : option string) : M State bool :=
  match local_path with
  | None => raise (PyException "TypeError" "stat: path should be string, not NoneType")
  | Some path =>
      r <- gets self;;
      w <- gets world;;
      if os_path_exists path (fs w) then
        if negb (is_safe env hacs path) then
          logger ERROR (repr (str_title env) r ++ " Path " ++ path ++ " is blocked from removal");;
          ret false
        else
          (if str_in (category (data r)) ["python_script"] then os_remove path
           else shutil_rmtree path);;
          wait_until_gone path;;
          ret true
      else ret true
  end.

(** The theme file [remove_local_directory] deletes first. *)
Definition theme_file (r : HacsRepository) : string :=
  config_path hacs ++ "/" ++ theme_path hacs ++ "/" ++ name (data r) ++ ".yaml".

(** The handler of [remove_local_directory] names [local_path] in its debug
    line; while the body has not assigned that variable yet, reading it
    raises, and the exception leaves the method. *)
Definition unbound_local_path : exn :=
  PyException "UnboundLocalError"
    "cannot access local variable 'local_path' where it is not associated with a value".

(** The [try] of [remove_local_directory] from the point where [local_path]
    is bound: every exception is caught and answered with [False]. *)
Definition guarded_removal (local_path : option string) : M State bool :=
  try_except (remove_path local_path) (fun _ => true) (fun _ => ret false).

(** [remove_local_directory].  The [try] spans the whole body; the only
    step that can raise before [local_path] is assigned is the deletion of
    the theme file, and there the handler itself raises. *)
Definition remove_local_directory : M State bool :=
  r <- gets self;;
  if String.eqb (category (data r)) "python_script" then
    guarded_removal (Some (py_str (content_path_local r) ++ "/" ++ name (data r) ++ ".py"))
  else if String.eqb (category (data r)) "theme" then
    w <- gets world;;
    try_except
      (when (os_path_exists (theme_file r) (fs w)) (os_remove (theme_file r)))
      (fun _ => true)
      (fun _ => raise unbound_local_path);;
    guarded_removal (content_path_local r)
  else if String.eqb (category (data r)) "integration" then
    if String.eqb (domain (data r)) "" then
      logger ERROR (repr (str_title env) r ++ " Missing domain");;
      ret false
    else guarded_removal (content_path_local r)
  else guarded_removal (content_path_local r).

(** Modelled from the spec: [async_remove_store] of
    [custom_components/hacs/utils/store.py] is not part of the sources at
    hand.  Section 4.4, uninstall: it deletes the persisted per-repository
    store entry. *)
Definition async_remove_store (key : string) : M State unit :=
  record (RemoveStore key);;
  modify (on_world (fun w => set_store (store w ∖ {[key]}) w)).

(** [uninstall]. *)
Definition uninstall : M State unit :=
  removed <- remove_local_directory;;
  if negb removed then raise (HacsException "Could not uninstall")
  else
    modify (on_self (on_data (set_installed false)));;
    r <- gets self;;
    (if String.eqb (category (data r)) "integration" then
       if config_flow (data r) then call_host ReloadCustomComponents
       else modify (on_self (set_pending_restart true))
     else if String.eqb (category (data r)) "theme" then
       try_except (call_host (ServiceCall "frontend" "reload_themes"))
         (fun _ => true) (fun _ => ret tt)
     else ret tt);;
    r <- gets self;;
    async_remove_store ("hacs/" ++ id (data r) ++ ".hacs");;
    modify (on_self (on_data (set_installed_version None)));;
    modify (on_self (on_data (set_installed_commit None)));;
    r <- gets self;;
    async_fire {| event_type := "hacs/repository"; event_id := 1337;
                  action := "uninstall"; repository := full_name (data r) |}.

End Lifecycle.

Section Install.

Variable hacs : Hacs.
Variable env : Env.

(** Modelled from the spec: the [Validate] class of
    [custom_components/hacs/utils/validate.py] is not part of the sources
    at hand.  Section 4.4, install step 4: the attempt has failed when the
    error list is non-empty and proceeds when it is empty. *)
Definition validate_success (r : HacsRepository) : bool :=
  match validate_errors r with
  | [] => true
  | _ :: _ => false
  end.

(** The first backup step of [async_install_repository]: what
    [persistent_directory] is bound to. *)
Definition backup_persistent (local : string) : M State (option Persistent) :=
  r <- gets self;;
  if installed (data r) && String.eqb (category (data r)) "netdaemon" then
    record NetDaemonCreate;;
    w <- gets world;;
    ret (Some (PersistentNetDaemon (fs w)))
  else if truthy (persistent_directory (data r)) then
    w <- gets world;;
    let path := local ++ "/" ++ py_str (persistent_directory (data r)) in
    if os_path_exists path (fs w) then
      b <- Backup_create path;;
      ret (Some (PersistentBackup b))
    else ret None
  else ret None.

Definition restore_persistent (p : Persistent) : M State unit :=
  match p with
  | PersistentBackup b => Backup_restore b;; Backup_cleanup b
  | PersistentNetDaemon then_fs =>
      record NetDaemonRestore;;
      modify (on_world (fun w => set_fs (netdaemon_restore env then_fs (fs w)) w));;
      record NetDaemonCleanup
  end.

(** [backup] is bound only when the guard held; using it unbound raises. *)
Definition bound (backup : option Backup) : M State Backup :=
  match backup with
  | Some b => ret b
  | None => raise (PyException "UnboundLocalError" "backup")
  end.

(** [async_install_repository], from the download step to the end;
    [version], [persistent_directory] and [backup] are the local variables
    bound by the steps before it. *)
Definition finish_install (version : option string)
    (persistent_directory : option Persistent) (backup : option Backup)
    : M State unit :=
  r <- gets self;;
  (if zip_release (data r) && negb (opt_eqb version (default_branch (data r)))
   then download_zip_files env
   else run_download_content env);;
  r <- gets self;;
  when (negb (validate_success r))
    (for_each (validate_errors r) (logger ERROR);;
     r <- gets self;;
     when (installed (data r) && negb (content_single r))
       (b <- bound backup;; Backup_restore b));;
  r <- gets self;;
  when (installed (data r) && negb (content_single r))
    (b <- bound backup;; Backup_cleanup b);;
  match persistent_directory with
  | Some p => restore_persistent p
  | None => ret tt
  end;;
  r <- gets self;;
  when (validate_success r)
    (modify (on_self (on_data (set_installed true)));;
     r <- gets self;;
     modify (on_self (on_data (set_installed_commit (last_commit (data r)))));;
     r <- gets self;;
     if opt_eqb version (default_branch (data r)) then
       modify (on_self (on_data (set_installed_version None)))
     else
       modify (on_self (on_data (set_installed_version version)))).

(** [async_install_repository], up to the backups; it goes on with
    [finish_install]. *)
Definition async_install_repository : M State unit :=
  record UpdateRepository;;
  update_repository env;;
  r <- gets self;;
  match content_path_local r with
  | None => raise (HacsException "repository.content.path.local is None")
  | Some local =>
      modify (on_self (set_validate_errors []));;
      r <- gets self;;
      if negb (can_download hacs r) then
        raise (HacsException "The version of Home Assistant is not compatible with this version")
      else
        let version := version_to_download r in
        modify (on_self (set_ref
          (if opt_eqb version (default_branch (data r)) then version
           else Some ("tags/" ++ py_str version))));;
        persistent_directory <- backup_persistent local;;
        r <- gets self;;
        backup <-
          (if installed (data r) && negb (content_single r) then
             b <- Backup_create local;; ret (Some b)
           else ret None);;
        finish_install version persistent_directory backup
  end.

(** [_async_post_install]; [async_post_installation] does nothing in the
    base class. *)
Definition async_post_install : M State unit :=
  modify (on_self (on_data (set_new false)));;
  r <- gets self;;
  async_fire {| event_type := "hacs/repository"; event_id := 1337;
                action := "install"; repository := full_name (data r) |}.

(** [async_install]; [async_pre_install] does nothing in the base class. *)
Definition async_install : M State unit :=
  async_install_repository;;
  async_post_install.

End Install.

(** * The validation package *)

(** [needle in text]. *)
Fixpoint contains (needle text : string) : bool :=
  String.prefix needle text
  || match text with
     | EmptyString => false
     | String _ rest => contains needle rest
     end.

(** [text.endswith(tail)]. *)
Definition ends_with (tail text : string) : bool :=
  (String.length tail <=? String.length text)%nat
  && String.eqb (String.substring (String.length text - String.length tail)
                                  (String.length tail) text) tail.

(** [text[-3:]] and [text[:-3]]. *)
Definition last3 (text : string) : string :=
  String.substring (String.length text - 3) 3 text.
Definition drop_last3 (text : string) : string :=
  String.substring 0 (String.length text - 3) text.

(** [text.replace("/", ".")]. *)
Fixpoint dotted (text : string) : string :=
  match text with
  | EmptyString => EmptyString
  | String c rest => String (if Ascii.eqb c "/" then "."%char else c) (dotted rest)
  end.

(** [check in RULES[category]]: the same class object. *)
Definition same_class (a b : CheckClass) : bool :=
  String.eqb (class_module a) (class_module b)
  && String.eqb (class_name a) (class_name b).

Section Validate.

Variable hacs : Hacs.
Variable env : Env.

Definition validate_root : string := "custom_components/hacs/validate/".

(** The inner loop of [load_repository_checks] over the classes of one
    module. *)
Fixpoint register_classes (category : string) (classes : list CheckClass)
    (rules : gmap string (list CheckClass)) : gmap string (list CheckClass) :=
  match classes with
  | [] => rules
  | check :: rest =>
      let registered := default [] (rules !! category) in
      register_classes category rest
        (if negb (hacs_action hacs) && String.eqb (base_name check) "ActionValidationBase"
         then rules
         else if contains (dotted validate_root ++ category) (class_module check) then
           if existsb (same_class check) registered then rules
           else <[category := (registered ++ [check])%list]> rules
         else rules)
  end.

(** The outer loop of [load_repository_checks] over the files found. *)
Fixpoint register_files (files : list (string * list CheckClass))
    (rules : gmap string (list CheckClass)) : gmap string (list CheckClass) :=
  match files with
  | [] => rules
  | (filename, classes) :: rest =>
      if String.prefix "__pycache__" filename
         || ends_with "check.py" filename
         || contains "__init__.py" filename
         || negb (String.eqb (last3 filename) ".py")
      then register_files rest rules
      else
        let category := List.hd "" (split "/" (drop_last3 filename)) in
        let rules :=
          match rules !! category with
          | None => <[category := []]> rules
          | Some _ => rules
          end in
        register_files rest (register_classes category classes rules)
  end.

(** [load_repository_checks]. *)
Definition load_repository_checks : M State unit :=
  if negb (system_running hacs) then ret tt
  else modify (on_world (fun w => set_RULES (register_files (check_modules env) (RULES w)) w)).

(** [check(repository)] followed by [_async_run_check()]: the run is
    recorded and leaves whether the check failed. *)
Fixpoint run_checks (r : HacsRepository) (checks : list CheckClass) : M State (list bool) :=
  match checks with
  | [] => ret []
  | check :: rest =>
      record (RunCheck (class_module check) (class_name check));;
      results <- run_checks r rest;;
      ret (fails_on check r :: results)
  end.

(** [async_run_repository_checks]; [asyncio.gather] returns when every
    check has run. *)
Definition async_run_repository_checks : M State unit :=
  if negb (system_running hacs) then ret tt
  else
    w <- gets world;;
    when (bool_decide (dom (RULES w) = ∅))
      (logger INFO "loading checks";; load_repository_checks);;
    w <- gets world;;
    r <- gets self;;
    let checks :=
      (default [] (RULES w !! "common")
       ++ default [] (RULES w !! category (data r)))%list in
    results <- run_checks r checks;;
    let total := length checks in
    let failed := length (filter (fun x => x = true) results) in
    if negb (failed =? 0)%nat && hacs_action hacs then
      raise (SystemExit ("::error::" ++ pretty failed ++ "/" ++ pretty total ++ " checks failed"))
    else if negb (failed =? 0)%nat then
      logger ERROR (pretty failed ++ "/" ++ pretty total ++ " checks failed")
    else
      logger DEBUG ("All (" ++ pretty total ++ ") checks passed").

End Validate.

(** * Vocabulary of the statements *)

(** The calls that fetch content from the remote. *)
Definition is_download (c : Call) : bool :=
  match c with
  | DownloadContent | DownloadFile _ => true
  | _ => false
  end.

(** A state after a download step: errors appended, files changed and
    downloads recorded, nothing else touched. *)
Definition downloaded (s : State) (errors : list string) (files : gmap string Node)
    (downloads : list Call) : State :=
  {| self := set_validate_errors (validate_errors (self s) ++ errors) (self s);
     world := set_fs files (set_calls (calls (world s) ++ downloads) (world s)) |}.

(** The ref an install fetches. *)
Definition install_ref (r : HacsRepository) : option string :=
  if opt_eqb (version_to_download r) (default_branch (data r))
  then version_to_download r
  else Some ("tags/" ++ py_str (version_to_download r)).

(** The record data after a successful install of version [version]. *)
Definition installed_data (version : option string) (d : RepositoryData) : RepositoryData :=
  set_installed_version
    (if opt_eqb version (default_branch d) then None else version)
    (set_installed_commit (last_commit d) (set_installed true d)).

(** The log lines of a list of download errors. *)
Definition error_lines (errors : list string) : list (Level * string) :=
  map (fun e => (ERROR, e)) errors.

(** The calls that put a persistent directory back after an install. *)
Definition persistent_calls (p : option Persistent) : list Call :=
  match p with
  | None => []
  | Some (PersistentBackup b) =>
      [BackupRestore (local_path b); BackupCleanup (local_path b)]
  | Some (PersistentNetDaemon _) => [NetDaemonRestore; NetDaemonCleanup]
  end.

(** What [async_install_repository] sets aside as [persistent_directory]
    in a state, for the local path [local]. *)
Definition kept_aside (local : string) (s : State) : option Persistent :=
  let r := self s in
  if installed (data r) && String.eqb (category (data r)) "netdaemon" then
    Some (PersistentNetDaemon (fs (world s)))
  else if truthy (persistent_directory (data r)) then
    let path := local ++ "/" ++ py_str (persistent_directory (data r)) in
    if os_path_exists path (fs (world s)) then
      Some (PersistentBackup {| local_path := path;
                                snapshot := Some (subtree path (fs (world s))) |})
    else None
  else None.

(** The calls that set a persistent directory aside before an install. *)
Definition aside_calls (p : option Persistent) : list Call :=
  match p with
  | None => []
  | Some (PersistentBackup b) => [BackupCreate (local_path b)]
  | Some (PersistentNetDaemon _) => [NetDaemonCreate]
  end.

(** Whether the main content is backed up: the repository is installed and
    its content is not a single file. *)
Definition backed_up (r : HacsRepository) : bool :=
  installed (data r) && negb (content_single r).

(** The calls on the main backup after the download step. *)
Definition backup_calls (kept : bool) (local : string) (errors : list string) : list Call :=
  if kept then
    match errors with
    | [] => [BackupCleanup local]
    | _ :: _ => [BackupRestore local; BackupCleanup local]
    end
  else [].

(** The event [_async_post_install] fires. *)
Definition install_event (r : HacsRepository) : Event :=
  {| event_type := "hacs/repository"; event_id := 1337;
     action := "install"; repository := full_name (data r) |}.

(** The record of one check run. *)
Definition run_call (check : CheckClass) : Call :=
  RunCheck (class_module check) (class_name check).

Section Vocabulary.

Variable hacs : Hacs.
Variable env : Env.

(** The registry the pipeline works with: loaded first when it is empty. *)
Definition rules_in_force (w : World) : gmap string (list CheckClass) :=
  if bool_decide (dom (RULES w) = ∅)
  then register_files hacs (check_modules env) (RULES w)
  else RULES w.

(** The checks that apply to the repository of a state. *)
Definition applicable (s : State) : list CheckClass :=
  (default [] (rules_in_force (world s) !! "common")
   ++ default [] (rules_in_force (world s) !! category (data (self s))))%list.

(** The line logged when the registry has to be loaded. *)
Definition loading_lines (w : World) : list (Level * string) :=
  if bool_decide (dom (RULES w) = ∅) then [(INFO, "loading checks")] else [].

(** What the [try] block of [get_repository_manifest_content] reads
    before it changes the repository: the manifest file fetched at the ref,
    parsed, and turned into a manifest object. *)
Definition read_manifest (r : HacsRepository) : result HacsManifest :=
  match repository_object r with
  | None => Raises (PyException "AttributeError" "'NoneType' object has no attribute 'get_contents'")
  | Some object =>
      match get_contents env object "hacs.json" (ref r) with
      | Returns content =>
          match json_loads env content with
          | Returns parsed => HacsManifest_from_dict parsed
          | Raises e => Raises e
          end
      | Raises e => Raises e
      end
  end.

(** The path [remove_local_directory] works on: the script file for
    [python_script], the local content path otherwise. *)
Definition removal_target (r : HacsRepository) : option string :=
  if String.eqb (category (data r)) "python_script"
  then Some (py_str (content_path_local r) ++ "/" ++ name (data r) ++ ".py")
  else content_path_local r.

(** The file system once a theme has lost its file in the themes
    directory, which [remove_local_directory] deletes before it looks at
    the target. *)
Definition theme_cleared (r : HacsRepository) (f : gmap string Node) : gmap string Node :=
  if String.eqb (category (data r)) "python_script" then f
  else if String.eqb (category (data r)) "theme" then
    match f !! theme_file hacs r with
    | Some (File _) => delete (theme_file hacs r) f
    | _ => f
    end
  else f.


(** The node the removal of the target needs to find there. *)
Definition removable (r : HacsRepository) (node : Node) : bool :=
  match node with
  | File _ => str_in (category (data r)) ["python_script"]
  | Dir => negb (str_in (category (data r)) ["python_script"])
  end.



Definition store_key (r : HacsRepository) : string :=
  "hacs/" ++ id (data r) ++ ".hacs".

End Vocabulary.

(** ** The registry of checks *)

(** What makes two check classes the same class: where they are defined
    and their name. *)
Definition class_key (check : CheckClass) : string * string :=
  (class_module check, class_name check).

(** A registry in which every check sits under the category whose package
    defines it and, outside automated mode, derives from no action-only
    base. *)
Definition well_registered (hacs : Hacs) (rules : gmap string (list CheckClass)) : Prop :=
  forall category registered check,
    rules !! category = Some registered -> In check registered ->
    contains (dotted validate_root ++ category) (class_module check) = true
    /\ (hacs_action hacs = false -> base_name check <> "ActionValidationBase").

(** A registry that lists no class twice under a category. *)
Definition without_duplicates (rules : gmap string (list CheckClass)) : Prop :=
  forall category registered,
    rules !! category = Some registered -> NoDup (map class_key registered).

(** A registry that has everything another one has, in the same order,
    and possibly more after it. *)
Definition extends (before after : gmap string (list CheckClass)) : Prop :=
  forall category registered,
    before !! category = Some registered ->
    exists added, after !! category = Some (registered ++ added)%list.

(** A check that the inner loop of [load_repository_checks] passes over
    under a category: filtered out by one of its tests, or registered
    already. *)
Definition settled (hacs : Hacs) (category : string)
    (rules : gmap string (list CheckClass)) (check : CheckClass) : bool :=
  negb (hacs_action hacs) && String.eqb (base_name check) "ActionValidationBase"
  || negb (contains (dotted validate_root ++ category) (class_module check))
  || existsb (same_class check) (default [] (rules !! category)).

(** A file that the outer loop passes over: skipped by its name, or with
    its category in the registry and every class settled. *)
Definition file_settled (hacs : Hacs) (rules : gmap string (list CheckClass))
    (file : string * list CheckClass) : Prop :=
  let filename := fst file in
  let category := List.hd "" (split "/" (drop_last3 filename)) in
  String.prefix "__pycache__" filename || ends_with "check.py" filename
    || contains "__init__.py" filename || negb (String.eqb (last3 filename) ".py") = true
  \/ (is_Some (rules !! category)
      /\ Forall (fun check => settled hacs category rules check = true) (snd file)).

(** * Example instances *)

Module Example.

(** A host on version 2023.12.0, interactive mode. *)
Definition host_2023_12 : Hacs := {|
  system_action := false; hacs_action := false; system_running := true;
  ha_version := "2023.12.0"; config_path := "/config"; theme_path := "themes";
  renamed_repositories := [] |}.

(** The same host in automated mode. *)
Definition host_action : Hacs := {|
  system_action := true; hacs_action := true; system_running := true;
  ha_version := "2023.12.0"; config_path := "/config"; theme_path := "themes";
  renamed_repositories := [] |}.

(** The same host, not running. *)
Definition host_stopped : Hacs := {|
  system_action := false; hacs_action := false; system_running := false;
  ha_version := "2023.12.0"; config_path := "/config"; theme_path := "themes";
  renamed_repositories := [] |}.

(** Collaborators of a quiet remote: nothing changed, every download
    works and brings nothing, every path is safe. *)
Definition quiet : Env := {|
  strptime := fun _ _ => None;
  json_loads := fun text =>
    if String.eqb text "{}" then Returns (PyDict [])
    else Raises (PyException "JSONDecodeError" "Expecting value");
  get_repository := fun _ _ => Raises HacsNotModifiedException;
  fetch_last_commit := fun _ => Returns None;
  get_contents := fun _ _ _ => Raises AIOGitHubAPIException;
  get_info_md_content := fun _ => Returns None;
  download_content := fun _ files => (files, []);
  async_download_file := fun _ => Returns None;
  mkdtemp := Returns "/tmp/tmp0";
  async_save_file := fun _ _ => Returns true;
  zip_entries := fun _ => Returns [];
  is_safe := fun _ _ => true;
  str_title := fun text => text;
  host := fun _ => None;
  update_repository := ret tt;
  netdaemon_restore := fun _ files => files;
  check_modules := [] |}.

Definition empty_world : World := {|
  fs := ∅; bus := []; store := ∅; log := []; calls := []; RULES := ∅ |}.

(** [acme/widget], a plugin on branch [main], as registration leaves it. *)
Definition widget : HacsRepository :=
  on_data (fun d => set_category "plugin" (set_full_name "acme/widget"
             (set_default_branch (Some "main") (set_id "42"
             (set_last_commit (Some "def456") d)))))
    {| data := RepositoryData_default;
       content_path_local := Some "/config/www/community/widget";
       content_single := false; repository_object := None;
       repository_manifest := {| manifest := [] |}; validate_errors := [];
       releases_objects := []; pending_restart := false;
       tree := ["widget.js"]; ref := None; additional_info := None |}.

(** The widget installed at version [installed_at], with [latest] the
    latest release. *)
Definition released (installed_at latest : string) : HacsRepository :=
  on_data (fun d => set_installed true (set_new false (set_releases true
             (set_installed_version (Some installed_at)
             (set_last_version (Some latest) d))))) widget.

(** The widget installed at commit [abc123], without releases. *)
Definition tracking : HacsRepository :=
  on_data (fun d => set_installed true (set_new false
             (set_installed_commit (Some "abc123") d))) widget.

(** The tracking widget once its manifest asks for a host of at least
    2024.1.0. *)
Definition needs_2024 : HacsRepository :=
  on_data (set_homeassistant (Some "2024.1.0")) tracking.

(** A released widget whose manifest asks for a host of at least
    2024.1.0. *)
Definition released_needs_2024 : HacsRepository :=
  on_data (set_homeassistant (Some "2024.1.0")) (released "1.0.0" "2.0.0").

(** The widget with a manager manifest in its tree and its remote object
    attached. *)
Definition with_manifest : HacsRepository :=
  {| data := data widget;
     content_path_local := content_path_local widget;
     content_single := false;
     repository_object := Some {| attributes := [] |};
     repository_manifest := {| manifest := [] |}; validate_errors := [];
     releases_objects := []; pending_restart := false;
     tree := ["hacs.json"; "widget.js"]; ref := None; additional_info := None |}.

(** A remote whose [hacs.json] is the one character of an unfinished
    object, which no JSON parser accepts. *)
Definition broken_manifest : Env := {|
  strptime := fun _ _ => None;
  json_loads := fun text =>
    if String.eqb text "{}" then Returns (PyDict [])
    else Raises (PyException "JSONDecodeError" "Expecting value");
  get_repository := fun _ _ => Raises HacsNotModifiedException;
  fetch_last_commit := fun _ => Returns None;
  get_contents := fun _ _ _ => Returns "{";
  get_info_md_content := fun _ => Returns None;
  download_content := fun _ files => (files, []);
  async_download_file := fun _ => Returns None;
  mkdtemp := Returns "/tmp/tmp0";
  async_save_file := fun _ _ => Returns true;
  zip_entries := fun _ => Returns [];
  is_safe := fun _ _ => true;
  str_title := fun text => text;
  host := fun _ => None;
  update_repository := ret tt;
  netdaemon_restore := fun _ files => files;
  check_modules := [] |}.

(** A world in which the widget is on disk, with its store entry. *)
Definition widget_on_disk : World := {|
  fs := {[ "/config/www/community/widget" := Dir;
           "/config/www/community/widget/widget.js" := File "console.log(1)";
           "/config/www/community/other" := Dir ]};
  bus := []; store := {[ "hacs/42.hacs" ]}; log := []; calls := []; RULES := ∅ |}.


(** Collaborators as [quiet], except that [download_content] fails to
    fetch one file, leaves a partial file behind and reports the error. *)
Definition failing_download : Env := {|
  strptime := strptime quiet; json_loads := json_loads quiet;
  get_repository := get_repository quiet;
  fetch_last_commit := fetch_last_commit quiet;
  get_contents := get_contents quiet;
  get_info_md_content := get_info_md_content quiet;
  download_content := fun _ files =>
    (<["/config/www/community/widget/widget.js" := File ""]> files,
     ["[widget.js] was not downloaded"]);
  async_download_file := async_download_file quiet;
  mkdtemp := mkdtemp quiet; async_save_file := async_save_file quiet;
  zip_entries := zip_entries quiet;
  is_safe := is_safe quiet;
  str_title := str_title quiet;
  host := host quiet; update_repository := update_repository quiet;
  netdaemon_restore := netdaemon_restore quiet;
  check_modules := check_modules quiet |}.

(** The widget pinned to the branch [dev]; it has no releases. *)
Definition pinned : HacsRepository :=
  on_data (set_selected_tag (Some "dev")) widget.

(** Two validation checks: one that every repository fails, registered
    under [common], and one that every repository passes, registered under
    [plugin]. *)
Definition always_fails : CheckClass := {|
  class_name := "RepositoryDescription";
  class_module := "custom_components.hacs.validate.common.repository_description";
  base_name := "ValidationBase";
  fails_on := fun _ => true |}.

Definition always_passes : CheckClass := {|
  class_name := "PluginFile";
  class_module := "custom_components.hacs.validate.plugin.plugin_file";
  base_name := "ValidationBase";
  fails_on := fun _ => false |}.

Definition checked_world : World := {|
  fs := ∅; bus := []; store := ∅; log := []; calls := [];
  RULES := {[ "common" := [always_fails]; "plugin" := [always_passes] ]} |}.

End Example.

(** * Further example instances *)

Module Sample.

(** A plugin whose repository name has both separators. *)
Definition cool_card : HacsRepository :=
  on_data (set_full_name "acme/my-cool_card") Example.widget.

(** The widget distributed as a release archive: installed at 1.0.0, with
    2.0.0 the latest version, while the only release published carries the
    tag 1.5.0. *)
Definition archive : Asset :=
  {| asset_name := "widget.zip"; download_url := "https://example.test/widget.zip" |}.

Definition zipped : HacsRepository :=
  {| data := set_zip_release true (set_filename "widget.zip"
               (data (Example.released "1.0.0" "2.0.0")));
     content_path_local := Some "/config/www/community/widget";
     content_single := false; repository_object := None;
     repository_manifest := {| manifest := [] |}; validate_errors := [];
     releases_objects := [{| tag_name := "1.5.0"; assets := [archive] |}];
     pending_restart := false; tree := ["widget.js"];
     ref := Some "tags/2.0.0"; additional_info := None |}.

(** The same repository with a ref that names a branch. *)
Definition zipped_on_branch : HacsRepository := set_ref (Some "main") zipped.

(** An integration that registration left without a domain, and one with
    its domain. *)
Definition nameless_integration : HacsRepository :=
  on_data (set_category "integration") Example.tracking.

Definition integration : HacsRepository :=
  on_data (fun d => set_category "integration" (set_domain "widget" d)) Example.tracking.

(** A world in which a file sits where the directory of the widget is
    expected. *)
Definition file_in_the_way : World := {|
  fs := {[ "/config/www/community/widget" := File "not a directory" ]};
  bus := []; store := {[ "hacs/42.hacs" ]}; log := []; calls := []; RULES := ∅ |}.

(** Collaborators as [Example.quiet], except that the host fails to reload
    the custom components. *)
Definition reload_fails : Env := {|
  strptime := strptime Example.quiet; json_loads := json_loads Example.quiet;
  get_repository := get_repository Example.quiet;
  fetch_last_commit := fetch_last_commit Example.quiet;
  get_contents := get_contents Example.quiet;
  get_info_md_content := get_info_md_content Example.quiet;
  download_content := download_content Example.quiet;
  async_download_file := async_download_file Example.quiet;
  mkdtemp := mkdtemp Example.quiet; async_save_file := async_save_file Example.quiet;
  zip_entries := zip_entries Example.quiet;
  is_safe := is_safe Example.quiet;
  str_title := fun text => text;
  host := fun c =>
    match c with
    | ReloadCustomComponents => Some (PyException "HomeAssistantError" "reload failed")
    | _ => None
    end;
  update_repository := update_repository Example.quiet;
  netdaemon_restore := netdaemon_restore Example.quiet;
  check_modules := check_modules Example.quiet |}.

(** Collaborators as [Example.quiet], except that the remote answers that
    the repository exists under another name. *)
Definition moved : Env := {|
  strptime := strptime Example.quiet; json_loads := json_loads Example.quiet;
  get_repository := fun _ _ => Raises HacsRepositoryExistException;
  fetch_last_commit := fetch_last_commit Example.quiet;
  get_contents := get_contents Example.quiet;
  get_info_md_content := get_info_md_content Example.quiet;
  download_content := download_content Example.quiet;
  async_download_file := async_download_file Example.quiet;
  mkdtemp := mkdtemp Example.quiet; async_save_file := async_save_file Example.quiet;
  zip_entries := zip_entries Example.quiet;
  is_safe := is_safe Example.quiet;
  str_title := str_title Example.quiet;
  host := host Example.quiet;
  update_repository := update_repository Example.quiet;
  netdaemon_restore := netdaemon_restore Example.quiet;
  check_modules := check_modules Example.quiet |}.

(** Collaborators as [Example.quiet], except that the manager manifest of
    the remote names the repository, its country and a date of the last push
    that is not a date. *)
Definition manifest_with_bad_date : Env := {|
  strptime := strptime Example.quiet;
  json_loads := fun text =>
    if String.eqb text "manifest" then
      Returns (PyDict [("name", PyStr "Cool Widget"); ("country", PyStr "NO");
                       ("filename", PyStr "widget.js"); ("pushed_at", PyStr "yesterday");
                       ("zip_release", PyBool true)])
    else Raises (PyException "JSONDecodeError" "Expecting value");
  get_repository := get_repository Example.quiet;
  fetch_last_commit := fetch_last_commit Example.quiet;
  get_contents := fun _ _ _ => Returns "manifest";
  get_info_md_content := get_info_md_content Example.quiet;
  download_content := download_content Example.quiet;
  async_download_file := async_download_file Example.quiet;
  mkdtemp := mkdtemp Example.quiet; async_save_file := async_save_file Example.quiet;
  zip_entries := zip_entries Example.quiet;
  is_safe := is_safe Example.quiet;
  str_title := str_title Example.quiet;
  host := host Example.quiet;
  update_repository := update_repository Example.quiet;
  netdaemon_restore := netdaemon_restore Example.quiet;
  check_modules := check_modules Example.quiet |}.






(** A check that only automated runs use. *)
Definition action_only : CheckClass := {|
  class_name := "RepositoryTopics";
  class_module := "custom_components.hacs.validate.common.repository_topics";
  base_name := "ActionValidationBase";
  fails_on := fun _ => false |}.

(** Collaborators as [Example.quiet], with a validation package of four
    files: two modules of checks, the package file and a compiled file. *)
Definition with_checks : Env := {|
  strptime := strptime Example.quiet; json_loads := json_loads Example.quiet;
  get_repository := get_repository Example.quiet;
  fetch_last_commit := fetch_last_commit Example.quiet;
  get_contents := get_contents Example.quiet;
  get_info_md_content := get_info_md_content Example.quiet;
  download_content := download_content Example.quiet;
  async_download_file := async_download_file Example.quiet;
  mkdtemp := mkdtemp Example.quiet; async_save_file := async_save_file Example.quiet;
  zip_entries := zip_entries Example.quiet;
  is_safe := is_safe Example.quiet;
  str_title := str_title Example.quiet;
  host := host Example.quiet;
  update_repository := update_repository Example.quiet;
  netdaemon_restore := netdaemon_restore Example.quiet;
  check_modules :=
    [("__init__.py", []);
     ("common/repository_description.py", [Example.always_fails; action_only]);
     ("plugin/plugin_file.py", [Example.always_passes; Example.always_fails]);
     ("__pycache__/base.cpython-39.pyc", [])] |}.

End Sample.

(** * Proof tools *)

(** One step of a method: expose what [bind] does at a state, or compute
    with the primitive operations. *)
Ltac step :=
  first [ match goal with
          | |- context [bind ?m ?k ?s] =>
              progress change (bind m k s) with
                (match m s with
                 | (Ok a, s') => k a s'
                 | (Raise e, s') => (Raise e, s')
                 | (Beyond b, s') => (Beyond b, s')
                 end)
          end
        | progress cbn [gets modify ret raise get record logger async_fire
                        append_error beyond_model when fst snd] ].

(** Read attributes through the assignments made so far. *)
Ltac norm :=
  cbn [self world on_self on_world on_data
       data content_path_local content_single repository_object
       repository_manifest validate_errors releases_objects pending_restart
       tree ref additional_info
       set_data set_repository_object set_repository_manifest
       set_validate_errors set_pending_restart set_ref set_additional_info
       category config_flow default_branch domain etag_repository filename
       full_name homeassistant id installed installed_commit
       installed_version last_commit last_version last_updated new
       persistent_directory pushed_at releases selected_tag zip_release
       set_category set_config_flow set_default_branch set_domain
       set_etag_repository set_filename set_full_name set_homeassistant
       set_id set_installed set_installed_commit set_installed_version
       set_last_commit set_last_version set_last_updated set_new
       set_persistent_directory set_pushed_at set_releases set_selected_tag
       set_zip_release
       fs bus store log calls RULES
       set_fs set_bus set_store set_log set_calls set_RULES
       local_path snapshot negb andb orb] in *.

Ltac run := repeat first [ step | progress norm ].

(** Close a goal that names the errors and files a download step left. *)
Ltac framed errors files :=
  exists errors, files;
  match goal with s : State |- _ => destruct s as [[] []] end;
  unfold downloaded; norm; rewrite ?app_nil_r; reflexivity.

(** Decide a fact about one character by running through the characters. *)
Ltac each_ascii c :=
  destruct c as [[] [] [] [] [] [] [] []]; vm_compute; reflexivity.

(** One step of the loop of [update_data] leaves alone the attributes the
    key does not name. *)
Ltac one_key :=
  let key := fresh "key" in
  let v := fresh "v" in
  let d := fresh "d" in
  let Hne := fresh "Hne" in
  let t := fresh "t" in
  intros key v d Hne; unfold update_key;
  destruct (str_in key (kept_attributes ++ other_attributes)); cbn [negb]; [|reflexivity];
  unfold setattr, store_bool, store_optional, store_text;
  repeat lazymatch goal with
    | |- context [if String.eqb key ?k then _ else _] =>
        destruct (String.eqb_spec key k); [subst key; try congruence|]
    end;
  try reflexivity;
  try (destruct (str_of v); reflexivity);
  destruct v as [|[|]| |t| |]; try reflexivity;
  destruct (String.eqb t ""); try reflexivity;
  match goal with |- context [strptime ?e ?a ?f] => destruct (strptime e a f) end;
  reflexivity.

(** * Properties *)

Lemma opt_eqb_eq a b : opt_eqb a b = true <-> a = b.
Proof.
  destruct a as [x|], b as [y|]; simpl; try (split; congruence).
  rewrite String.eqb_eq. split; congruence.
Qed.

Lemma opt_eqb_refl a : opt_eqb a a = true.
Proof. by apply opt_eqb_eq. Qed.

Lemma opt_eqb_neq a b : opt_eqb a b = false <-> a <> b.
Proof.
  rewrite <- opt_eqb_eq. destruct (opt_eqb a b); split; congruence.
Qed.

(** ** The version order *)

Lemma compare_components_nil_r b :
  Version.compare_components b [] =
  CompOpp (if forallb (N.eqb 0) b then Eq else Lt).
Proof.
  induction b as [|y b IH]; simpl; [reflexivity|].
  destruct y as [|p]; simpl; [exact IH | reflexivity].
Qed.

Lemma compare_components_antisym a b :
  Version.compare_components b a = CompOpp (Version.compare_components a b).
Proof.
  revert b. induction a as [|x a IH]; intros b.
  - simpl. apply compare_components_nil_r.
  - destruct b as [|y b]; simpl.
    + destruct x as [|p]; simpl; [|reflexivity].
      rewrite compare_components_nil_r.
      destruct (forallb (N.eqb 0) a); reflexivity.
    + rewrite (N.compare_antisym x y).
      destruct (x ?= y)%N; simpl; auto.
Qed.

Lemma version_compare_antisym a b :
  Version.compare b a = CompOpp <$> Version.compare a b.
Proof.
  unfold Version.compare. rewrite (compare_components_antisym (Version.numeric a)).
  destruct (Version.compare_components (Version.numeric a) (Version.numeric b));
    simpl; try reflexivity.
  destruct (Version.suffix a) as [x|], (Version.suffix b) as [y|]; simpl;
    try reflexivity.
  rewrite (String.eqb_sym y x). destruct (String.eqb x y); reflexivity.
Qed.

Lemma version_order_antisym left right :
  Version.order right left = CompOpp <$> Version.order left right.
Proof.
  unfold Version.order.
  destruct (Version.parse left), (Version.parse right); simpl; try reflexivity.
  apply version_compare_antisym.
Qed.

(** A version strictly above another is not below or equal to it. *)
Lemma higher_not_lower_or_equal left right :
  version_left_higher_then_right left right = true ->
  version_left_higher_or_equal_then_right right left = false.
Proof.
  unfold version_left_higher_then_right, version_left_higher_or_equal_then_right.
  rewrite (version_order_antisym left right).
  destruct (Version.order left right) as [[]|]; simpl; congruence.
Qed.

Lemma higher_irreflexive_swap left right :
  version_left_higher_then_right left right = true ->
  version_left_higher_then_right right left = false.
Proof.
  unfold version_left_higher_then_right.
  rewrite (version_order_antisym left right).
  destruct (Version.order left right) as [[]|]; simpl; congruence.
Qed.

Lemma version_compare_refl a : Version.compare a a <> Some Gt.
Proof.
  unfold Version.compare.
  pose proof (compare_components_antisym (Version.numeric a) (Version.numeric a)) as H.
  destruct (Version.compare_components (Version.numeric a) (Version.numeric a));
    simpl in H; try discriminate.
  destruct (Version.suffix a); [rewrite String.eqb_refl|]; discriminate.
Qed.

Lemma higher_irreflexive v : version_left_higher_then_right v v = false.
Proof.
  unfold version_left_higher_then_right, Version.order.
  destruct (Version.parse v) as [a|]; [|reflexivity].
  pose proof (version_compare_refl a).
  destruct (Version.compare a a) as [[]|]; congruence.
Qed.

(** ** Upgrade availability *)

Section PendingUpdate.

Variable hacs : Hacs.

(** In version mode an available version above the installed one is
    reported. *)
Lemma pending_update_upgrade r :
  can_download hacs r = true ->
  installed (data r) = true ->
  selected_tag (data r) = None ->
  releases (data r) = true ->
  version_left_higher_then_right
    (display_available_version r) (display_installed_version r) = true ->
  pending_update hacs r = true.
Proof.
  intros Hc Hi Ht Hr Hv. unfold pending_update, display_version_or_commit.
  rewrite Hc, Hi, Ht, Hr, Hv. reflexivity.
Qed.

(** Equal installed and available identifiers are never an update, unless
    the branch is tracked. *)
Lemma pending_update_equal r :
  selected_tag (data r) = None ->
  display_installed_version r = display_available_version r ->
  pending_update hacs r = false.
Proof.
  intros Ht He. unfold pending_update. rewrite Ht, He.
  rewrite higher_irreflexive, String.eqb_refl, andb_false_r.
  destruct (can_download hacs r), (installed (data r)); reflexivity.
Qed.

(** Away from branch tracking, any difference between the installed and
    the available identifier is reported, whatever the version order
    says. *)
Lemma pending_update_differs r :
  can_download hacs r = true ->
  installed (data r) = true ->
  selected_tag (data r) = None ->
  display_installed_version r <> display_available_version r ->
  pending_update hacs r = true.
Proof.
  intros Hc Hi Ht Hne. unfold pending_update. rewrite Hc, Hi, Ht. simpl.
  apply String.eqb_neq in Hne. rewrite Hne. simpl.
  destruct (_ && _); reflexivity.
Qed.

End PendingUpdate.

(** C1 (antisymmetry of upgrade availability over dotted numeric versions):
    at installed version 2.0.0 and available version 1.0.0, both dotted
    numeric and the installed one the higher, the repository in version mode
    reports a pending update; the claim says it reports none.  The upgrade
    direction and the equal case behave as claimed. *)
Theorem pending_update_reports_downgrade :
  forall hacs,
    Version.dotted_numeric "2.0.0" = true
    /\ Version.dotted_numeric "1.0.0" = true
    /\ version_left_higher_then_right "2.0.0" "1.0.0" = true
    /\ display_version_or_commit (Example.released "2.0.0" "1.0.0") = "version"
    /\ pending_update hacs (Example.released "1.0.0" "2.0.0") = true
    /\ pending_update hacs (Example.released "2.0.0" "2.0.0") = false
    /\ pending_update hacs (Example.released "2.0.0" "1.0.0") = true.
Proof.
  intros hacs. repeat split; reflexivity.
Qed.

(** ** Repositories that are not installed *)

(** C10: a repository whose installed flag is false has no pending update,
    whatever its versions, commits, selected tag and host compatibility, and
    so never shows the status pending-upgrade. *)
Theorem not_installed_no_pending_update :
  forall hacs r,
    installed (data r) = false ->
    pending_update hacs r = false
    /\ display_status hacs r <> "pending-upgrade".
Proof.
  intros hacs r Hi.
  assert (Hp : pending_update hacs r = false).
  { unfold pending_update. rewrite Hi. destruct (can_download hacs r); reflexivity. }
  split; [exact Hp|].
  unfold display_status. rewrite Hp, Hi.
  destruct (new (data r)), (pending_restart r); discriminate.
Qed.

Lemma not_installed_no_pending_update_witness :
  installed (data Example.widget) = false
  /\ pending_update Example.host_2023_12 Example.widget = false
  /\ display_status Example.host_2023_12 Example.widget <> "pending-upgrade".
Proof.
  split; [reflexivity|].
  apply (not_installed_no_pending_update Example.host_2023_12 Example.widget).
  reflexivity.
Defined.

(** ** Display status *)

(** C5: the display status follows the priority new, pending restart,
    pending update, installed, default: each status is shown exactly when
    its condition holds and no earlier one does; a new repository with a
    pending update shows new, and an installed repository that is no longer
    new with a pending restart shows pending-restart. *)
Theorem display_status_priority :
  forall hacs r,
    (display_status hacs r = "new" <-> new (data r) = true)
    /\ (display_status hacs r = "pending-restart" <->
        new (data r) = false /\ pending_restart r = true)
    /\ (display_status hacs r = "pending-upgrade" <->
        new (data r) = false /\ pending_restart r = false
        /\ pending_update hacs r = true)
    /\ (display_status hacs r = "installed" <->
        new (data r) = false /\ pending_restart r = false
        /\ pending_update hacs r = false /\ installed (data r) = true)
    /\ (display_status hacs r = "default" <->
        new (data r) = false /\ pending_restart r = false
        /\ pending_update hacs r = false /\ installed (data r) = false)
    /\ (new (data r) = true -> pending_update hacs r = true ->
        display_status hacs r = "new")
    /\ (new (data r) = false -> installed (data r) = true ->
        pending_restart r = true -> display_status hacs r = "pending-restart").
Proof.
  intros hacs r. unfold display_status.
  destruct (new (data r)), (pending_restart r), (pending_update hacs r),
    (installed (data r)); repeat split; intros; try tauto; try discriminate;
    repeat match goal with H : _ /\ _ |- _ => destruct H end; discriminate.
Qed.

(** ** Running stateful code *)

Lemma bind_unfold {S A B} (m : M S A) (k : A -> M S B) s :
  bind m k s =
  match m s with
  | (Ok a, s') => k a s'
  | (Raise e, s') => (Raise e, s')
  | (Beyond b, s') => (Beyond b, s')
  end.
Proof. reflexivity. Qed.

Lemma if_run {S A} (b : bool) (m1 m2 : M S A) s :
  (if b then m1 else m2) s = if b then m1 s else m2 s.
Proof. destruct b; reflexivity. Qed.

Lemma bind_ok {S A B} (m : M S A) (k : A -> M S B) s a s' :
  m s = (Ok a, s') -> bind m k s = k a s'.
Proof. intros H. unfold bind. rewrite H. reflexivity. Qed.

Lemma bind_raise {S A B} (m : M S A) (k : A -> M S B) s e s' :
  m s = (Raise e, s') -> bind m k s = (Raise e, s').
Proof. intros H. unfold bind. rewrite H. reflexivity. Qed.

Lemma try_except_ok {S A} (body : M S A) caught handler s a s' :
  body s = (Ok a, s') -> try_except body caught handler s = (Ok a, s').
Proof. intros H. unfold try_except. rewrite H. reflexivity. Qed.

Lemma try_except_caught {S A} (body : M S A) caught handler s e s' :
  body s = (Raise e, s') -> caught e = true ->
  try_except body caught handler s = handler e s'.
Proof. intros H Hc. unfold try_except. rewrite H, Hc. reflexivity. Qed.

(** Clearing or extending the error list, setting the ref and the like leave
    [data] alone, and with it everything computed from [data]. *)
Lemma can_download_data hacs r r' :
  data r' = data r -> can_download hacs r' = can_download hacs r.
Proof. intros H. unfold can_download. rewrite H. reflexivity. Qed.

Lemma version_to_download_data r r' :
  data r' = data r -> version_to_download r' = version_to_download r.
Proof. intros H. unfold version_to_download. rewrite H. reflexivity. Qed.

(** ** Host compatibility *)

Section Compatibility.

Variable hacs : Hacs.
Variable env : Env.

Lemma can_download_false r minimum :
  releases (data r) = true ->
  homeassistant (data r) = Some minimum ->
  version_left_higher_then_right minimum (ha_version hacs) = true ->
  can_download hacs r = false.
Proof.
  intros Hr Hh Hv. unfold can_download.
  rewrite Hh, Hr, (higher_not_lower_or_equal _ _ Hv). reflexivity.
Qed.

Lemma pending_update_needs_can_download r :
  can_download hacs r = false -> pending_update hacs r = false.
Proof. intros Hc. unfold pending_update. rewrite Hc. reflexivity. Qed.

(** Once the refresh that opens it has run and the local path is known,
    an install on a host that cannot download stops at the compatibility
    error: the error list is cleared and nothing else has happened. *)
Lemma install_stops_when_incompatible s s1 local :
  update_repository env (snd (record UpdateRepository s)) = (Ok tt, s1) ->
  content_path_local (self s1) = Some local ->
  can_download hacs (self s1) = false ->
  async_install_repository hacs env s =
    (Raise (HacsException "The version of Home Assistant is not compatible with this version"),
     on_self (set_validate_errors []) s1).
Proof.
  intros Hu Hl Hc. unfold async_install_repository.
  cbn [bind record modify fst snd] in *.
  rewrite bind_unfold, Hu. cbn [bind gets]. rewrite Hl.
  cbn [bind gets modify on_self self].
  rewrite (can_download_data hacs (self s1)) by reflexivity.
  rewrite Hc. reflexivity.
Qed.

End Compatibility.

(** C3, as the code has it: the host check applies to repositories that use
    releases.  For such a repository whose declared minimum host version is
    strictly above the running one, [can_download] is false, [pending_update]
    is false whatever the available version, and an install whose opening
    refresh succeeded and whose local path is set raises the compatibility
    error with no backup, download or file change after the refresh. *)
Theorem incompatible_host_blocks_release_repository :
  forall hacs env s s1 minimum local,
    update_repository env (snd (record UpdateRepository s)) = (Ok tt, s1) ->
    content_path_local (self s1) = Some local ->
    releases (data (self s1)) = true ->
    homeassistant (data (self s1)) = Some minimum ->
    version_left_higher_then_right minimum (ha_version hacs) = true ->
    can_download hacs (self s1) = false
    /\ pending_update hacs (self s1) = false
    /\ async_install_repository hacs env s =
         (Raise (HacsException "The version of Home Assistant is not compatible with this version"),
          on_self (set_validate_errors []) s1)
    /\ calls (world (snd (async_install_repository hacs env s))) = calls (world s1)
    /\ fs (world (snd (async_install_repository hacs env s))) = fs (world s1).
Proof.
  intros hacs env s s1 minimum local Hu Hl Hr Hh Hv.
  pose proof (can_download_false hacs _ _ Hr Hh Hv) as Hc.
  pose proof (install_stops_when_incompatible hacs env s s1 local Hu Hl Hc) as Hi.
  repeat split; auto using pending_update_needs_can_download.
  - rewrite Hi. reflexivity.
  - rewrite Hi. reflexivity.
Qed.

Lemma incompatible_host_blocks_release_repository_witness :
  can_download Example.host_2023_12 Example.released_needs_2024 = false
  /\ pending_update Example.host_2023_12 Example.released_needs_2024 = false
  /\ fst (async_install_repository Example.host_2023_12 Example.quiet
            {| self := Example.released_needs_2024; world := Example.empty_world |})
     = Raise (HacsException "The version of Home Assistant is not compatible with this version").
Proof.
  pose proof (incompatible_host_blocks_release_repository
                Example.host_2023_12 Example.quiet
                {| self := Example.released_needs_2024; world := Example.empty_world |}
                _ "2024.1.0" "/config/www/community/widget"
                eq_refl eq_refl eq_refl eq_refl eq_refl) as (Hc & Hp & Hi & _).
  rewrite Hi. auto.
Defined.

(** C3, as stated, fails for a repository that does not use releases: the
    tracking widget asks for host 2024.1.0, the host runs 2023.12.0, and yet
    it can be downloaded, shows a pending update, and its install goes on to
    the download step. *)
Lemma incompatible_host_ignored_without_releases :
  homeassistant (data Example.needs_2024) = Some "2024.1.0"
  /\ ha_version Example.host_2023_12 = "2023.12.0"
  /\ version_left_higher_then_right "2024.1.0" "2023.12.0" = true
  /\ can_download Example.host_2023_12 Example.needs_2024 = true
  /\ pending_update Example.host_2023_12 Example.needs_2024 = true
  /\ fst (async_install_repository Example.host_2023_12 Example.quiet
            {| self := Example.needs_2024; world := Example.empty_world |}) = Ok tt
  /\ In DownloadContent
        (calls (world (snd (async_install_repository Example.host_2023_12 Example.quiet
            {| self := Example.needs_2024; world := Example.empty_world |})))).
Proof.
  repeat split; try reflexivity.
  vm_compute. auto.
Qed.

(** ** The validation pipeline *)

Section Pipeline.

Variable hacs : Hacs.
Variable env : Env.

(** Running a list of checks records one run per check, in order, returns
    what each check found, and changes nothing else. *)
Lemma run_checks_spec checks : forall r s,
  run_checks r checks s =
    (Ok (map (fun check => fails_on check r) checks),
     on_world (fun w => set_calls (calls w ++ map run_call checks) w) s).
Proof.
  induction checks as [|check rest IH]; intros r [me w].
  - unfold ret, on_world. cbn [world self map].
    rewrite app_nil_r. destruct w; reflexivity.
  - cbn [run_checks bind record modify map].
    rewrite bind_unfold, IH. unfold on_world, ret, bind.
    cbn [world self calls set_calls].
    rewrite <- app_assoc. reflexivity.
Qed.

Lemma pipeline_before_checks s :
  system_running hacs = true ->
  when (bool_decide (dom (RULES (world s)) = ∅))
    (logger INFO "loading checks";; load_repository_checks hacs env) s =
  (Ok tt,
   on_world (fun w => set_RULES (rules_in_force hacs env w)
                        (set_log (log w ++ loading_lines w) w)) s).
Proof.
  intros Hrun. destruct s as [me w].
  unfold rules_in_force, loading_lines, load_repository_checks.
  cbn [bind gets world when]. rewrite Hrun.
  unfold on_world. cbn [world self].
  destruct (bool_decide (dom (RULES w) = ∅)); cbn.
  - reflexivity.
  - rewrite app_nil_r. destruct w; reflexivity.
Qed.

End Pipeline.

(** C9, as the code has it: while the system is running, the pipeline runs
    exactly the checks registered under common followed by those registered
    under the category of the repository (loading the registry first when it
    is empty), all of them before any verdict; then, with at least one failed
    check, automated mode ends the process with the message counting the
    failed checks, and interactive mode only logs that message as an error;
    with no failed check nothing but a debug line is logged.  The repository
    itself is never changed. *)
Theorem repository_checks_run_and_report :
  forall hacs env s,
    system_running hacs = true ->
    let checks := applicable hacs env s in
    let failed :=
      length (filter (fun x => x = true) (map (fun check => fails_on check (self s)) checks)) in
    let verdict := pretty failed ++ "/" ++ pretty (length checks) ++ " checks failed" in
    let passed := "All (" ++ pretty (length checks) ++ ") checks passed" in
    let after := async_run_repository_checks hacs env s in
    calls (world (snd after)) = (calls (world s) ++ map run_call checks)%list
    /\ self (snd after) = self s
    /\ fs (world (snd after)) = fs (world s)
    /\ (failed <> 0%nat -> hacs_action hacs = true ->
        fst after = Raise (SystemExit ("::error::" ++ verdict))
        /\ log (world (snd after)) = (log (world s) ++ loading_lines (world s))%list)
    /\ (failed <> 0%nat -> hacs_action hacs = false ->
        fst after = Ok tt
        /\ log (world (snd after)) =
           (log (world s) ++ loading_lines (world s) ++ [(ERROR, verdict)])%list)
    /\ (failed = 0%nat ->
        fst after = Ok tt
        /\ log (world (snd after)) =
           (log (world s) ++ loading_lines (world s) ++ [(DEBUG, passed)])%list).
Proof.
  intros hacs env s Hrun checks failed verdict passed after.
  assert (Hafter : after =
    let s1 := on_world (fun w => set_RULES (rules_in_force hacs env w)
                          (set_log (log w ++ loading_lines w) w)) s in
    let s2 := on_world (fun w => set_calls (calls w ++ map run_call checks) w) s1 in
    if negb (failed =? 0)%nat && hacs_action hacs then
      (Raise (SystemExit ("::error::" ++ verdict)), s2)
    else if negb (failed =? 0)%nat then
      logger ERROR verdict s2
    else logger DEBUG passed s2).
  { subst after. unfold async_run_repository_checks. rewrite Hrun.
    cbn [negb bind gets]. rewrite bind_unfold, (pipeline_before_checks hacs env s Hrun).
    cbn [bind gets world self on_world].
    rewrite bind_unfold, run_checks_spec.
    rewrite !if_run. destruct s as [me w]. reflexivity. }
  rewrite Hafter. clear Hafter after. cbn zeta.
  destruct s as [me w]. cbn [world self on_world].
  destruct (Nat.eqb_spec failed 0) as [Hz|Hnz]; cbn [negb andb].
  - repeat split; try (intros; congruence); try reflexivity.
    cbn. rewrite <- app_assoc. reflexivity.
  - destruct (hacs_action hacs) eqn:Ha.
    + repeat split; try (intros; congruence); try reflexivity.
    + repeat split; try (intros; congruence); try reflexivity.
      cbn. rewrite <- app_assoc. reflexivity.
Qed.

Lemma repository_checks_run_and_report_witness :
  calls (world (snd (async_run_repository_checks Example.host_action Example.quiet
          {| self := Example.widget; world := Example.checked_world |})))
  = [RunCheck "custom_components.hacs.validate.common.repository_description"
       "RepositoryDescription";
     RunCheck "custom_components.hacs.validate.plugin.plugin_file" "PluginFile"]
  /\ fst (async_run_repository_checks Example.host_action Example.quiet
          {| self := Example.widget; world := Example.checked_world |})
     = Raise (SystemExit "::error::1/2 checks failed").
Proof.
  pose proof (repository_checks_run_and_report Example.host_action Example.quiet
                {| self := Example.widget; world := Example.checked_world |} eq_refl)
    as (Hcalls & _ & _ & Hexit & _).
  split.
  - rewrite Hcalls. vm_compute. reflexivity.
  - destruct Hexit as [Hexit _]; [vm_compute; discriminate | reflexivity |].
    rewrite Hexit. vm_compute. reflexivity.
Defined.

(** C9, as stated, fails while the system is not running: a failing check is
    registered under common, and the pipeline runs no check, logs nothing and
    returns. *)
Lemma repository_checks_skipped_when_stopped :
  default [] (RULES Example.checked_world !! "common") = [Example.always_fails]
  /\ fails_on Example.always_fails Example.widget = true
  /\ async_run_repository_checks Example.host_stopped Example.quiet
       {| self := Example.widget; world := Example.checked_world |}
     = (Ok tt, {| self := Example.widget; world := Example.checked_world |}).
Proof.
  repeat split; vm_compute; reflexivity.
Qed.

(** ** Metadata refresh *)

Section Refresh.

Variable hacs : Hacs.
Variable env : Env.

(** When the remote reports no change for the token sent, the data
    refresh keeps the state. *)
Lemma common_update_data_not_modified ignore_issues s :
  installed (data (self s)) = false ->
  get_repository env (full_name (data (self s))) (etag_repository (data (self s)))
    = Raises HacsNotModifiedException ->
  common_update_data env ignore_issues false s = (Ok tt, s).
Proof.
  intros Hi Hg. unfold common_update_data.
  cbn [bind gets]. rewrite Hi. cbn [orb].
  unfold try_except. rewrite bind_unfold. unfold lift. rewrite Hg. reflexivity.
Qed.

Lemma common_update_not_modified ignore_issues s :
  installed (data (self s)) = false ->
  get_repository env (full_name (data (self s))) (etag_repository (data (self s)))
    = Raises HacsNotModifiedException ->
  common_update hacs env ignore_issues false s = (Ok false, s).
Proof.
  intros Hi Hg. unfold common_update.
  cbn [bind gets]. rewrite bind_unfold.
  rewrite (try_except_ok _ _ _ _ _ _ (common_update_data_not_modified ignore_issues s Hi Hg)).
  cbn [bind gets]. rewrite Hi, opt_eqb_refl. reflexivity.
Qed.

(** The test of [common_update] itself: whenever the data refresh returns
    with the caching token it started from, on a repository that is not
    installed and without force, the answer is false and nothing further is
    fetched. *)
Lemma common_update_same_token ignore_issues s s1 :
  common_update_data env ignore_issues false s = (Ok tt, s1) ->
  installed (data (self s1)) = false ->
  etag_repository (data (self s1)) = etag_repository (data (self s)) ->
  common_update hacs env ignore_issues false s = (Ok false, s1).
Proof.
  intros Hd Hi He. unfold common_update.
  cbn [bind gets]. rewrite bind_unfold.
  rewrite (try_except_ok _ _ _ _ _ _ Hd).
  cbn [bind gets]. rewrite Hi, He, opt_eqb_refl. reflexivity.
Qed.

(** A manifest that is listed but cannot be read: in automated mode the
    operation fails with the invalid-manifest error, otherwise it returns;
    either way only [ref] has changed. *)
Lemma manifest_unreadable s e :
  str_in "hacs.json" (tree (self s)) = true ->
  read_manifest env (set_ref (version_to_download (self s)) (self s)) = Raises e ->
  is_Exception e = true ->
  get_repository_manifest_content hacs env s =
    (if system_action hacs
     then Raise (HacsException ("::error:: hacs.json file is not valid (" ++ exn_str e ++ ")."))
     else Ok tt,
     on_self (set_ref (version_to_download (self s))) s).
Proof.
  intros Ht Hr He. unfold get_repository_manifest_content.
  cbn [bind gets]. rewrite Ht. cbn [negb bind modify].
  set (s1 := on_self (set_ref (version_to_download (self s))) s) in *.
  unfold read_manifest in Hr.
  change (set_ref (version_to_download (self s)) (self s)) with (self s1) in Hr.
  unfold try_except. cbn [bind gets].
  destruct (repository_object (self s1)) as [object|].
  - rewrite bind_unfold. unfold lift at 1.
    destruct (get_contents env object "hacs.json" (ref (self s1))) as [content|e'];
      [| injection Hr as ->; rewrite He; destruct (system_action hacs); reflexivity ].
    rewrite bind_unfold. unfold lift at 1.
    destruct (json_loads env content) as [parsed|e'];
      [| injection Hr as ->; rewrite He; destruct (system_action hacs); reflexivity ].
    rewrite bind_unfold. unfold lift at 1. rewrite Hr, He.
    destruct (system_action hacs); reflexivity.
  - rewrite bind_unfold. unfold raise at 1. injection Hr as <-.
    destruct (system_action hacs); reflexivity.
Qed.

End Refresh.

(** C6: for a repository that is not installed, a refresh with force false,
    while the remote reports the caching token of the record as still
    current, returns false and changes nothing; a second identical refresh
    again returns false and leaves the state the first one left. *)
Theorem refresh_unchanged_is_idempotent :
  forall hacs env ignore_issues s,
    installed (data (self s)) = false ->
    get_repository env (full_name (data (self s))) (etag_repository (data (self s)))
      = Raises HacsNotModifiedException ->
    let first := common_update hacs env ignore_issues false s in
    let second := common_update hacs env ignore_issues false (snd first) in
    fst first = Ok false
    /\ snd first = s
    /\ fst second = Ok false
    /\ snd second = snd first.
Proof.
  intros hacs env ignore_issues s Hi Hg first second.
  assert (Hfirst : first = (Ok false, s))
    by apply (common_update_not_modified hacs env ignore_issues s Hi Hg).
  subst second. rewrite Hfirst. cbn [fst snd].
  rewrite (common_update_not_modified hacs env ignore_issues s Hi Hg).
  auto.
Qed.

Lemma refresh_unchanged_is_idempotent_witness :
  let s := {| self := Example.widget; world := Example.empty_world |} in
  fst (common_update Example.host_2023_12 Example.quiet false false s) = Ok false
  /\ snd (common_update Example.host_2023_12 Example.quiet false false s) = s.
Proof.
  pose proof (refresh_unchanged_is_idempotent Example.host_2023_12 Example.quiet false
                {| self := Example.widget; world := Example.empty_world |}
                eq_refl eq_refl) as (H1 & H2 & _).
  split; assumption.
Defined.

(** C7, as the code has it: a manifest file missing from the tree raises an
    error exactly in automated mode and is tolerated otherwise; a manifest
    that is listed but cannot be fetched, parsed or turned into a manifest
    object fails the operation with the invalid-manifest error in automated
    mode only, and in interactive mode the failure is swallowed and the
    operation returns; in both modes the data and the manifest of the record
    are then as before, only the ref has been set. *)
Theorem manifest_errors_follow_the_mode :
  forall hacs env s,
    (str_in "hacs.json" (tree (self s)) = false ->
     get_repository_manifest_content hacs env s =
       (if system_action hacs
        then Raise (HacsException "::error:: No hacs.json file in the root of the repository.")
        else Ok tt,
        s))
    /\ (forall e,
        str_in "hacs.json" (tree (self s)) = true ->
        read_manifest env (set_ref (version_to_download (self s)) (self s)) = Raises e ->
        is_Exception e = true ->
        let after := get_repository_manifest_content hacs env s in
        fst after =
          (if system_action hacs
           then Raise (HacsException ("::error:: hacs.json file is not valid (" ++ exn_str e ++ ")."))
           else Ok tt)
        /\ data (self (snd after)) = data (self s)
        /\ repository_manifest (self (snd after)) = repository_manifest (self s)
        /\ world (snd after) = world s).
Proof.
  intros hacs env s. split.
  - intros Ht. unfold get_repository_manifest_content.
    cbn [bind gets]. rewrite Ht. cbn [negb].
    destruct (system_action hacs); reflexivity.
  - intros e Ht Hr He after. subst after.
    rewrite (manifest_unreadable hacs env s e Ht Hr He).
    destruct s as [me w]. repeat split.
Qed.

(** C7, as stated, fails in interactive mode: the manifest of the widget is
    listed in the tree and its content is not JSON, and the operation
    returns without an error. *)
Lemma malformed_manifest_tolerated_when_interactive :
  system_action Example.host_2023_12 = false
  /\ str_in "hacs.json" (tree Example.with_manifest) = true
  /\ get_contents Example.broken_manifest {| attributes := [] |} "hacs.json" (Some "main")
     = Returns "{"
  /\ json_loads Example.broken_manifest "{"
     = Raises (PyException "JSONDecodeError" "Expecting value")
  /\ fst (get_repository_manifest_content Example.host_2023_12 Example.broken_manifest
            {| self := Example.with_manifest; world := Example.empty_world |}) = Ok tt.
Proof.
  repeat split; reflexivity.
Qed.

(** ** Uninstall *)



Lemma without_tree_outside p q (f : gmap string Node) :
  under p q = false -> without_tree p f !! q = f !! q.
Proof.
  intros H. unfold without_tree. rewrite map_lookup_filter.
  destruct (f !! q) as [x|]; cbn; [|reflexivity].
  rewrite option_guard_True by (cbn; exact H). reflexivity.
Qed.

Section Uninstall.

Variable hacs : Hacs.
Variable env : Env.







(** From the point where [local_path] is bound no exception leaves the
    [try]. *)
Lemma guarded_removal_swallows local_path s e :
  fst (guarded_removal hacs env local_path s) <> Raise e.
Proof.
  unfold guarded_removal, try_except.
  destruct (remove_path hacs env local_path s) as [[b|e'|b] s1]; cbn; discriminate.
Qed.

(** The theme file of a theme is a directory: [os.remove] raises, the
    handler reads [local_path] before any assignment, and the exception of
    that read leaves [remove_local_directory]. *)
Lemma remove_local_directory_theme_file_is_directory s :
  category (data (self s)) = "theme" ->
  fs (world s) !! theme_file hacs (self s) = Some Dir ->
  remove_local_directory hacs env s = (Raise unbound_local_path, s).
Proof.
  intros Hc Hy. unfold remove_local_directory. run. rewrite Hc. cbn [String.eqb Ascii.eqb Bool.eqb].
  run. unfold try_except, os_path_exists, when, os_remove. rewrite Hy. run. rewrite Hy.
  reflexivity.
Qed.



Lemma uninstall_refused s s1 :
  remove_local_directory hacs env s = (Ok false, s1) ->
  uninstall hacs env s = (Raise (HacsException "Could not uninstall"), s1).
Proof.
  intros H. unfold uninstall. rewrite bind_unfold, H. reflexivity.
Qed.




End Uninstall.




(** ** Install *)

(** What a restored backup leaves at its path is the snapshot, whatever the
    download wrote in between. *)
Lemma restored_content p (saved now_fs : gmap string Node) :
  subtree p (saved ∪ without_tree p now_fs) = subtree p saved.
Proof.
  apply map_eq. intros q. unfold subtree, without_tree.
  rewrite !map_lookup_filter, lookup_union, !map_lookup_filter.
  destruct (saved !! q) as [x|], (now_fs !! q) as [y|]; cbn;
    repeat (case_guard; cbn); congruence.
Qed.

Lemma subtree_idem p (f : gmap string Node) : subtree p (subtree p f) = subtree p f.
Proof.
  apply map_eq. intros q. unfold subtree.
  rewrite !map_lookup_filter.
  destruct (f !! q) as [x|]; cbn; repeat (case_guard; cbn); congruence.
Qed.


Section Download.

Variable hacs : Hacs.
Variable env : Env.

(** A state is the result of a download step that did nothing. *)
Lemma downloaded_nothing s :
  s = downloaded s [] (fs (world s)) [].
Proof.
  destruct s as [[] []]. unfold downloaded. norm. rewrite !app_nil_r. reflexivity.
Qed.

Lemma downloaded_twice s e1 f1 d1 e2 f2 d2 :
  downloaded (downloaded s e1 f1 d1) e2 f2 d2 =
  downloaded s (e1 ++ e2) f2 (d1 ++ d2).
Proof.
  unfold downloaded. norm. rewrite !app_assoc. reflexivity.
Qed.

(** Whatever happens to one asset, [async_download_zip_file] returns,
    having recorded the download and touched only the error list and the
    files. *)
Lemma async_download_zip_file_frame content s :
  exists errors files,
    async_download_zip_file env content s =
      (Ok tt, downloaded s errors files [DownloadFile (download_url content)]).
Proof.
  unfold async_download_zip_file, try_except. run.
  destruct (async_download_file env (download_url content)) as [[bytes|]|e]; unfold lift; run.
  - destruct (mkdtemp env) as [temp_dir|e]; run.
    + destruct (async_save_file env _ bytes) as [saved|e]; run.
      * destruct (zip_entries env _) as [entries|e]; run.
        -- destruct saved; run.
           ++ framed (@nil string) (write_entries (content_path_local (self s)) entries (fs (world s))).
           ++ framed ["[" ++ asset_name content ++ "] was not downloaded"]
                     (write_entries (content_path_local (self s)) entries (fs (world s))).
        -- framed ["Download was not completed"] (fs (world s)).
      * framed ["Download was not completed"] (fs (world s)).
    + framed ["Download was not completed"] (fs (world s)).
  - framed ["[" ++ asset_name content ++ "] was not downloaded"] (fs (world s)).
  - framed ["Download was not completed"] (fs (world s)).
Qed.

Lemma download_each_frame contents : forall s,
  exists errors files downloads,
    Forall (fun c => is_download c = true) downloads
    /\ for_each contents (async_download_zip_file env) s =
         (Ok tt, downloaded s errors files downloads).
Proof.
  induction contents as [|content rest IH]; intros s.
  - exists [], (fs (world s)), []. split; [constructor|].
    cbn [for_each ret]. f_equal. apply downloaded_nothing.
  - destruct (async_download_zip_file_frame content s) as (e1 & f1 & H1).
    destruct (IH (downloaded s e1 f1 [DownloadFile (download_url content)]))
      as (e2 & f2 & d2 & Hd & H2).
    exists (e1 ++ e2)%list, f2, (DownloadFile (download_url content) :: d2).
    split; [constructor; [reflexivity | exact Hd]|].
    cbn [for_each]. rewrite bind_unfold, H1, H2. rewrite downloaded_twice. reflexivity.
Qed.

Lemma download_zip_files_frame s :
  exists errors files downloads,
    Forall (fun c => is_download c = true) downloads
    /\ download_zip_files env s = (Ok tt, downloaded s errors files downloads).
Proof.
  unfold download_zip_files, try_except. run. unfold lift.
  destruct (matching_assets (self s) (releases_objects (self s)) []) as [contents|e].
  - destruct (download_each_frame contents s) as (e1 & f1 & d1 & Hd & H1).
    rewrite H1. exists e1, f1, d1. split; [exact Hd | reflexivity].
  - run. exists ["Download was not completed"], (fs (world s)), [].
    split; [constructor|].
    destruct s as [[] []]. unfold downloaded. norm. rewrite app_nil_r. reflexivity.
Qed.

Lemma run_download_content_frame s :
  exists errors files downloads,
    Forall (fun c => is_download c = true) downloads
    /\ run_download_content env s = (Ok tt, downloaded s errors files downloads).
Proof.
  unfold run_download_content. run.
  destruct (download_content env _ _) as [files errors] eqn:E.
  run. exists errors, files, [DownloadContent]. split; [repeat constructor|].
  destruct s as [[] []]. unfold downloaded. norm. reflexivity.
Qed.

Lemma download_step_frame (zip : bool) s :
  exists errors files downloads,
    Forall (fun c => is_download c = true) downloads
    /\ (if zip then download_zip_files env else run_download_content env) s =
         (Ok tt, downloaded s errors files downloads).
Proof.
  destruct zip; [apply download_zip_files_frame | apply run_download_content_frame].
Qed.

Lemma log_errors errors : forall s,
  for_each errors (logger ERROR) s =
    (Ok tt, on_world (fun w => set_log (log w ++ error_lines errors) w) s).
Proof.
  induction errors as [|e rest IH]; intros s.
  - cbn [for_each ret error_lines map]. destruct s as [me []].
    unfold on_world. norm. rewrite app_nil_r. reflexivity.
  - cbn [for_each]. rewrite bind_unfold. cbn [logger modify].
    rewrite IH. destruct s as [me []]. unfold on_world. norm.
    cbn [error_lines map]. rewrite <- app_assoc. reflexivity.
Qed.


(** From the download step on, an install always runs to its end; on
    errors it logs them and restores the main backup when one was taken,
    and it marks the repository installed only without errors. *)
Lemma finish_install_runs version persistent backup local s :
  validate_errors (self s) = [] ->
  (installed (data (self s)) && negb (content_single (self s)) = true ->
   exists saved, backup = Some {| local_path := local; snapshot := saved |}) ->
  exists errors downloads final,
    finish_install env version persistent backup s = (Ok tt, final)
    /\ Forall (fun c => is_download c = true) downloads
    /\ validate_errors (self final) = errors
    /\ data (self final) =
         match errors with
         | [] => installed_data version (data (self s))
         | _ :: _ => data (self s)
         end
    /\ ref (self final) = ref (self s)
    /\ bus (world final) = bus (world s)
    /\ store (world final) = store (world s)
    /\ log (world final) = (log (world s) ++ error_lines errors)%list
    /\ calls (world final) =
         (calls (world s) ++ downloads
          ++ backup_calls (installed (data (self s)) && negb (content_single (self s)))
               local errors
          ++ persistent_calls persistent)%list
    /\ (forall saved,
          backup = Some {| local_path := local; snapshot := Some saved |} ->
          installed (data (self s)) && negb (content_single (self s)) = true ->
          errors <> [] -> persistent = None ->
          subtree local (fs (world final)) = subtree local saved).
Proof.
  intros Hnone Hbackup. unfold finish_install. run.
  match goal with
  | |- context [ (if ?z then download_zip_files env else run_download_content env) s ] =>
      destruct (download_step_frame z s) as (errors & files & downloads & Hd & Hrun);
      rewrite Hrun
  end.
  exists errors, downloads.
  unfold downloaded. rewrite Hnone. cbn [app]. run.
  unfold validate_success, restore_persistent, Backup_restore, Backup_cleanup, bound,
    backup_calls, persistent_calls, installed_data. norm.
  destruct s as [r w]. norm.
  destruct (opt_eqb version (default_branch (data r))) eqn:Eo;
  (destruct (installed (data r) && negb (content_single r)) eqn:Ek;
    [destruct (Hbackup eq_refl) as [saved ->]|]);
    destruct errors as [|e rest];
    destruct persistent as [[b|f]|];
    repeat first [ step | progress norm | rewrite Ek | rewrite Eo | rewrite log_errors ];
    try (destruct saved as [saved|]);
    try (destruct (snapshot b));
    repeat first [ step | progress norm | rewrite Ek | rewrite Eo | rewrite log_errors ];
    (eexists; split; [reflexivity|]); norm; unfold on_world; norm;
    rewrite ?app_nil_r, <- ?app_assoc; cbn [app error_lines map];
    (split; [auto|]); (split; [auto|]); (split; [auto|]); (split; [auto|]);
    (split; [auto|]); (split; [auto|]); (split; [auto|]); (split; [auto|]);
    intros saved' Hsaved Hkept Herrors Hpersistent; try congruence;
    injection Hsaved as <-; apply restored_content.
Qed.
End Download.

Section InstallProof.
Variable hacs : Hacs.
Variable env : Env.

(** An install whose refresh succeeded, whose local path is set and
    whose host is compatible runs to its end: it returns, the ref is the one
    resolved, the record is marked installed exactly when no error was
    collected, every error is logged, the backups are made before the
    downloads and put back after them, and a restored main backup brings the
    local content back. *)
Lemma install_repository_runs s s1 local :
  update_repository env (snd (record UpdateRepository s)) = (Ok tt, s1) ->
  content_path_local (self s1) = Some local ->
  can_download hacs (self s1) = true ->
  exists errors downloads final,
    async_install_repository hacs env s = (Ok tt, final)
    /\ Forall (fun c => is_download c = true) downloads
    /\ validate_errors (self final) = errors
    /\ data (self final) =
         match errors with
         | [] => installed_data (version_to_download (self s1)) (data (self s1))
         | _ :: _ => data (self s1)
         end
    /\ ref (self final) = install_ref (self s1)
    /\ bus (world final) = bus (world s1)
    /\ store (world final) = store (world s1)
    /\ log (world final) = (log (world s1) ++ error_lines errors)%list
    /\ calls (world final) =
         (calls (world s1) ++ aside_calls (kept_aside local s1)
          ++ (if backed_up (self s1) then [BackupCreate local] else [])
          ++ downloads
          ++ backup_calls (backed_up (self s1)) local errors
          ++ persistent_calls (kept_aside local s1))%list
    /\ (backed_up (self s1) = true -> errors <> [] ->
        kept_aside local s1 = None ->
        os_path_exists local (fs (world s1)) = true ->
        subtree local (fs (world final)) = subtree local (fs (world s1))).
Proof.
  intros Hu Hl Hc. unfold async_install_repository.
  cbn [bind record modify fst snd] in *.
  rewrite bind_unfold, Hu. cbn [bind gets]. rewrite Hl.
  cbn [bind gets modify on_self self].
  rewrite (can_download_data hacs (self s1)) by reflexivity.
  rewrite Hc. cbn [negb].
  rewrite (version_to_download_data (self s1) (set_validate_errors [] (self s1)))
    by reflexivity.
  destruct s1 as [r1 w1].
  unfold backup_persistent, Backup_create, install_ref, kept_aside, backed_up. run.
  set (version := version_to_download r1).
  destruct (installed (data r1) && String.eqb (category (data r1)) "netdaemon") eqn:En;
    [| destruct (truthy (persistent_directory (data r1))) eqn:Ep;
       [destruct (os_path_exists (local ++ "/" ++ py_str (persistent_directory (data r1)))
                    (fs w1)) eqn:Ex|]];
    destruct (installed (data r1) && negb (content_single r1)) eqn:Ek;
    repeat first [ step | progress norm | rewrite Ex | rewrite Ek
                 | progress unfold on_world, on_self ];
    match goal with
    | |- context [finish_install env ?v ?p ?b ?st] =>
        destruct (finish_install_runs env v p b local st)
          as (errors & downloads & final & Hrun & Hd & He & Hdata & Href
              & Hbus & Hstore & Hlog & Hcalls & Hfs);
        [ reflexivity
        | norm; rewrite ?Ek; intros; first [ congruence | eauto ]
        | exists errors, downloads, final; rewrite Hrun ]
    end;
    norm; rewrite ?Ek in *; unfold aside_calls, persistent_calls in *;
    cbn [app local_path] in *; rewrite <- ?app_assoc in Hcalls; cbn [app] in Hcalls;
    (split; [reflexivity|]); (split; [exact Hd|]); (split; [exact He|]);
    (split; [exact Hdata|]); (split; [exact Href|]); (split; [exact Hbus|]);
    (split; [exact Hstore|]); (split; [exact Hlog|]); (split; [exact Hcalls|]);
    intros Hkept Herrors Haside Hthere; try congruence;
    rewrite Hthere in Hfs;
    rewrite (Hfs (subtree local (fs w1)) eq_refl eq_refl Herrors eq_refl);
    apply subtree_idem.
Qed.
End InstallProof.




(** C4, with the version resolved as section 4.1 has it: an install attempt
    that went as far as the download step and ended with an empty error list
    leaves installed true, installed_commit the latest known commit,
    installed_version the resolved version, or null when that is the default
    branch, new false, and the install event fired; for a repository with no
    releases and no pinned ref the ref fetched is the default branch and
    installed_version ends null. *)
Theorem successful_install_marks_installed :
  forall hacs env s s1 local,
    update_repository env (snd (record UpdateRepository s)) = (Ok tt, s1) ->
    content_path_local (self s1) = Some local ->
    can_download hacs (self s1) = true ->
    let r1 := self s1 in
    let version := version_to_download r1 in
    let done := async_install hacs env s in
    validate_errors (self (snd done)) = [] ->
    fst done = Ok tt
    /\ installed (data (self (snd done))) = true
    /\ installed_commit (data (self (snd done))) = last_commit (data r1)
    /\ installed_version (data (self (snd done))) =
       (if opt_eqb version (default_branch (data r1)) then None else version)
    /\ new (data (self (snd done))) = false
    /\ bus (world (snd done)) = (bus (world s1) ++ [install_event r1])%list
    /\ ref (self (snd done)) = install_ref r1
    /\ (releases (data r1) = false -> selected_tag (data r1) = None ->
        ref (self (snd done)) = default_branch (data r1)
        /\ installed_version (data (self (snd done))) = None).
Proof.
  intros hacs env s s1 local Hu Hl Hc r1 version done.
  destruct (install_repository_runs hacs env s s1 local Hu Hl Hc)
    as (errors & downloads & final & Hrun & Hd & He
        & Hdata & Href & Hbus & Hstore & Hlog & Hcalls & Hfs).
  assert (Hdone : done = async_post_install final).
  { subst done. unfold async_install. rewrite bind_unfold, Hrun. reflexivity. }
  rewrite Hdone. clear Hdone done. unfold async_post_install, install_event. run.
  destruct final as [rf wf]. norm. intros Hempty.
  rewrite Hempty in He. subst errors. rewrite Hdata, Href, Hbus.
  unfold installed_data. norm. fold r1 version.
  assert (Hdefault : releases (data r1) = false -> selected_tag (data r1) = None ->
                     version = default_branch (data r1)).
  { intros Hr Ht. subst version. unfold version_to_download. rewrite Ht, Hr. reflexivity. }
  split; [reflexivity|]. split; [reflexivity|]. split; [reflexivity|].
  split; [reflexivity|]. split; [reflexivity|]. split; [reflexivity|].
  split; [reflexivity|].
  intros Hr Ht. unfold install_ref. fold r1 version.
  rewrite (Hdefault Hr Ht), opt_eqb_refl. split; reflexivity.
Qed.

Lemma successful_install_marks_installed_witness :
  let s := {| self := Example.widget; world := Example.empty_world |} in
  let done := async_install Example.host_2023_12 Example.quiet s in
  fst done = Ok tt
  /\ installed (data (self (snd done))) = true
  /\ installed_commit (data (self (snd done))) = Some "def456"
  /\ installed_version (data (self (snd done))) = None
  /\ ref (self (snd done)) = Some "main".
Proof.
  intros s done.
  pose proof (successful_install_marks_installed
                Example.host_2023_12 Example.quiet s _
                "/config/www/community/widget" eq_refl eq_refl eq_refl eq_refl)
    as (H1 & H2 & H3 & _ & _ & _ & _ & H8).
  destruct H8 as [H8 H9]; [reflexivity | reflexivity |].
  repeat split; assumption.
Defined.

(** C4, as stated, fails against section 4.1 for a pinned ref: the widget
    has no releases and is pinned to [dev]; its install succeeds, fetches
    [tags/dev] and ends with installed_version [dev], not null. *)
Lemma pinned_install_without_releases_records_version :
  let s := {| self := Example.pinned; world := Example.empty_world |} in
  let done := async_install Example.host_2023_12 Example.quiet s in
  releases (data Example.pinned) = false
  /\ default_branch (data Example.pinned) = Some "main"
  /\ fst done = Ok tt
  /\ validate_errors (self (snd done)) = []
  /\ ref (self (snd done)) = Some "tags/dev"
  /\ installed_version (data (self (snd done))) = Some "dev".
Proof.
  repeat split; vm_compute; reflexivity.
Qed.

(** * Further properties *)

(** ** Names *)

Lemma split_nonempty sep s : split sep s <> [].
Proof.
  destruct s as [|c s']; cbn [split]; [discriminate|].
  destruct (Ascii.eqb c sep); [discriminate|].
  destruct (split sep s'); discriminate.
Qed.

Lemma last_cons_nonempty (x : string) xs : xs <> [] -> List.last (x :: xs) "" = List.last xs "".
Proof. destruct xs; [congruence|reflexivity]. Qed.

Lemma last_piece_no_separator sep s : has_char sep (last_piece (split sep s)) = false.
Proof.
  unfold last_piece. induction s as [|c s' IH]; [reflexivity|].
  cbn [split]. destruct (Ascii.eqb c sep) eqn:E.
  - rewrite last_cons_nonempty by apply split_nonempty. exact IH.
  - destruct (split sep s') as [|w ws] eqn:Es; [destruct (split_nonempty sep s' Es)|].
    destruct ws as [|w2 ws].
    + cbn [List.last has_char] in *. rewrite IH, Ascii.eqb_sym, E. reflexivity.
    + exact IH.
Qed.

Lemma split_without_separator sep s : has_char sep s = false -> split sep s = [s].
Proof.
  induction s as [|c s' IH]; [reflexivity|].
  cbn [has_char split]. intros H. apply orb_false_elim in H as [Hc Hs].
  rewrite Ascii.eqb_sym, Hc, (IH Hs). reflexivity.
Qed.

Lemma split_single sep s w : split sep s = [w] -> has_char sep s = false.
Proof.
  revert w. induction s as [|c s' IH]; intros w; [reflexivity|].
  cbn [has_char split]. destruct (Ascii.eqb c sep) eqn:E.
  - intros H. injection H as _ H. destruct (split_nonempty _ _ H).
  - destruct (split sep s') as [|u us] eqn:Es; [destruct (split_nonempty _ _ Es)|].
    intros H. injection H as _ H. subst us.
    rewrite Ascii.eqb_sym, E, (IH u eq_refl). reflexivity.
Qed.

Lemma append_nil_l (s : string) : "" ++ s = s.
Proof. reflexivity. Qed.

Lemma append_cons c (s t : string) : String c s ++ t = String c (s ++ t).
Proof. reflexivity. Qed.

Lemma has_char_after sep owner rest : has_char sep (owner ++ String sep rest) = true.
Proof.
  induction owner as [|x o IH]; rewrite ?append_nil_l, ?append_cons; cbn [has_char].
  - rewrite Ascii.eqb_refl. reflexivity.
  - rewrite IH. apply orb_true_r.
Qed.

Lemma last_piece_after_separator sep owner repo :
  has_char sep repo = false ->
  last_piece (split sep (owner ++ String sep repo)) = repo.
Proof.
  intros H. unfold last_piece. induction owner as [|c owner' IH].
  - rewrite append_nil_l. cbn [split].
    rewrite Ascii.eqb_refl, (split_without_separator sep repo H). reflexivity.
  - rewrite append_cons. cbn [split]. destruct (Ascii.eqb c sep).
    + rewrite last_cons_nonempty by apply split_nonempty. exact IH.
    + destruct (split sep (owner' ++ String sep repo)) as [|w ws] eqn:Es;
        [destruct (split_nonempty _ _ Es)|].
      destruct ws as [|w2 ws]; [|exact IH].
      apply split_single in Es. rewrite has_char_after in Es. discriminate.
Qed.

(** X1: the name of a repository is its domain for the categories
    integration and netdaemon; for every other category it is the text after
    the last slash of the full name, so it never contains a slash, and for a
    full name [owner/repo] it is [repo]. *)
Theorem name_is_domain_or_last_segment :
  forall d,
    (category d = "integration" \/ category d = "netdaemon" -> name d = domain d)
    /\ (category d <> "integration" -> category d <> "netdaemon" ->
        has_char "/" (name d) = false
        /\ (forall owner repo,
              full_name d = owner ++ "/" ++ repo -> has_char "/" repo = false ->
              name d = repo)).
Proof.
  intros d. unfold name, str_in. cbn [existsb]. split.
  - intros [-> | ->]; reflexivity.
  - intros Hi Hn.
    apply String.eqb_neq in Hi, Hn. rewrite Hi, Hn. cbn [orb].
    split; [apply last_piece_no_separator|].
    intros owner repo -> Hr. apply last_piece_after_separator. exact Hr.
Qed.

(** ** The action and the description shown for a status *)

Lemma pending_update_installed hacs r :
  pending_update hacs r = true -> installed (data r) = true /\ can_download hacs r = true.
Proof.
  unfold pending_update.
  destruct (can_download hacs r); cbn [negb]; [|discriminate].
  destruct (installed (data r)); [auto|discriminate].
Qed.

(** X2: the two dictionary lookups keyed by display_status never miss:
    every repository has a main action, one of INSTALL, REINSTALL and
    UPGRADE, and a status description.  UPGRADE is offered only for an
    installed repository that is not new, has no restart pending and can be
    downloaded; INSTALL is offered exactly when the repository is new, or is
    not installed and has no restart pending. *)
Theorem main_action_always_defined :
  forall hacs r,
    (exists a, main_action hacs r = Some a
               /\ (a = "INSTALL" \/ a = "REINSTALL" \/ a = "UPGRADE"))
    /\ (exists d, display_status_description hacs r = Some d)
    /\ (main_action hacs r = Some "UPGRADE" ->
        installed (data r) = true /\ new (data r) = false
        /\ pending_restart r = false /\ can_download hacs r = true)
    /\ (main_action hacs r = Some "INSTALL" <->
        new (data r) = true
        \/ (pending_restart r = false /\ installed (data r) = false)).
Proof.
  intros hacs r. unfold main_action, display_status_description, display_status.
  destruct (new (data r)) eqn:En; cbn.
  { split; [eauto|]. split; [eauto|]. split; [discriminate|]. split; auto. }
  destruct (pending_restart r) eqn:Er; cbn.
  { split; [eauto|]. split; [eauto|]. split; [discriminate|].
    split; [discriminate|]. intros [H|[H _]]; discriminate. }
  destruct (pending_update hacs r) eqn:Eu; cbn.
  { apply pending_update_installed in Eu as [Hi Hc].
    split; [eauto 6|]. split; [eauto|]. split; [auto|].
    split; [discriminate|]. intros [H|[_ H]]; congruence. }
  destruct (installed (data r)) eqn:Ei; cbn.
  { split; [eauto 6|]. split; [eauto|]. split; [discriminate|].
    split; [discriminate|]. intros [H|[_ H]]; discriminate. }
  split; [eauto|]. split; [eauto|]. split; [discriminate|]. split; auto.
Qed.

(** ** The manager manifest object *)

Lemma dict_lookup_set_eq key v d : dict_lookup key (dict_set key v d) = Some v.
Proof.
  induction d as [|[k x] d' IH]; cbn [dict_set dict_lookup].
  - rewrite String.eqb_refl. reflexivity.
  - destruct (String.eqb_spec k key) as [->|Hk]; cbn [dict_lookup].
    + rewrite String.eqb_refl. reflexivity.
    + apply String.eqb_neq in Hk. rewrite Hk. exact IH.
Qed.

Lemma dict_lookup_set_ne key k v d :
  k <> key -> dict_lookup key (dict_set k v d) = dict_lookup key d.
Proof.
  intros Hk. induction d as [|[k' x] d' IH]; cbn [dict_set dict_lookup].
  - apply String.eqb_neq in Hk. rewrite Hk. reflexivity.
  - destruct (String.eqb_spec k' k) as [->|Hk']; cbn [dict_lookup].
    + apply String.eqb_neq in Hk. rewrite Hk. reflexivity.
    + rewrite IH. reflexivity.
Qed.

Lemma dict_lookup_absent key d : ~ In key (map fst d) -> dict_lookup key d = None.
Proof.
  induction d as [|[k x] d' IH]; [reflexivity|]. cbn [map fst In dict_lookup].
  intros H. destruct (String.eqb_spec k key); [tauto|]. apply IH. tauto.
Qed.

Lemma normalise_country_keys d : map fst (normalise_country d) = map fst d.
Proof.
  induction d as [|[k v] d' IH]; [reflexivity|].
  cbn [normalise_country]. destruct (String.eqb k "country").
  - destruct v as [| | |[|c s]| |]; reflexivity.
  - cbn [map fst]. rewrite IH. reflexivity.
Qed.

Lemma normalise_country_other key d :
  key <> "country" ->
  dict_lookup key (normalise_country d) = dict_lookup key d.
Proof.
  intros Hk. induction d as [|[k v] d' IH]; [reflexivity|].
  cbn [normalise_country]. destruct (String.eqb_spec k "country") as [->|Hc].
  - destruct v as [| | |[|c s]| |]; cbn [dict_lookup];
      destruct (String.eqb_spec "country" key); congruence.
  - cbn [dict_lookup]. rewrite IH. reflexivity.
Qed.

Lemma normalise_country_country d :
  dict_lookup "country" (normalise_country d) =
    match dict_lookup "country" d with
    | None => None
    | Some (PyStr c) => Some (if String.eqb c "" then PyStr c else PyList [PyStr c])
    | Some v => Some v
    end.
Proof.
  induction d as [|[k v] d' IH]; [reflexivity|].
  cbn [normalise_country dict_lookup]. destruct (String.eqb_spec k "country") as [->|Hc].
  - destruct v as [| | |[|c s]| |]; reflexivity.
  - cbn [dict_lookup]. apply String.eqb_neq in Hc. rewrite Hc. exact IH.
Qed.

Lemma normalise_country_in key v d :
  key <> "country" -> In (key, v) d -> In (key, v) (normalise_country d).
Proof.
  intros Hk. induction d as [|[k x] d' IH]; [auto|].
  cbn [normalise_country]. intros [E|Hin].
  - injection E as -> ->. apply String.eqb_neq in Hk. rewrite Hk. left. reflexivity.
  - destruct (String.eqb k "country").
    + destruct x as [| | |[|c s]| |]; right; exact Hin.
    + right. apply IH. exact Hin.
Qed.

Lemma first_refused_kind d e :
  first_refused d = Some e -> is_Exception e = true.
Proof.
  induction d as [|[k v] d' IH]; [discriminate|]. cbn [first_refused].
  destruct (setattr_refused k v) as [e'|] eqn:E; [|exact IH].
  intros H. injection H as <-. unfold setattr_refused in E.
  repeat match type of E with
         | (if ?c then _ else _) = _ => destruct c
         | match ?x with _ => _ end = _ => destruct x
         end; try discriminate; injection E as <-; reflexivity.
Qed.

Lemma first_refused_some d key v :
  In (key, v) d -> setattr_refused key v <> None -> first_refused d <> None.
Proof.
  induction d as [|[k x] d' IH]; [contradiction|]. cbn [first_refused].
  intros [E|Hin] Hr.
  - injection E as -> ->. destruct (setattr_refused key v); congruence.
  - destruct (setattr_refused k x); [discriminate | auto].
Qed.

Lemma first_refused_none d :
  (forall key, In key (map fst d) ->
     key <> "__class__" /\ key <> "__weakref__" /\ key <> "__dict__") ->
  first_refused d = None.
Proof.
  induction d as [|[k v] d' IH]; [reflexivity|]. cbn [map fst In first_refused].
  intros H. destruct (H k (or_introl eq_refl)) as (Hc & Hw & Hd).
  unfold setattr_refused.
  apply String.eqb_neq in Hc, Hw, Hd. rewrite Hc, Hw, Hd. apply IH. auto.
Qed.

(** The attributes after the loop: a key of the dictionary holds the value
    of the dictionary, any other attribute what it held before. *)
Lemma assigned_lookup key l init :
  NoDup (map fst l) -> ~ In "__dict__" (map fst l) ->
  dict_lookup key (fold_left setattr_manifest l init) =
    match dict_lookup key l with
    | Some v => Some v
    | None => dict_lookup key init
    end.
Proof.
  revert init. induction l as [|[k v] l' IH]; intros init Hnd Hdict; [reflexivity|].
  cbn [map fst In] in *. apply NoDup_cons in Hnd as [Hk Hnd].
  cbn [fold_left dict_lookup]. rewrite IH by tauto.
  unfold setattr_manifest. cbn [fst snd].
  destruct (String.eqb_spec k "__dict__") as [E|_]; [tauto|].
  destruct (String.eqb_spec k key) as [->|Hne].
  - rewrite dict_lookup_absent by (rewrite <- list_elem_of_In; exact Hk).
    apply dict_lookup_set_eq.
  - rewrite dict_lookup_set_ne by exact Hne. reflexivity.
Qed.

(** X3: HacsManifest.from_dict refuses None with the missing-data error.
    For a dictionary (its keys distinct), it raises when a key is
    [__class__] or [__weakref__], which setattr refuses; when no key is one
    of these or [__dict__], it returns an object that reads back, under each
    key of the dictionary other than country, the value the dictionary
    holds; under country a non-empty string wrapped into a one-element
    list, any other value as it is, and the empty list when the key is
    absent; under name the value None when the key is absent; and under
    manifest, when the key is absent, the dictionary itself, with its
    country entry rewritten. *)
Theorem manifest_from_dict_reads_back :
  forall d,
    NoDup (map fst d) ->
    HacsManifest_from_dict PyNone = Raises (HacsException "Missing manifest data")
    /\ (forall key v,
          In (key, v) d -> key = "__class__" \/ key = "__weakref__" ->
          exists e, HacsManifest_from_dict (PyDict d) = Raises e
                    /\ is_Exception e = true)
    /\ ((forall key, In key (map fst d) ->
           key <> "__class__" /\ key <> "__weakref__" /\ key <> "__dict__") ->
        exists m,
          HacsManifest_from_dict (PyDict d) = Returns m
          /\ (forall key v, key <> "country" -> dict_lookup key d = Some v ->
                manifest_attr m key = Returns v)
          /\ manifest_attr m "country" =
               Returns match dict_lookup "country" d with
                       | None => PyList []
                       | Some (PyStr c) =>
                           if String.eqb c "" then PyStr c else PyList [PyStr c]
                       | Some v => v
                       end
          /\ (dict_lookup "name" d = None -> manifest_attr m "name" = Returns PyNone)
          /\ (dict_lookup "manifest" d = None ->
              manifest_attr m "manifest" = Returns (PyDict (normalise_country d)))).
Proof.
  intros d Hnd. split; [reflexivity|]. split.
  - intros key v Hin Hkey. cbn [HacsManifest_from_dict].
    assert (Hc : key <> "country") by (destruct Hkey as [-> | ->]; discriminate).
    pose proof (first_refused_some (normalise_country d) key v
                  (normalise_country_in key v d Hc Hin)) as Hsome.
    destruct (first_refused (normalise_country d)) as [e|] eqn:E.
    + exists e. split; [reflexivity|]. exact (first_refused_kind _ _ E).
    + exfalso. apply Hsome; [|reflexivity].
      destruct Hkey as [-> | ->]; discriminate.
  - intros Hkeys. exists {| manifest := normalise_country d |}.
    assert (Hlookup : forall key,
               dict_lookup key (instance_dict {| manifest := normalise_country d |}) =
                 match dict_lookup key (normalise_country d) with
                 | Some v => Some v
                 | None => dict_lookup key (HacsManifest_defaults (normalise_country d))
                 end).
    { intros key. unfold instance_dict. cbn [manifest]. apply assigned_lookup.
      - rewrite normalise_country_keys.
        exact Hnd.
      - rewrite normalise_country_keys. intros Hin.
        destruct (Hkeys _ Hin) as (_ & _ & H). congruence. }
    split.
    { cbn [HacsManifest_from_dict]. rewrite first_refused_none; [reflexivity|].
      rewrite normalise_country_keys. exact Hkeys. }
    unfold manifest_attr. split; [|split; [|split]].
    + intros key v Hkey Hv. rewrite Hlookup, normalise_country_other, Hv by exact Hkey.
      reflexivity.
    + rewrite Hlookup, normalise_country_country.
      destruct (dict_lookup "country" d) as [[| | |c| |]|]; reflexivity.
    + intros Hn. rewrite Hlookup, normalise_country_other, Hn by discriminate.
      reflexivity.
    + intros Hn. rewrite Hlookup, normalise_country_other, Hn by discriminate.
      reflexivity.
Qed.

Lemma manifest_from_dict_reads_back_witness :
  let d := [("name", PyStr "Cool Widget"); ("country", PyStr "NO")] in
  exists m,
    HacsManifest_from_dict (PyDict d) = Returns m
    /\ manifest_attr m "name" = Returns (PyStr "Cool Widget")
    /\ manifest_attr m "country" = Returns (PyList [PyStr "NO"]).
Proof.
  intros d.
  assert (Hnd : NoDup (map fst d)).
  { repeat constructor; cbn; rewrite ?list_elem_of_In; cbn; intuition discriminate. }
  destruct (manifest_from_dict_reads_back d Hnd) as (_ & _ & Hreads).
  destruct Hreads as (m & Hm & Hkey & Hcountry & _).
  - intros key [<-|[<-|[]]]; repeat split; discriminate.
  - exists m. split; [exact Hm|]. split; [|exact Hcountry].
    apply Hkey; [discriminate | reflexivity].
Defined.

(** ** The display name *)

Lemma to_upper_slash x : Ascii.eqb "/" (to_upper x) = Ascii.eqb "/" x.
Proof. each_ascii x. Qed.
Lemma to_lower_slash x : Ascii.eqb "/" (to_lower x) = Ascii.eqb "/" x.
Proof. each_ascii x. Qed.
Lemma to_upper_dash x : Ascii.eqb "-" (to_upper x) = Ascii.eqb "-" x.
Proof. each_ascii x. Qed.
Lemma to_lower_dash x : Ascii.eqb "-" (to_lower x) = Ascii.eqb "-" x.
Proof. each_ascii x. Qed.
Lemma to_upper_underscore x : Ascii.eqb "_" (to_upper x) = Ascii.eqb "_" x.
Proof. each_ascii x. Qed.
Lemma to_lower_underscore x : Ascii.eqb "_" (to_lower x) = Ascii.eqb "_" x.
Proof. each_ascii x. Qed.
Lemma to_lower_to_upper x : to_lower (to_upper x) = to_lower x.
Proof. each_ascii x. Qed.
Lemma to_lower_to_lower x : to_lower (to_lower x) = to_lower x.
Proof. each_ascii x. Qed.

(** [title] changes letters only into letters: a character that is not a
    letter occurs in the result where it occurred before. *)
Lemma title_from_keeps c inside s :
  (forall x, Ascii.eqb c (to_upper x) = Ascii.eqb c x) ->
  (forall x, Ascii.eqb c (to_lower x) = Ascii.eqb c x) ->
  has_char c (title_from inside s) = has_char c s.
Proof.
  intros Hu Hl. revert inside. induction s as [|x s' IH]; intros inside; [reflexivity|].
  cbn [title_from has_char]. rewrite IH.
  destruct inside; rewrite ?Hu, ?Hl; reflexivity.
Qed.

Lemma lower_title_from inside s : lower (title_from inside s) = lower s.
Proof.
  revert inside. induction s as [|x s' IH]; intros inside; [reflexivity|].
  cbn [title_from lower]. rewrite IH.
  destruct inside; rewrite ?to_lower_to_upper, ?to_lower_to_lower; reflexivity.
Qed.

Lemma title_from_length inside s : String.length (title_from inside s) = String.length s.
Proof.
  revert inside. induction s as [|x s' IH]; intros inside; [reflexivity|].
  cbn [title_from String.length]. rewrite IH. reflexivity.
Qed.

Lemma replace_char_gone old new s :
  Ascii.eqb old new = false -> has_char old (replace_char old new s) = false.
Proof.
  intros H. induction s as [|x s' IH]; [reflexivity|].
  cbn [replace_char has_char]. rewrite IH.
  destruct (Ascii.eqb x old) eqn:E; [rewrite H; reflexivity|].
  rewrite Ascii.eqb_sym, E. reflexivity.
Qed.

Lemma replace_char_keeps c old new s :
  Ascii.eqb c new = false -> has_char c s = false ->
  has_char c (replace_char old new s) = false.
Proof.
  intros H. induction s as [|x s' IH]; [reflexivity|].
  cbn [replace_char has_char]. intros Hs. apply orb_false_elim in Hs as [Hx Hs].
  rewrite (IH Hs). destruct (Ascii.eqb x old); [rewrite H|rewrite Hx]; reflexivity.
Qed.

Lemma replace_char_length old new s :
  String.length (replace_char old new s) = String.length s.
Proof.
  induction s as [|x s' IH]; [reflexivity|]. cbn [replace_char String.length].
  rewrite IH. reflexivity.
Qed.

Lemma replace_char_is_ascii old new s :
  (nat_of_ascii new <? 128)%nat = true ->
  is_ascii s = true -> is_ascii (replace_char old new s) = true.
Proof.
  intros Hn. induction s as [|x s' IH]; [reflexivity|].
  cbn [replace_char is_ascii]. intros H. apply andb_prop in H as [Hx Hs].
  rewrite (IH Hs). destruct (Ascii.eqb x old); [rewrite Hn | rewrite Hx]; reflexivity.
Qed.

(** X4: when the manager manifest gives no name and, for an integration,
    the integration manifest gives none either, and the part of the full
    name after the last slash is ASCII text, the display name is a text
    derived from that part: every dash and underscore turned into a space
    and the letter case changed.  It contains no slash, dash or underscore,
    it is as long as that part, and apart from letter case it is that part
    with the two separators replaced. *)
Theorem display_name_derived_from_full_name :
  forall beyond_ascii integration_manifest r,
    manifest_attr (repository_manifest r) "name" = Returns PyNone ->
    (category (data r) = "integration" ->
     dict_lookup "name" integration_manifest = None) ->
    let last_part := last_piece (split "/" (full_name (data r))) in
    is_ascii last_part = true ->
    exists text,
      display_name beyond_ascii integration_manifest r = Returns (PyStr text)
      /\ has_char "/" text = false
      /\ has_char "-" text = false
      /\ has_char "_" text = false
      /\ String.length text = String.length last_part
      /\ lower text = lower (replace_char "_" " " (replace_char "-" " " last_part)).
Proof.
  intros beyond im r Hm Hi last_part Hascii.
  exists (title beyond (replace_char "_" " " (replace_char "-" " " last_part))).
  split.
  - unfold display_name. rewrite Hm. fold last_part.
    destruct (String.eqb_spec (category (data r)) "integration") as [E|E]; [|reflexivity].
    rewrite (Hi E). destruct im; reflexivity.
  - unfold title.
    rewrite (replace_char_is_ascii "_" " " _ eq_refl
               (replace_char_is_ascii "-" " " _ eq_refl Hascii)).
    rewrite (title_from_keeps "/" false _ to_upper_slash to_lower_slash).
    rewrite (title_from_keeps "-" false _ to_upper_dash to_lower_dash).
    rewrite (title_from_keeps "_" false _ to_upper_underscore to_lower_underscore).
    rewrite title_from_length, !replace_char_length, lower_title_from.
    split; [|split; [|split; [|split]]]; try reflexivity.
    + apply replace_char_keeps; [reflexivity|].
      apply replace_char_keeps; [reflexivity|].
      apply last_piece_no_separator.
    + apply replace_char_keeps; [reflexivity|]. apply replace_char_gone. reflexivity.
    + apply replace_char_gone. reflexivity.
Qed.

Lemma display_name_derived_from_full_name_witness :
  display_name (fun text => text) [] Sample.cool_card = Returns (PyStr "My Cool Card")
  /\ exists text,
       display_name (fun text => text) [] Sample.cool_card = Returns (PyStr text)
       /\ has_char "/" text = false
       /\ has_char "-" text = false
       /\ has_char "_" text = false
       /\ String.length text = String.length "my-cool_card"
       /\ lower text = "my cool card".
Proof.
  split; [vm_compute; reflexivity|].
  apply (display_name_derived_from_full_name (fun text => text) [] Sample.cool_card);
    [reflexivity | intros E; vm_compute in E; discriminate | reflexivity].
Defined.

(** ** The country filter *)




(** ** Updating the record from a dictionary *)

Section UpdateDataProperties.

Variable env : Env.

Lemma update_data_cons key v rest d :
  update_data env ((key, v) :: rest) d =
    match update_key env key v d with
    | (Ok _, d1) => update_data env rest d1
    | (Raise e, d1) => (Raise e, d1)
    | (Beyond b, d1) => (Beyond b, d1)
    end.
Proof. reflexivity. Qed.

(** An attribute that no step of the loop touches unless the key names it
    is as before when the key is not in the dictionary. *)
Lemma update_data_keeps {T} (proj : RepositoryData -> T) (k : string) :
  (forall key v d, key <> k -> proj (snd (update_key env key v d)) = proj d) ->
  forall dict d, ~ In k (map fst dict) -> proj (snd (update_data env dict d)) = proj d.
Proof.
  intros Hstep. induction dict as [|[key v] rest IH]; intros d Hk; [reflexivity|].
  rewrite update_data_cons. cbn [map fst In] in Hk.
  assert (Hne : key <> k) by tauto.
  specialize (Hstep key v d Hne).
  destruct (update_key env key v d) as [[[]|e|b] d1]; cbn [snd] in *;
    [rewrite IH by tauto|..]; exact Hstep.
Qed.

Lemma update_data_app before after d d1 :
  update_data env before d = (Ok tt, d1) ->
  update_data env (before ++ after) d = update_data env after d1.
Proof.
  revert d. induction before as [|[key v] rest IH]; intros d H.
  - injection H as ->. reflexivity.
  - rewrite <- app_comm_cons, update_data_cons. rewrite update_data_cons in H.
    destruct (update_key env key v d) as [[[]|e|b] d2]; try discriminate.
    apply IH. exact H.
Qed.

End UpdateDataProperties.

(** X6: update_data changes no attribute that its dictionary does not
    name, whether it returns or stops at an exception: each attribute of the
    record whose name is not a key of the dictionary has kept its value. *)
Theorem update_data_changes_only_named_keys :
  forall env dict d,
    let d' := snd (update_data env dict d) in
    let absent key := ~ In key (map fst dict) in
    (absent "category" -> category d' = category d)
    /\ (absent "config_flow" -> config_flow d' = config_flow d)
    /\ (absent "default_branch" -> default_branch d' = default_branch d)
    /\ (absent "domain" -> domain d' = domain d)
    /\ (absent "etag_repository" -> etag_repository d' = etag_repository d)
    /\ (absent "filename" -> filename d' = filename d)
    /\ (absent "full_name" -> full_name d' = full_name d)
    /\ (absent "homeassistant" -> homeassistant d' = homeassistant d)
    /\ (absent "id" -> id d' = id d)
    /\ (absent "installed" -> installed d' = installed d)
    /\ (absent "installed_commit" -> installed_commit d' = installed_commit d)
    /\ (absent "installed_version" -> installed_version d' = installed_version d)
    /\ (absent "last_commit" -> last_commit d' = last_commit d)
    /\ (absent "last_version" -> last_version d' = last_version d)
    /\ (absent "last_updated" -> last_updated d' = last_updated d)
    /\ (absent "new" -> new d' = new d)
    /\ (absent "persistent_directory" -> persistent_directory d' = persistent_directory d)
    /\ (absent "pushed_at" -> pushed_at d' = pushed_at d)
    /\ (absent "releases" -> releases d' = releases d)
    /\ (absent "selected_tag" -> selected_tag d' = selected_tag d)
    /\ (absent "zip_release" -> zip_release d' = zip_release d).
Proof.
  intros env dict d d' absent. subst d' absent.
  repeat split; intros H;
    match type of H with
    | ~ In ?k _ => apply (update_data_keeps env _ k); [one_key | exact H]
    end.
Qed.

(** X7: update_data skips every key that is not an attribute of the record
    and one whose key is pushed_at with an empty text: a dictionary made of
    such entries only leaves the record as it is and returns. *)
Theorem update_data_ignores_unknown_keys :
  forall env dict d,
    Forall (fun kv => str_in (fst kv) (kept_attributes ++ other_attributes) = false
                      \/ kv = ("pushed_at", PyStr "")) dict ->
    update_data env dict d = (Ok tt, d).
Proof.
  intros env dict d H. induction H as [|[key v] rest Hkv Hrest IH]; [reflexivity|].
  rewrite update_data_cons.
  assert (Hstep : update_key env key v d = (Ok tt, d)).
  { destruct Hkv as [Hk|Hk].
    - unfold update_key. cbn [fst] in Hk. rewrite Hk. reflexivity.
    - injection Hk as -> ->. reflexivity. }
  rewrite Hstep. exact IH.
Qed.

Lemma update_data_ignores_unknown_keys_witness :
  update_data Example.quiet [("license", PyStr "MIT"); ("pushed_at", PyStr "")]
    RepositoryData_default = (Ok tt, RepositoryData_default).
Proof.
  apply update_data_ignores_unknown_keys.
  constructor; [left; reflexivity|]. constructor; [right; reflexivity|]. constructor.
Defined.

(** X8: a pushed_at text that the date parser refuses stops update_data
    with a ValueError at that key: the keys before it have been applied, the
    keys after it have not. *)
Theorem update_data_stops_at_unparsable_date :
  forall env before after text d d1,
    update_data env before d = (Ok tt, d1) ->
    text <> "" ->
    strptime env text
      (if has_char "Z" text then "%Y-%m-%dT%H:%M:%SZ" else "%Y-%m-%dT%H:%M:%S") = None ->
    update_data env (before ++ ("pushed_at", PyStr text) :: after) d =
      (Raise (PyException "ValueError" "time data does not match format"), d1).
Proof.
  intros env before after text d d1 Hb Ht Hp.
  rewrite (update_data_app env before _ d d1 Hb), update_data_cons.
  unfold update_key. cbn [negb str_in existsb app kept_attributes other_attributes].
  replace (str_in "pushed_at" (kept_attributes ++ other_attributes)) with true
    by (vm_compute; reflexivity).
  cbn [negb]. rewrite String.eqb_refl.
  apply String.eqb_neq in Ht. rewrite Ht, Hp. reflexivity.
Qed.

Lemma update_data_stops_at_unparsable_date_witness :
  update_data Example.quiet
    [("full_name", PyStr "acme/gadget"); ("pushed_at", PyStr "yesterday");
     ("domain", PyStr "gadget")] RepositoryData_default
  = (Raise (PyException "ValueError" "time data does not match format"),
     set_full_name "acme/gadget" RepositoryData_default).
Proof.
  apply (update_data_stops_at_unparsable_date Example.quiet
           [("full_name", PyStr "acme/gadget")] [("domain", PyStr "gadget")] "yesterday");
    [reflexivity | discriminate | reflexivity].
Defined.

(** ** Release archives *)

Section ZipFiles.

Variable env : Env.

Lemma matching_assets_no_release r tag : forall objects contents,
  ref_tag r = Returns tag ->
  Forall (fun release => tag_name release <> tag) objects ->
  matching_assets r objects contents = Returns contents.
Proof.
  induction objects as [|release rest IH]; intros contents Ht Hf; [reflexivity|].
  inversion Hf as [|? ? Hne Hrest]; subst.
  cbn [matching_assets]. rewrite Ht.
  apply String.eqb_neq in Hne. rewrite Hne. apply IH; assumption.
Qed.

Lemma download_zip_files_nothing s :
  matching_assets (self s) (releases_objects (self s)) [] = Returns [] ->
  download_zip_files env s = (Ok tt, s).
Proof.
  intros H. unfold download_zip_files, try_except. run. unfold lift. rewrite H. reflexivity.
Qed.

End ZipFiles.

(** X9: download_zip_files never raises, whatever its collaborators do:
    it returns, the record data and the ref are as before, the errors found
    come after the errors already in the list, the operations it started are
    downloads only, and the event bus, the store and the log are
    untouched. *)
Theorem download_zip_files_never_raises :
  forall env s,
    let after := download_zip_files env s in
    fst after = Ok tt
    /\ data (self (snd after)) = data (self s)
    /\ ref (self (snd after)) = ref (self s)
    /\ (exists errors,
          validate_errors (self (snd after)) = (validate_errors (self s) ++ errors)%list)
    /\ (exists downloads,
          calls (world (snd after)) = (calls (world s) ++ downloads)%list
          /\ Forall (fun c => is_download c = true) downloads)
    /\ bus (world (snd after)) = bus (world s)
    /\ store (world (snd after)) = store (world s)
    /\ log (world (snd after)) = log (world s).
Proof.
  intros env s after. subst after.
  destruct (download_zip_files_frame env s) as (errors & files & downloads & Hd & ->).
  cbn [fst snd]. unfold downloaded. destruct s as [[] []]. norm.
  repeat split; eauto.
Qed.

(** X10: when the repository has no release at all, or none whose tag is
    the second slash-separated part of the ref, download_zip_files fetches
    nothing and reports nothing: it returns with the state as it was, the
    error list included. *)
Theorem download_zip_files_without_matching_release :
  forall env s,
    releases_objects (self s) = []
    \/ (exists tag, ref_tag (self s) = Returns tag
                    /\ Forall (fun release => tag_name release <> tag)
                              (releases_objects (self s))) ->
    download_zip_files env s = (Ok tt, s).
Proof.
  intros env s [H | (tag & Ht & Hf)]; apply download_zip_files_nothing.
  - rewrite H. reflexivity.
  - apply (matching_assets_no_release _ tag); assumption.
Qed.

Lemma download_zip_files_without_matching_release_witness :
  let s := {| self := Sample.zipped; world := Example.widget_on_disk |} in
  ref_tag Sample.zipped = Returns "2.0.0"
  /\ download_zip_files Example.quiet s = (Ok tt, s).
Proof.
  intros s. split; [reflexivity|].
  apply download_zip_files_without_matching_release.
  right. exists "2.0.0". split; [reflexivity|].
  repeat constructor. discriminate.
Defined.

(** X11: with at least one release to look at, a ref that is not set or
    has no slash makes download_zip_files record the error
    [Download was not completed] and nothing else: the lookup of the tag
    fails and the failure is swallowed. *)
Theorem download_zip_files_with_unusable_ref :
  forall env s,
    releases_objects (self s) <> [] ->
    ref (self s) = None
    \/ (exists text, ref (self s) = Some text /\ has_char "/" text = false) ->
    download_zip_files env s =
      (Ok tt, on_self (fun r => set_validate_errors
                                  (validate_errors r ++ ["Download was not completed"]) r) s).
Proof.
  intros env s Hr Href.
  assert (He : exists e, ref_tag (self s) = Raises e).
  { unfold ref_tag. destruct Href as [-> | (text & -> & Hn)]; [eauto|].
    rewrite (split_without_separator _ _ Hn). eauto. }
  destruct He as [e He].
  unfold download_zip_files, try_except. run. unfold lift.
  destruct (releases_objects (self s)) as [|release rest]; [congruence|].
  cbn [matching_assets]. rewrite He. reflexivity.
Qed.

Lemma download_zip_files_with_unusable_ref_witness :
  let s := {| self := Sample.zipped_on_branch; world := Example.widget_on_disk |} in
  validate_errors (self (snd (download_zip_files Example.quiet s)))
  = ["Download was not completed"].
Proof.
  intros s.
  rewrite (download_zip_files_with_unusable_ref Example.quiet s).
  - reflexivity.
  - discriminate.
  - right. exists "main". split; reflexivity.
Defined.

(** X12: what async_download_zip_file does with one asset when things go
    wrong.  A download that brings nothing records
    [[name] was not downloaded] and writes no file; an exception of any kind
    raised by the download is swallowed and recorded as
    [Download was not completed]; and when the archive was fetched and can be
    read but saving it reported failure, its entries are extracted all the
    same and [[name] was not downloaded] is recorded.  In each case the
    method returns normally and the download is recorded once. *)
Theorem async_download_zip_file_failures :
  forall env content s,
    let url := download_url content in
    let missing := "[" ++ asset_name content ++ "] was not downloaded" in
    (async_download_file env url = Returns None ->
     async_download_zip_file env content s =
       (Ok tt, downloaded s [missing] (fs (world s)) [DownloadFile url]))
    /\ (forall e,
          async_download_file env url = Raises e ->
          async_download_zip_file env content s =
            (Ok tt, downloaded s ["Download was not completed"] (fs (world s))
                      [DownloadFile url]))
    /\ (forall bytes temp_dir entries,
          async_download_file env url = Returns (Some bytes) ->
          mkdtemp env = Returns temp_dir ->
          let temp_file := temp_dir ++ "/" ++ filename (data (self s)) in
          async_save_file env temp_file bytes = Returns false ->
          zip_entries env temp_file = Returns entries ->
          async_download_zip_file env content s =
            (Ok tt, downloaded s [missing]
                      (write_entries (content_path_local (self s)) entries (fs (world s)))
                      [DownloadFile url])).
Proof.
  intros env content s url missing. subst url missing.
  unfold async_download_zip_file, try_except, downloaded.
  split; [|split].
  - intros H. run. unfold lift. rewrite H. run. destruct s as [[] []]. reflexivity.
  - intros e H. run. unfold lift. rewrite H. run. destruct s as [[] []]. reflexivity.
  - intros bytes temp_dir entries H1 H2. cbn zeta. intros H3 H4.
    run. unfold lift. rewrite H1. run. rewrite H2. run. rewrite H3. run. rewrite H4. run.
    destruct s as [[] []]. reflexivity.
Qed.

(** ** Uninstall: refusals and follow-up *)

(** X13: an integration whose domain is empty cannot be uninstalled:
    uninstall raises [Could not uninstall] after logging the missing domain,
    and the record, the files, the event bus, the store and the recorded
    operations are as before. *)
Theorem uninstall_integration_without_domain :
  forall hacs env s,
    category (data (self s)) = "integration" ->
    domain (data (self s)) = "" ->
    let after := uninstall hacs env s in
    fst after = Raise (HacsException "Could not uninstall")
    /\ self (snd after) = self s
    /\ fs (world (snd after)) = fs (world s)
    /\ log (world (snd after)) =
       (log (world s) ++ [(ERROR, (repr (str_title env) (self s) ++ " Missing domain")%string)])%list
    /\ bus (world (snd after)) = bus (world s)
    /\ store (world (snd after)) = store (world s)
    /\ calls (world (snd after)) = calls (world s).
Proof.
  intros hacs env s Hc Hd after. subst after.
  unfold uninstall, remove_local_directory, try_except. run.
  rewrite Hc, Hd. cbn. destruct s as [[] []]. repeat split.
Qed.

Lemma uninstall_integration_without_domain_witness :
  let s := {| self := Sample.nameless_integration; world := Example.widget_on_disk |} in
  fst (uninstall Example.host_2023_12 Example.quiet s)
  = Raise (HacsException "Could not uninstall")
  /\ fs (world (snd (uninstall Example.host_2023_12 Example.quiet s)))
     = fs Example.widget_on_disk
  /\ installed (data (self (snd (uninstall Example.host_2023_12 Example.quiet s)))) = true.
Proof.
  intros s.
  destruct (uninstall_integration_without_domain Example.host_2023_12 Example.quiet s
              eq_refl eq_refl) as (H1 & H2 & H3 & _).
  split; [exact H1|]. split; [exact H3|]. rewrite H2. reflexivity.
Defined.

Section UninstallRefusals.

Variable hacs : Hacs.
Variable env : Env.

Lemma remove_path_raises s path node :
  fs (world s) !! path = Some node ->
  is_safe env hacs path = true ->
  removable (self s) node = false ->
  exists e, remove_path hacs env (Some path) s = (Raise e, s).
Proof.
  intros H Hs Hr. unfold remove_path. cbn [bind gets].
  unfold os_path_exists at 1. rewrite H, Hs. cbn [negb].
  unfold removable in Hr.
  destruct node as [content|], (str_in (category (data (self s))) ["python_script"]);
    try discriminate.
  - unfold shutil_rmtree. repeat step. rewrite H. eexists. reflexivity.
  - unfold os_remove. repeat step. rewrite H. eexists. reflexivity.
Qed.

(** Whenever the part of [remove_local_directory] that works on the target
    raises, the method answers false and only the theme file is gone. *)
Lemma remove_local_directory_swallows s :
  (category (data (self s)) = "integration" -> domain (data (self s)) <> "") ->
  (category (data (self s)) = "theme" ->
   fs (world s) !! theme_file hacs (self s) <> Some Dir) ->
  (forall s', self s' = self s ->
              fs (world s') = theme_cleared hacs (self s) (fs (world s)) ->
              exists e, remove_path hacs env (removal_target (self s)) s' = (Raise e, s')) ->
  remove_local_directory hacs env s =
    (Ok false, on_world (set_fs (theme_cleared hacs (self s) (fs (world s)))) s).
Proof.
  intros Hd Hy Hraise.
  unfold remove_local_directory, removal_target, theme_cleared in *.
  unfold guarded_removal, try_except. run.
  destruct (String.eqb (category (data (self s))) "python_script") eqn:Ep.
  - destruct (Hraise s eq_refl eq_refl) as [e ->]. destruct s as [me []]; reflexivity.
  - destruct (String.eqb (category (data (self s))) "theme") eqn:Eth.
    + apply String.eqb_eq in Eth. specialize (Hy Eth).
      run. unfold os_path_exists, when.
      destruct (fs (world s) !! theme_file hacs (self s)) as [[content|]|] eqn:Ey;
        [| congruence |].
      * unfold os_remove. run. rewrite Ey. run.
        match goal with
        | |- context [remove_path hacs env ?p ?st] =>
            destruct (Hraise st eq_refl eq_refl) as [e ->]
        end.
        destruct s as [me []]; reflexivity.
      * run. destruct (Hraise s eq_refl eq_refl) as [e ->].
        destruct s as [me []]; reflexivity.
    + destruct (String.eqb (category (data (self s))) "integration") eqn:Ei.
      * apply String.eqb_eq in Ei. specialize (Hd Ei).
        apply String.eqb_neq in Hd. rewrite Hd.
        destruct (Hraise s eq_refl eq_refl) as [e ->]. destruct s as [me []]; reflexivity.
      * destruct (Hraise s eq_refl eq_refl) as [e ->]. destruct s as [me []]; reflexivity.
Qed.

End UninstallRefusals.

(** X14: uninstall fails, and touches nothing but the theme file of a
    theme, when the removal itself cannot be carried out: the local content
    path is not set, or the target is there and safe but of the wrong kind
    (a directory where the script file of a python_script is expected, a
    file where the other categories expect a directory).  The exception is
    swallowed, uninstall raises [Could not uninstall], and the record, with
    its installed flag, is as before. *)
Theorem uninstall_fails_when_removal_raises :
  forall hacs env s,
    let r := self s in
    let prepared := theme_cleared hacs r (fs (world s)) in
    (category (data r) = "integration" -> domain (data r) <> "") ->
    (category (data r) = "theme" -> fs (world s) !! theme_file hacs r <> Some Dir) ->
    removal_target r = None
    \/ (exists path node,
          removal_target r = Some path
          /\ prepared !! path = Some node
          /\ is_safe env hacs path = true
          /\ removable r node = false) ->
    let after := uninstall hacs env s in
    fst after = Raise (HacsException "Could not uninstall")
    /\ self (snd after) = r
    /\ fs (world (snd after)) = prepared
    /\ bus (world (snd after)) = bus (world s)
    /\ store (world (snd after)) = store (world s)
    /\ log (world (snd after)) = log (world s)
    /\ calls (world (snd after)) = calls (world s).
Proof.
  intros hacs env s r prepared Hd Hy Hcase after. subst after r prepared.
  assert (E : remove_local_directory hacs env s =
              (Ok false, on_world (set_fs (theme_cleared hacs (self s) (fs (world s)))) s)).
  { apply remove_local_directory_swallows; [exact Hd | exact Hy |].
    intros s' Hself Hfs. destruct Hcase as [-> | (path & node & -> & Hn & Hs & Hr)].
    - eexists. reflexivity.
    - apply (remove_path_raises hacs env s' path node).
      + rewrite Hfs. exact Hn.
      + exact Hs.
      + rewrite Hself. exact Hr. }
  rewrite (uninstall_refused hacs env s _ E). destruct s as [me []]. repeat split.
Qed.

Lemma uninstall_fails_when_removal_raises_witness :
  let s := {| self := Example.tracking; world := Sample.file_in_the_way |} in
  fst (uninstall Example.host_2023_12 Example.quiet s)
  = Raise (HacsException "Could not uninstall")
  /\ fs (world (snd (uninstall Example.host_2023_12 Example.quiet s)))
     = fs Sample.file_in_the_way.
Proof.
  intros s.
  destruct (uninstall_fails_when_removal_raises Example.host_2023_12 Example.quiet s)
    as (H1 & _ & H3 & _).
  - intros E. vm_compute in E. discriminate.
  - intros E. vm_compute in E. discriminate.
  - right. exists "/config/www/community/widget", (File "not a directory").
    repeat split; vm_compute; reflexivity.
  - split; [exact H1|]. rewrite H3. vm_compute. reflexivity.
Defined.

(** X15: what uninstall does for the host once the local content is out of
    the way.  An integration with a config flow has its custom components
    reloaded and keeps its restart flag; an integration without one is
    marked as pending a restart and nothing is reloaded; a theme has the
    frontend themes reloaded, and a failure of that call is ignored; the
    other categories call nothing.  The store entry is removed after
    that. *)
Theorem uninstall_follow_up_by_category :
  forall hacs env s s1,
    remove_local_directory hacs env s = (Ok true, s1) ->
    (category (data (self s1)) = "integration" -> config_flow (data (self s1)) = true ->
     host env ReloadCustomComponents = None) ->
    let r := self s1 in
    let after := uninstall hacs env s in
    fst after = Ok tt
    /\ pending_restart (self (snd after)) =
       (if String.eqb (category (data r)) "integration" && negb (config_flow (data r))
        then true else pending_restart r)
    /\ calls (world (snd after)) =
       (calls (world s1)
        ++ (if String.eqb (category (data r)) "integration" then
              if config_flow (data r) then [ReloadCustomComponents] else []
            else if String.eqb (category (data r)) "theme" then
              [ServiceCall "frontend" "reload_themes"]
            else [])
        ++ [RemoveStore (store_key r)])%list.
Proof.
  intros hacs env s s1 H Hhost r after. subst after r. unfold uninstall.
  rewrite bind_unfold, H. cbn [negb]. destruct s1 as [me w].
  unfold call_host, async_remove_store, store_key. run.
  destruct (String.eqb (category (data me)) "integration") eqn:Ei.
  - apply String.eqb_eq in Ei.
    destruct (config_flow (data me)) eqn:Ec.
    + run. rewrite (Hhost Ei eq_refl). run. rewrite <- app_assoc. repeat split.
    + run. repeat split.
  - destruct (String.eqb (category (data me)) "theme") eqn:Et.
    + unfold try_except. run.
      destruct (host env (ServiceCall "frontend" "reload_themes")); run;
        rewrite <- app_assoc; repeat split.
    + run. repeat split.
Qed.

Lemma uninstall_follow_up_by_category_witness :
  let s := {| self := Sample.integration; world := Example.widget_on_disk |} in
  let after := uninstall Example.host_2023_12 Example.quiet s in
  fst after = Ok tt
  /\ pending_restart (self (snd after)) = true
  /\ calls (world (snd after)) = [RemoveStore "hacs/42.hacs"].
Proof.
  intros s after.
  destruct (uninstall_follow_up_by_category Example.host_2023_12 Example.quiet s
              (snd (remove_local_directory Example.host_2023_12 Example.quiet s)))
    as (H1 & H2 & H3).
  - vm_compute. reflexivity.
  - intros _ E. vm_compute in E. discriminate.
  - subst after. split; [exact H1|]. split; [rewrite H2 | rewrite H3]; vm_compute; reflexivity.
Defined.

(** X16: when reloading the custom components fails during the uninstall
    of an integration with a config flow, the exception leaves uninstall
    half-way: the local content is gone and installed is false, but the
    installed version and commit are still recorded, the store entry is
    still there and no uninstall event was fired. *)
Theorem uninstall_interrupted_by_reload :
  forall hacs env s s1 e,
    remove_local_directory hacs env s = (Ok true, s1) ->
    category (data (self s1)) = "integration" ->
    config_flow (data (self s1)) = true ->
    host env ReloadCustomComponents = Some e ->
    let after := uninstall hacs env s in
    fst after = Raise e
    /\ installed (data (self (snd after))) = false
    /\ installed_version (data (self (snd after))) = installed_version (data (self s1))
    /\ installed_commit (data (self (snd after))) = installed_commit (data (self s1))
    /\ pending_restart (self (snd after)) = pending_restart (self s1)
    /\ fs (world (snd after)) = fs (world s1)
    /\ bus (world (snd after)) = bus (world s1)
    /\ store (world (snd after)) = store (world s1).
Proof.
  intros hacs env s s1 e H Hc Hf Hhost after. subst after. unfold uninstall.
  rewrite bind_unfold, H. cbn [negb]. destruct s1 as [me w].
  unfold call_host. run. cbn [self data] in Hc, Hf. rewrite Hc, Hf. cbn.
  rewrite Hhost. repeat split.
Qed.

Lemma uninstall_interrupted_by_reload_witness :
  let s := {| self := on_data (set_config_flow true) Sample.integration;
              world := Example.widget_on_disk |} in
  let after := uninstall Example.host_2023_12 Sample.reload_fails s in
  fst after = Raise (PyException "HomeAssistantError" "reload failed")
  /\ installed (data (self (snd after))) = false
  /\ installed_commit (data (self (snd after))) = Some "abc123"
  /\ bus (world (snd after)) = []
  /\ store (world (snd after)) = {[ "hacs/42.hacs" ]}.
Proof.
  intros s after.
  destruct (uninstall_interrupted_by_reload Example.host_2023_12 Sample.reload_fails s
              (snd (remove_local_directory Example.host_2023_12 Sample.reload_fails s))
              (PyException "HomeAssistantError" "reload failed"))
    as (H1 & H2 & _ & H4 & _ & _ & H7 & H8).
  - vm_compute. reflexivity.
  - vm_compute. reflexivity.
  - vm_compute. reflexivity.
  - reflexivity.
  - subst after. split; [exact H1|]. split; [exact H2|].
    split; [rewrite H4; vm_compute; reflexivity|].
    split; [rewrite H7 | rewrite H8]; vm_compute; reflexivity.
Defined.

(** ** Install: early exits, silent success, order of operations *)

(** X17: the two ways an install ends before anything is backed up or
    fetched, besides an incompatible host: an exception of the opening
    refresh is passed on, and a repository whose local content path is not
    set is refused.  Either way the state is the one the refresh left: no
    backup, no download, no install event, the flag new untouched. *)
Theorem install_stops_before_any_backup :
  forall hacs env s,
    let refreshed := update_repository env (snd (record UpdateRepository s)) in
    (forall e, fst refreshed = Raise e ->
               async_install hacs env s = (Raise e, snd refreshed))
    /\ (fst refreshed = Ok tt ->
        content_path_local (self (snd refreshed)) = None ->
        async_install hacs env s =
          (Raise (HacsException "repository.content.path.local is None"), snd refreshed)).
Proof.
  intros hacs env s refreshed. subst refreshed.
  unfold async_install. rewrite bind_unfold. unfold async_install_repository.
  cbn [bind record modify fst snd].
  split.
  - intros e H. rewrite bind_unfold.
    destruct (update_repository env _) as [o s1]. cbn [fst snd] in *. subst o. reflexivity.
  - intros H Hl. rewrite bind_unfold.
    destruct (update_repository env _) as [o s1]. cbn [fst snd] in *. subst o.
    cbn [bind gets]. rewrite Hl. reflexivity.
Qed.

(** X18: for every install that reaches the download step, the operations
    started on the collaborators come in this order: the persistent
    directory is set aside, the local content is backed up when the
    repository is installed and not a single file, the downloads run, the
    backup of the local content is restored if errors were found and then
    cleaned up, and last the persistent directory is put back.  Every error
    found is logged, in order. *)
Theorem install_brackets_downloads_with_backups :
  forall hacs env s s1 local,
    update_repository env (snd (record UpdateRepository s)) = (Ok tt, s1) ->
    content_path_local (self s1) = Some local ->
    can_download hacs (self s1) = true ->
    let after := async_install_repository hacs env s in
    let errors := validate_errors (self (snd after)) in
    fst after = Ok tt
    /\ log (world (snd after)) = (log (world s1) ++ error_lines errors)%list
    /\ exists downloads,
         Forall (fun c => is_download c = true) downloads
         /\ calls (world (snd after)) =
            (calls (world s1) ++ aside_calls (kept_aside local s1)
             ++ (if backed_up (self s1) then [BackupCreate local] else [])
             ++ downloads
             ++ backup_calls (backed_up (self s1)) local errors
             ++ persistent_calls (kept_aside local s1))%list.
Proof.
  intros hacs env s s1 local Hu Hl Hc after errors. subst after errors.
  destruct (install_repository_runs hacs env s s1 local Hu Hl Hc)
    as (errors & downloads & final & -> & Hd & He & _ & _ & _ & _ & Hlog & Hcalls & _).
  cbn [fst snd]. rewrite He. split; [reflexivity|]. split; [exact Hlog|].
  exists downloads. split; [exact Hd | exact Hcalls].
Qed.

Lemma install_brackets_downloads_with_backups_witness :
  let s := {| self := Example.tracking; world := Example.widget_on_disk |} in
  calls (world (snd (async_install_repository Example.host_2023_12
                       Example.failing_download s)))
  = [UpdateRepository;
     BackupCreate "/config/www/community/widget";
     DownloadContent;
     BackupRestore "/config/www/community/widget";
     BackupCleanup "/config/www/community/widget"]
  /\ exists downloads,
       Forall (fun c => is_download c = true) downloads
       /\ calls (world (snd (async_install_repository Example.host_2023_12
                               Example.failing_download s)))
          = ([UpdateRepository] ++ [] ++ [BackupCreate "/config/www/community/widget"]
             ++ downloads
             ++ [BackupRestore "/config/www/community/widget";
                 BackupCleanup "/config/www/community/widget"] ++ [])%list.
Proof.
  intros s. split; [vm_compute; reflexivity|].
  destruct (install_brackets_downloads_with_backups Example.host_2023_12
              Example.failing_download s _ "/config/www/community/widget"
              eq_refl eq_refl eq_refl) as (_ & _ & downloads & Hd & Hc).
  exists downloads. split; [exact Hd|]. rewrite Hc. vm_compute. reflexivity.
Defined.

Section QuietInstall.

Variable hacs : Hacs.
Variable env : Env.

(** The end of an install whose download step changed nothing. *)
Lemma finish_install_quiet version persistent backup local s :
  validate_errors (self s) = [] ->
  (if zip_release (data (self s)) && negb (opt_eqb version (default_branch (data (self s))))
   then download_zip_files env else run_download_content env) s = (Ok tt, s) ->
  (installed (data (self s)) && negb (content_single (self s)) = true ->
   exists saved, backup = Some {| local_path := local; snapshot := saved |}) ->
  exists final,
    finish_install env version persistent backup s = (Ok tt, final)
    /\ validate_errors (self final) = []
    /\ data (self final) = installed_data version (data (self s))
    /\ calls (world final) =
         (calls (world s)
          ++ backup_calls (installed (data (self s)) && negb (content_single (self s)))
               local []
          ++ persistent_calls persistent)%list.
Proof.
  intros Hnone Hstep Hbackup. unfold finish_install. run.
  rewrite Hstep. run.
  unfold validate_success, restore_persistent, Backup_restore, Backup_cleanup, bound,
    backup_calls, persistent_calls, installed_data. norm.
  destruct s as [r w]. norm. rewrite Hnone.
  destruct (opt_eqb version (default_branch (data r))) eqn:Eo;
  (destruct (installed (data r) && negb (content_single r)) eqn:Ek;
    [destruct (Hbackup eq_refl) as [saved ->]|]);
    destruct persistent as [[b|f]|];
    repeat first [ step | progress norm | rewrite Ek | rewrite Eo | rewrite Hnone ];
    try (destruct (snapshot b));
    repeat first [ step | progress norm | rewrite Ek | rewrite Eo | rewrite Hnone ];
    (eexists; split; [reflexivity|]); norm; unfold on_world; norm;
    rewrite ?app_nil_r, <- ?app_assoc; cbn [app];
    repeat split; auto.
Qed.

Lemma ref_tag_of_tags version r :
  ref r = Some ("tags/" ++ version) ->
  ref_tag r = Returns (List.hd "" (split "/" version)).
Proof.
  intros H. unfold ref_tag. rewrite H.
  change ("tags/" ++ version) with
    (String "t" (String "a" (String "g" (String "s" (String "/" version))))).
  cbn [split Ascii.eqb Bool.eqb].
  destruct (split "/" version) as [|w ws] eqn:E; [destruct (split_nonempty _ _ E)|].
  reflexivity.
Qed.

End QuietInstall.

(** X19: an install from a release archive for which no release carries
    the tag sought (the part of the version before its first slash, the
    version itself when it has none) fetches nothing and still reports
    success: it returns with an empty error list, the repository is marked
    installed at that version and at the latest known commit, and no
    download was started. *)
Theorem install_without_matching_release_reports_success :
  forall hacs env s s1 local,
    update_repository env (snd (record UpdateRepository s)) = (Ok tt, s1) ->
    content_path_local (self s1) = Some local ->
    can_download hacs (self s1) = true ->
    let r1 := self s1 in
    let version := version_to_download r1 in
    zip_release (data r1) = true ->
    version <> default_branch (data r1) ->
    Forall (fun release => tag_name release <> List.hd "" (split "/" (py_str version)))
           (releases_objects r1) ->
    let after := async_install_repository hacs env s in
    fst after = Ok tt
    /\ validate_errors (self (snd after)) = []
    /\ installed (data (self (snd after))) = true
    /\ installed_version (data (self (snd after))) = version
    /\ installed_commit (data (self (snd after))) = last_commit (data r1)
    /\ exists operations,
         calls (world (snd after)) = (calls (world s1) ++ operations)%list
         /\ Forall (fun c => is_download c = false) operations.
Proof.
  intros hacs env s s1 local Hu Hl Hc r1 version Hz Hv Hf after.
  subst after r1. unfold async_install_repository.
  cbn [bind record modify fst snd] in *.
  rewrite bind_unfold, Hu. cbn [bind gets]. rewrite Hl.
  cbn [bind gets modify on_self self].
  rewrite (can_download_data hacs (self s1)) by reflexivity.
  rewrite Hc. cbn [negb].
  rewrite (version_to_download_data (self s1) (set_validate_errors [] (self s1)))
    by reflexivity.
  fold version. apply opt_eqb_neq in Hv. 
  destruct s1 as [r1 w1].
  unfold backup_persistent, Backup_create. run. rewrite Hv.
  destruct (installed (data r1) && String.eqb (category (data r1)) "netdaemon") eqn:En;
    [| destruct (truthy (persistent_directory (data r1))) eqn:Ep;
       [destruct (os_path_exists (local ++ "/" ++ py_str (persistent_directory (data r1)))
                    (fs w1)) eqn:Ex|]];
    destruct (installed (data r1) && negb (content_single r1)) eqn:Ek;
    repeat first [ step | progress norm | rewrite Ex | rewrite Ek
                 | progress unfold on_world, on_self ];
    match goal with
    | |- context [finish_install env ?v ?p ?b ?st] =>
        destruct (finish_install_quiet env v p b local st)
          as (final & Hrun & He & Hdata & Hcalls);
        [ reflexivity
        | norm; rewrite Hz, Hv; cbn [andb negb];
          apply download_zip_files_nothing; norm;
          apply (matching_assets_no_release _ (List.hd "" (split "/" (py_str version))));
            [apply ref_tag_of_tags; reflexivity | exact Hf]
        | norm; rewrite ?Ek; intros; first [ congruence | eauto ]
        | rewrite Hrun ]
    end;
    cbn [fst snd]; rewrite Hdata; unfold installed_data; norm; rewrite ?Hv, ?Ek in *;
    (split; [reflexivity|]); (split; [exact He|]); (split; [reflexivity|]);
    (split; [reflexivity|]); (split; [reflexivity|]);
    unfold backup_calls, persistent_calls in Hcalls; cbn [local_path] in Hcalls;
    rewrite <- ?app_assoc in Hcalls;
    (eexists; split; [exact Hcalls | repeat constructor]).
Qed.

Lemma install_without_matching_release_reports_success_witness :
  let s := {| self := Sample.zipped; world := Example.widget_on_disk |} in
  let after := async_install_repository Example.host_2023_12 Example.quiet s in
  fst after = Ok tt
  /\ installed_version (data (self (snd after))) = Some "2.0.0"
  /\ fs (world (snd after)) = fs Example.widget_on_disk
  /\ calls (world (snd after))
     = [UpdateRepository; BackupCreate "/config/www/community/widget";
        BackupCleanup "/config/www/community/widget"].
Proof.
  intros s after.
  destruct (install_without_matching_release_reports_success Example.host_2023_12
              Example.quiet s _ "/config/www/community/widget" eq_refl eq_refl eq_refl)
    as (H1 & _ & _ & H4 & _).
  - reflexivity.
  - discriminate.
  - repeat constructor. discriminate.
  - subst after. split; [exact H1|]. split; [rewrite H4; reflexivity|].
    split; vm_compute; reflexivity.
Defined.

(** ** Loading the checks *)

Section Registry.

Variable hacs : Hacs.

Lemma extends_refl rules : extends rules rules.
Proof. intros c l H. exists []. rewrite app_nil_r. exact H. Qed.

Lemma extends_trans a b c : extends a b -> extends b c -> extends a c.
Proof.
  intros Hab Hbc cat l H.
  destruct (Hab cat l H) as [x Hx]. destruct (Hbc cat _ Hx) as [y Hy].
  exists (x ++ y)%list. rewrite app_assoc. exact Hy.
Qed.

Lemma extends_append (rules : gmap string (list CheckClass)) category check :
  extends rules (<[category := (default [] (rules !! category) ++ [check])%list]> rules).
Proof.
  intros c l H. destruct (decide (c = category)) as [->|Hne].
  - rewrite lookup_insert_eq, H. cbn. eauto.
  - rewrite lookup_insert_ne by congruence. exists []. rewrite app_nil_r. exact H.
Qed.

Lemma extends_fresh (rules : gmap string (list CheckClass)) category :
  rules !! category = None -> extends rules (<[category := []]> rules).
Proof.
  intros Hn c l H. destruct (decide (c = category)) as [->|Hne]; [congruence|].
  rewrite lookup_insert_ne by congruence. exists []. rewrite app_nil_r. exact H.
Qed.

(** One step of the inner loop either leaves the registry or appends the
    check, and appends only a check that passed the three tests. *)
Lemma register_step category check (rules : gmap string (list CheckClass)) :
  let next :=
    if negb (hacs_action hacs) && String.eqb (base_name check) "ActionValidationBase"
    then rules
    else if contains (dotted validate_root ++ category) (class_module check) then
      if existsb (same_class check) (default [] (rules !! category)) then rules
      else <[category := (default [] (rules !! category) ++ [check])%list]> rules
    else rules in
  next = rules
  \/ (next = <[category := (default [] (rules !! category) ++ [check])%list]> rules
      /\ negb (hacs_action hacs) && String.eqb (base_name check) "ActionValidationBase" = false
      /\ contains (dotted validate_root ++ category) (class_module check) = true
      /\ existsb (same_class check) (default [] (rules !! category)) = false).
Proof.
  cbn zeta.
  destruct (negb (hacs_action hacs) && String.eqb (base_name check) "ActionValidationBase");
    [auto|].
  destruct (contains (dotted validate_root ++ category) (class_module check)); [|auto].
  destruct (existsb (same_class check) (default [] (rules !! category))); auto.
Qed.

(** A property of registries that every append of an admissible check and
    every fresh empty category keeps is kept by the loops. *)
Lemma register_classes_keeps (Q : gmap string (list CheckClass) -> Prop) category :
  (forall rules check,
     Q rules ->
     negb (hacs_action hacs) && String.eqb (base_name check) "ActionValidationBase" = false ->
     contains (dotted validate_root ++ category) (class_module check) = true ->
     existsb (same_class check) (default [] (rules !! category)) = false ->
     Q (<[category := (default [] (rules !! category) ++ [check])%list]> rules)) ->
  forall classes rules, Q rules -> Q (register_classes hacs category classes rules).
Proof.
  intros Happend. induction classes as [|check rest IH]; intros rules HQ; [exact HQ|].
  cbn [register_classes]. apply IH.
  destruct (register_step category check rules) as [-> | (-> & H1 & H2 & H3)];
    [exact HQ | apply Happend; assumption].
Qed.

Lemma register_files_keeps (Q : gmap string (list CheckClass) -> Prop) :
  (forall category rules check,
     Q rules ->
     negb (hacs_action hacs) && String.eqb (base_name check) "ActionValidationBase" = false ->
     contains (dotted validate_root ++ category) (class_module check) = true ->
     existsb (same_class check) (default [] (rules !! category)) = false ->
     Q (<[category := (default [] (rules !! category) ++ [check])%list]> rules)) ->
  (forall category rules, Q rules -> rules !! category = None -> Q (<[category := []]> rules)) ->
  forall files rules, Q rules -> Q (register_files hacs files rules).
Proof.
  intros Happend Hfresh. induction files as [|[filename classes] rest IH]; intros rules HQ;
    [exact HQ|].
  cbn [register_files].
  destruct (String.prefix "__pycache__" filename || ends_with "check.py" filename
            || contains "__init__.py" filename || negb (String.eqb (last3 filename) ".py"));
    [apply IH; exact HQ|].
  apply IH. apply register_classes_keeps; [apply Happend|].
  destruct (rules !! List.hd "" (split "/" (drop_last3 filename))) eqn:E;
    [exact HQ | apply Hfresh; assumption].
Qed.

Lemma same_class_key a b : same_class a b = true <-> class_key a = class_key b.
Proof.
  unfold same_class, class_key. rewrite andb_true_iff, !String.eqb_eq.
  split; [intros [-> ->]; reflexivity | intros H; injection H; auto].
Qed.

Lemma not_registered_key check registered :
  existsb (same_class check) registered = false ->
  ~ In (class_key check) (map class_key registered).
Proof.
  intros H Hin. apply in_map_iff in Hin as (other & Hk & Hin).
  assert (Ht : existsb (same_class check) registered = true).
  { apply existsb_exists. exists other. split; [exact Hin|].
    apply same_class_key. congruence. }
  congruence.
Qed.

Lemma register_files_well_registered files rules :
  well_registered hacs rules -> well_registered hacs (register_files hacs files rules).
Proof.
  apply register_files_keeps.
  - intros category rules' check HQ H1 H2 H3 c l check' Hl Hin.
    destruct (decide (c = category)) as [->|Hne].
    + rewrite lookup_insert_eq in Hl. injection Hl as <-.
      apply in_app_or in Hin as [Hin | [<- | []]].
      * destruct (rules' !! category) as [l|] eqn:E; [|destruct Hin].
        exact (HQ category l check' E Hin).
      * split; [exact H2|]. intros Ha. rewrite Ha in H1. cbn in H1.
        apply String.eqb_neq. exact H1.
    + rewrite lookup_insert_ne in Hl by congruence. exact (HQ c l check' Hl Hin).
  - intros category rules' HQ Hn c l check' Hl Hin.
    destruct (decide (c = category)) as [->|Hne].
    + rewrite lookup_insert_eq in Hl. injection Hl as <-. destruct Hin.
    + rewrite lookup_insert_ne in Hl by congruence. exact (HQ c l check' Hl Hin).
Qed.

Lemma register_files_without_duplicates files rules :
  without_duplicates rules -> without_duplicates (register_files hacs files rules).
Proof.
  apply register_files_keeps.
  - intros category rules' check HQ H1 H2 H3 c l Hl.
    destruct (decide (c = category)) as [->|Hne].
    + rewrite lookup_insert_eq in Hl. injection Hl as <-.
      rewrite List.map_app. cbn [map].
      apply NoDup_app. split; [|split].
      * destruct (rules' !! category) as [l|] eqn:E; [exact (HQ category l E)|constructor].
      * intros key Hin Hk. apply list_elem_of_singleton in Hk. subst key.
        apply list_elem_of_In in Hin. exact (not_registered_key _ _ H3 Hin).
      * apply NoDup_singleton.
    + rewrite lookup_insert_ne in Hl by congruence. exact (HQ c l Hl).
  - intros category rules' HQ Hn c l Hl.
    destruct (decide (c = category)) as [->|Hne].
    + rewrite lookup_insert_eq in Hl. injection Hl as <-. constructor.
    + rewrite lookup_insert_ne in Hl by congruence. exact (HQ c l Hl).
Qed.

Lemma register_files_extends files rules : extends rules (register_files hacs files rules).
Proof.
  apply (register_files_keeps (extends rules)).
  - intros category rules' check HQ _ _ _.
    exact (extends_trans _ _ _ HQ (extends_append rules' category check)).
  - intros category rules' HQ Hn.
    exact (extends_trans _ _ _ HQ (extends_fresh rules' category Hn)).
  - apply extends_refl.
Qed.

Lemma register_classes_extends category classes rules :
  extends rules (register_classes hacs category classes rules).
Proof.
  apply (register_classes_keeps (extends rules)).
  - intros rules' check HQ _ _ _.
    exact (extends_trans _ _ _ HQ (extends_append rules' category check)).
  - apply extends_refl.
Qed.

End Registry.

Section LoadingTwice.

Variable hacs : Hacs.

Lemma settled_extends category before after check :
  extends before after ->
  settled hacs category before check = true -> settled hacs category after check = true.
Proof.
  intros He. unfold settled. rewrite !orb_true_iff. intros [[H|H]|H]; auto.
  right. destruct (before !! category) as [l|] eqn:E; [|discriminate].
  destruct (He category l E) as [added ->]. cbn in *.
  rewrite existsb_app, H. reflexivity.
Qed.

Lemma register_classes_settled_id category classes rules :
  Forall (fun check => settled hacs category rules check = true) classes ->
  register_classes hacs category classes rules = rules.
Proof.
  induction 1 as [|check rest Hs Hrest IH]; [reflexivity|].
  cbn [register_classes].
  assert (Hstep :
    (if negb (hacs_action hacs) && String.eqb (base_name check) "ActionValidationBase"
     then rules
     else if contains (dotted validate_root ++ category) (class_module check) then
       if existsb (same_class check) (default [] (rules !! category)) then rules
       else <[category := (default [] (rules !! category) ++ [check])%list]> rules
     else rules) = rules).
  { unfold settled in Hs.
    destruct (negb (hacs_action hacs) && String.eqb (base_name check) "ActionValidationBase");
      [reflexivity|].
    destruct (contains (dotted validate_root ++ category) (class_module check)); [|reflexivity].
    cbn in Hs. rewrite Hs. reflexivity. }
  rewrite Hstep. exact IH.
Qed.

(** After the inner loop every class it went through is settled. *)
Lemma register_classes_settles category classes : forall rules,
  Forall (fun check =>
            settled hacs category (register_classes hacs category classes rules) check = true)
         classes.
Proof.
  induction classes as [|check rest IH]; intros rules; [constructor|].
  cbn [register_classes].
  match goal with
  | |- Forall _ (check :: rest) => idtac
  end.
  match goal with
  | |- context [register_classes hacs category rest ?next] => set (after := next)
  end.
  constructor; [|apply IH].
  apply (settled_extends category after); [apply register_classes_extends|].
  subst after. unfold settled.
  destruct (negb (hacs_action hacs) && String.eqb (base_name check) "ActionValidationBase");
    [reflexivity|].
  destruct (contains (dotted validate_root ++ category) (class_module check)); [|reflexivity].
  destruct (existsb (same_class check) (default [] (rules !! category))) eqn:E; cbn.
  - exact E.
  - rewrite lookup_insert_eq. cbn. rewrite existsb_app. cbn.
    assert (Hs : same_class check check = true) by (apply same_class_key; reflexivity).
    rewrite Hs. apply orb_true_r.
Qed.

Lemma file_settled_extends before after file :
  extends before after -> file_settled hacs before file -> file_settled hacs after file.
Proof.
  intros He [Hskip | [[l Hl] Hall]]; [left; exact Hskip | right]. split.
  - destruct (He _ l Hl) as [added ->]. eauto.
  - eapply Forall_impl; [exact Hall|]. intros check. apply settled_extends. exact He.
Qed.

Lemma register_files_settled_id files rules :
  Forall (file_settled hacs rules) files -> register_files hacs files rules = rules.
Proof.
  induction 1 as [|[filename classes] rest Hs Hrest IH]; [reflexivity|].
  cbn [register_files]. unfold file_settled in Hs. cbn [fst snd] in Hs.
  destruct (String.prefix "__pycache__" filename || ends_with "check.py" filename
            || contains "__init__.py" filename || negb (String.eqb (last3 filename) ".py"));
    [exact IH|].
  destruct Hs as [Hs | [[l Hl] Hall]]; [discriminate|].
  rewrite Hl, (register_classes_settled_id _ _ _ Hall). exact IH.
Qed.

(** After the outer loop every file it went through is settled. *)
Lemma register_files_settles files : forall rules,
  Forall (file_settled hacs (register_files hacs files rules)) files.
Proof.
  induction files as [|[filename classes] rest IH]; intros rules; [constructor|].
  cbn [register_files].
  destruct (String.prefix "__pycache__" filename || ends_with "check.py" filename
            || contains "__init__.py" filename || negb (String.eqb (last3 filename) ".py"))
    eqn:Eskip.
  - constructor; [|apply IH]. left. cbn [fst]. exact Eskip.
  - set (category := List.hd "" (split "/" (drop_last3 filename))).
    set (opened := match rules !! category with
                   | Some _ => rules
                   | None => <[category := []]> rules
                   end).
    constructor; [|apply IH].
    apply (file_settled_extends (register_classes hacs category classes opened));
      [apply register_files_extends|].
    right. cbn [fst snd]. fold category. split; [|apply register_classes_settles].
    assert (Ho : is_Some (opened !! category)).
    { subst opened. destruct (rules !! category) eqn:E; [rewrite E; eauto|].
      rewrite lookup_insert_eq. eauto. }
    destruct Ho as [l Hl].
    destruct (register_classes_extends hacs category classes opened category l Hl) as [added ->].
    eauto.
Qed.

Lemma register_files_idempotent files rules :
  register_files hacs files (register_files hacs files rules) = register_files hacs files rules.
Proof. apply register_files_settled_id, register_files_settles. Qed.

End LoadingTwice.

(** X20: load_repository_checks registers a check only under the category
    whose package defines it, and in interactive mode registers no check
    that derives from the action-only base class: a registry for which this
    holds before the load still has it after. *)
Theorem load_registers_checks_of_their_package :
  forall hacs env s,
    well_registered hacs (RULES (world s)) ->
    well_registered hacs (RULES (world (snd (load_repository_checks hacs env s)))).
Proof.
  intros hacs env s H. unfold load_repository_checks.
  destruct (system_running hacs); cbn; [|exact H].
  destruct s as [me []]. cbn in *. apply register_files_well_registered. exact H.
Qed.

Lemma load_registers_checks_of_their_package_witness :
  let s := {| self := Example.widget; world := Example.empty_world |} in
  let loaded := RULES (world (snd (load_repository_checks Example.host_2023_12
                                     Sample.with_checks s))) in
  loaded = {[ "common" := [Example.always_fails]; "plugin" := [Example.always_passes] ]}
  /\ well_registered Example.host_2023_12 loaded.
Proof.
  intros s loaded. split; [vm_compute; reflexivity|].
  apply (load_registers_checks_of_their_package Example.host_2023_12 Sample.with_checks s).
  intros category registered check H. cbn in H. rewrite lookup_empty in H. discriminate.
Defined.

(** X21: load_repository_checks never registers a class that is in the
    registry already: a registry without duplicates stays without
    duplicates, and every list it held is still there, in the same order,
    with the new checks after it. *)
Theorem load_keeps_registry_duplicate_free :
  forall hacs env s,
    without_duplicates (RULES (world s)) ->
    let after := RULES (world (snd (load_repository_checks hacs env s))) in
    without_duplicates after /\ extends (RULES (world s)) after.
Proof.
  intros hacs env s H after. subst after. unfold load_repository_checks.
  destruct (system_running hacs); cbn.
  - destruct s as [me []]. cbn in *.
    split; [apply register_files_without_duplicates; exact H | apply register_files_extends].
  - split; [exact H | apply extends_refl].
Qed.

Lemma load_keeps_registry_duplicate_free_witness :
  let s := {| self := Example.widget; world := Example.empty_world |} in
  let loaded := RULES (world (snd (load_repository_checks Example.host_action
                                     Sample.with_checks s))) in
  loaded = {[ "common" := [Example.always_fails; Sample.action_only];
              "plugin" := [Example.always_passes] ]}
  /\ without_duplicates loaded.
Proof.
  intros s loaded. split; [vm_compute; reflexivity|].
  apply (load_keeps_registry_duplicate_free Example.host_action Sample.with_checks s).
  intros category registered H. cbn in H. rewrite lookup_empty in H. discriminate.
Defined.

(** X22: loading the checks is idempotent: a second load_repository_checks
    right after the first finds every class registered and leaves the state
    as the first left it. *)
Theorem load_twice_is_load_once :
  forall hacs env s,
    let once := load_repository_checks hacs env s in
    load_repository_checks hacs env (snd once) = (Ok tt, snd once).
Proof.
  intros hacs env s once. subst once. unfold load_repository_checks.
  destruct (system_running hacs); cbn [negb]; [|reflexivity].
  destruct s as [me w]. unfold modify, on_world. cbn [snd self world].
  destruct w as [files events keys lines operations registry]. cbn [RULES set_RULES].
  rewrite register_files_idempotent. reflexivity.
Qed.

(** ** Metadata refresh: moved repositories, forced refresh, valid manifests *)

(** X23: when the data refresh reports that the repository exists under
    another name, common_update looks the new name up in the table of
    renamed repositories: a full name that the table does not hold ends the
    refresh with a KeyError, the state being the one the failed refresh
    left; with an entry, the refresh is tried again under the new name, and
    an exception of that second try is passed on. *)
Theorem common_update_moved_repository :
  forall hacs env ignore_issues force s s1,
    common_update_data env ignore_issues force s = (Raise HacsRepositoryExistException, s1) ->
    let old := full_name (data (self s1)) in
    (renamed old (renamed_repositories hacs) = None ->
     common_update hacs env ignore_issues force s = (Raise (PyException "KeyError" old), s1))
    /\ (forall moved e s2,
          renamed old (renamed_repositories hacs) = Some moved ->
          common_update_data env ignore_issues force
            (on_self (on_data (set_full_name moved)) s1) = (Raise e, s2) ->
          common_update hacs env ignore_issues force s = (Raise e, s2)).
Proof.
  intros hacs env ignore_issues force s s1 H old. subst old.
  unfold common_update. cbn [bind gets]. split.
  - intros Hn. rewrite bind_unfold. unfold try_except at 1. rewrite H.
    cbn [bind gets]. rewrite Hn. reflexivity.
  - intros moved e s2 Hm Hretry. rewrite bind_unfold. unfold try_except at 1. rewrite H.
    cbn [bind gets]. rewrite Hm. cbn [bind modify]. rewrite Hretry. reflexivity.
Qed.

Lemma common_update_moved_repository_witness :
  let s := {| self := Example.widget; world := Example.empty_world |} in
  common_update Example.host_2023_12 Sample.moved false false s
  = (Raise (PyException "KeyError" "acme/widget"), s).
Proof.
  intros s.
  destruct (common_update_moved_repository Example.host_2023_12 Sample.moved false false s s
              eq_refl) as [H _].
  apply H. reflexivity.
Defined.

(** X24: a forced refresh never answers that nothing changed: whatever the
    collaborators do, common_update with force set does not return false. *)
Theorem forced_refresh_never_reports_unchanged :
  forall hacs env ignore_issues s,
    fst (common_update hacs env ignore_issues true s) <> Ok false.
Proof.
  intros hacs env ignore_issues s. unfold common_update. cbn [bind gets].
  rewrite bind_unfold.
  destruct (try_except _ _ _ s) as [[[]|e|b] s1]; [|discriminate..].
  cbn [bind gets negb]. rewrite andb_false_r.
  destruct (repository_object (self s1)) as [object|]; [|discriminate].
  cbn [bind ret modify].
  unfold lift at 1. destruct (fetch_last_commit env object) as [commit|e]; [|discriminate].
  cbn [bind modify]. rewrite bind_unfold.
  destruct (get_repository_manifest_content hacs env _) as [[[]|e|b] s2]; [|discriminate..].
  cbn [bind gets]. unfold lift.
  destruct (get_info_md_content env (self s2)) as [info|e]; discriminate.
Qed.

(** X25: a manager manifest that is listed, fetched and parsed into a
    dictionary from which from_dict builds an object replaces the manifest
    object of the repository before its keys are written into the record.
    When writing them stops at an exception, the new manifest object and
    the keys written so far stay, and in interactive mode the operation
    still returns normally; in automated mode it raises the invalid-manifest
    error.  When from_dict itself raises, the manifest object and the record
    stay as they were, with the same answer by mode. *)
Theorem manifest_applied_then_written_into_record :
  forall hacs env s object content d,
    str_in "hacs.json" (tree (self s)) = true ->
    repository_object (self s) = Some object ->
    get_contents env object "hacs.json" (version_to_download (self s)) = Returns content ->
    json_loads env content = Returns (PyDict d) ->
    let written := update_data env d (data (self s)) in
    let after := get_repository_manifest_content hacs env s in
    let invalid e :=
      HacsException ("::error:: hacs.json file is not valid (" ++ exn_str e ++ ").") in
    ref (self (snd after)) = version_to_download (self s)
    /\ world (snd after) = world s
    /\ (forall m,
          HacsManifest_from_dict (PyDict d) = Returns m ->
          repository_manifest (self (snd after)) = m
          /\ data (self (snd after)) = snd written
          /\ fst after =
             match fst written with
             | Ok _ => Ok tt
             | Raise e =>
                 if is_Exception e then
                   if system_action hacs then Raise (invalid e) else Ok tt
                 else Raise e
             | Beyond b => Beyond b
             end)
    /\ (forall e,
          HacsManifest_from_dict (PyDict d) = Raises e ->
          repository_manifest (self (snd after)) = repository_manifest (self s)
          /\ data (self (snd after)) = data (self s)
          /\ fst after = if system_action hacs then Raise (invalid e) else Ok tt).
Proof.
  intros hacs env s object content d Ht Ho Hc Hj written after invalid.
  subst written after invalid.
  unfold get_repository_manifest_content. cbn [bind gets]. rewrite Ht. cbn [negb bind modify].
  unfold try_except, update_data_from, in_data. destruct s as [r w]. cbn [self on_self] in *.
  run. rewrite Ho. unfold lift. rewrite Hc. run. rewrite Hj.
  destruct (HacsManifest_from_dict (PyDict d)) as [m|e] eqn:Em.
  - unfold bind, modify, on_self. norm.
    destruct (update_data env d (data r)) as [[[]|e|b] d1] eqn:Eu;
      [| destruct (is_Exception e) eqn:Ee; [destruct (system_action hacs)|] |];
      cbn [raise ret fst snd]; norm;
      (split; [reflexivity|]); (split; [reflexivity|]);
      (split; [intros m' E; injection E as <-; try rewrite Ee; repeat split
              | intros e' E; discriminate]).
  - assert (He : is_Exception e = true).
    { cbn [HacsManifest_from_dict] in Em.
      destruct (first_refused (normalise_country d)) as [e'|] eqn:E; [|discriminate].
      injection Em as <-. exact (first_refused_kind _ _ E). }
    cbn [lift bind]. rewrite He.
    destruct (system_action hacs); cbn [raise ret fst snd]; norm;
      (split; [reflexivity|]); (split; [reflexivity|]);
      (split; [intros m' E; discriminate
              | intros e' E; injection E as <-; repeat split]).
Qed.

Lemma manifest_applied_then_written_into_record_witness :
  let s := {| self := Example.with_manifest; world := Example.empty_world |} in
  let after := get_repository_manifest_content Example.host_2023_12
                 Sample.manifest_with_bad_date s in
  fst after = Ok tt
  /\ manifest_attr (repository_manifest (self (snd after))) "country"
     = Returns (PyList [PyStr "NO"])
  /\ filename (data (self (snd after))) = "widget.js"
  /\ zip_release (data (self (snd after))) = false.
Proof.
  intros s after.
  destruct (manifest_applied_then_written_into_record Example.host_2023_12
              Sample.manifest_with_bad_date s {| attributes := [] |} "manifest"
              [("name", PyStr "Cool Widget"); ("country", PyStr "NO");
               ("filename", PyStr "widget.js"); ("pushed_at", PyStr "yesterday");
               ("zip_release", PyBool true)]
              eq_refl eq_refl eq_refl eq_refl) as (_ & _ & H & _).
  destruct (H _ eq_refl) as (H1 & H2 & H5).
  subst after. split; [rewrite H5; reflexivity|].
  split; [rewrite H1; reflexivity|].
  split; rewrite H2; reflexivity.
Defined.

(** ** After an uninstall *)

Lemma not_installed_not_pending hacs r :
  installed (data r) = false -> pending_update hacs r = false.
Proof.
  intros H. unfold pending_update. rewrite H.
  destruct (can_download hacs r); reflexivity.
Qed.

Lemma status_when_not_installed hacs r :
  installed (data r) = false ->
  display_status hacs r =
    (if new (data r) then "new" else if pending_restart r then "pending-restart" else "default")
  /\ main_action hacs r =
     Some (if negb (new (data r)) && pending_restart r then "REINSTALL" else "INSTALL").
Proof.
  intros H. unfold main_action, display_status.
  rewrite (not_installed_not_pending hacs r H), H.
  destruct (new (data r)), (pending_restart r); split; reflexivity.
Qed.

(** X26: whenever uninstall returns, the repository is recorded as not
    installed, with no installed version or commit, and no update is pending
    for it; it is then shown as new, as pending a restart or as default,
    never as installed or as pending an upgrade, and the action offered is
    INSTALL unless a restart is pending on a repository that is not new. *)
Theorem uninstalled_repository_status :
  forall hacs env s,
    let after := uninstall hacs env s in
    let r := self (snd after) in
    fst after = Ok tt ->
    installed (data r) = false
    /\ installed_version (data r) = None
    /\ installed_commit (data r) = None
    /\ pending_update hacs r = false
    /\ display_status hacs r =
       (if new (data r) then "new"
        else if pending_restart r then "pending-restart" else "default")
    /\ main_action hacs r =
       Some (if negb (new (data r)) && pending_restart r then "REINSTALL" else "INSTALL").
Proof.
  intros hacs env s after r. subst r after.
  assert (H : fst (uninstall hacs env s) = Ok tt ->
              installed (data (self (snd (uninstall hacs env s)))) = false
              /\ installed_version (data (self (snd (uninstall hacs env s)))) = None
              /\ installed_commit (data (self (snd (uninstall hacs env s)))) = None).
  { unfold uninstall. rewrite bind_unfold.
    destruct (remove_local_directory hacs env s) as [[[|]|e|b] [me w]];
      cbn [negb]; try discriminate.
    unfold call_host, async_remove_store, try_except. run.
    destruct (String.eqb (category (data me)) "integration").
    - destruct (config_flow (data me)); run.
      + destruct (host env ReloadCustomComponents); run; [discriminate|]. repeat split.
      + repeat split.
    - destruct (String.eqb (category (data me)) "theme"); run.
      + destruct (host env (ServiceCall "frontend" "reload_themes")); run; repeat split.
      + repeat split. }
  intros Hok. destruct (H Hok) as (Hi & Hv & Hc).
  destruct (status_when_not_installed hacs _ Hi) as [Hs Ha].
  split; [exact Hi|]. split; [exact Hv|]. split; [exact Hc|].
  split; [apply not_installed_not_pending; exact Hi|]. split; [exact Hs | exact Ha].
Qed.

Lemma uninstalled_repository_status_witness :
  let s := {| self := Sample.integration; world := Example.widget_on_disk |} in
  let r := self (snd (uninstall Example.host_2023_12 Example.quiet s)) in
  installed (data r) = false
  /\ display_status Example.host_2023_12 r = "pending-restart"
  /\ main_action Example.host_2023_12 r = Some "REINSTALL".
Proof.
  intros s r.
  destruct (uninstalled_repository_status Example.host_2023_12 Example.quiet s)
    as (H1 & _ & _ & _ & H5 & H6).
  - vm_compute. reflexivity.
  - subst r. split; [exact H1|]. split; [rewrite H5 | rewrite H6]; vm_compute; reflexivity.
Defined.

(** ** The pipeline in interactive mode *)

Lemma well_registered_empty hacs : well_registered hacs ∅.
Proof. intros category registered check H. rewrite lookup_empty in H. discriminate. Qed.

(** X27: in interactive mode, a pipeline that starts from an empty
    registry leaves the registry that loading the validation package into
    an empty one gives, and the checks it runs are the ones this registry
    holds under common followed by those under the category of the
    repository, in that order; none of them derives from the action-only
    base class, and each is defined in the package of common or in the
    package of the category of the repository. *)
Theorem interactive_pipeline_runs_no_action_check :
  forall hacs env s,
    system_running hacs = true ->
    hacs_action hacs = false ->
    RULES (world s) = ∅ ->
    let after := async_run_repository_checks hacs env s in
    let rules := RULES (world (snd after)) in
    let checks :=
      (default [] (rules !! "common")
       ++ default [] (rules !! category (data (self s))))%list in
    rules = register_files hacs (check_modules env) ∅
    /\ calls (world (snd after)) = (calls (world s) ++ map run_call checks)%list
    /\ Forall (fun check =>
                 base_name check <> "ActionValidationBase"
                 /\ (contains (dotted validate_root ++ "common") (class_module check) = true
                     \/ contains (dotted validate_root ++ category (data (self s)))
                          (class_module check) = true))
              checks.
Proof.
  intros hacs env s Hrun Ha He after rules checks.
  assert (Hafter : rules = rules_in_force hacs env (world s)
                   /\ calls (world (snd after))
                      = (calls (world s) ++ map run_call (applicable hacs env s))%list).
  { subst checks rules after.
    unfold async_run_repository_checks. rewrite Hrun, Ha.
    cbn [negb bind gets]. rewrite bind_unfold, (pipeline_before_checks hacs env s Hrun).
    cbn [bind gets world self on_world].
    rewrite bind_unfold, run_checks_spec. rewrite andb_false_r.
    destruct s as [me w]. unfold applicable. cbn [world self on_world RULES set_RULES].
    match goal with
    | |- context [if ?c then _ else _] => destruct c
    end; split; reflexivity. }
  destruct Hafter as [Hrules Hcalls].
  assert (Hchecks : checks = applicable hacs env s).
  { subst checks. unfold applicable. rewrite Hrules. reflexivity. }
  assert (Hloaded : rules_in_force hacs env (world s)
                    = register_files hacs (check_modules env) ∅).
  { unfold rules_in_force. rewrite He.
    rewrite bool_decide_eq_true_2 by apply dom_empty_L. reflexivity. }
  split; [rewrite Hrules; exact Hloaded|].
  split; [rewrite Hchecks; exact Hcalls|].
  assert (Hw : well_registered hacs (rules_in_force hacs env (world s))).
  { rewrite Hloaded. apply register_files_well_registered. apply well_registered_empty. }
  rewrite Hchecks. unfold applicable. apply Forall_app. split.
  - destruct (rules_in_force hacs env (world s) !! "common") as [l|] eqn:E; [|constructor].
    apply Forall_forall. intros check Hin. apply list_elem_of_In in Hin.
    destruct (Hw "common" l check E Hin) as [Hm Hb]. split; [exact (Hb Ha) | left; exact Hm].
  - destruct (rules_in_force hacs env (world s) !! category (data (self s))) as [l|] eqn:E;
      [|constructor].
    apply Forall_forall. intros check Hin. apply list_elem_of_In in Hin.
    destruct (Hw _ l check E Hin) as [Hm Hb]. split; [exact (Hb Ha) | right; exact Hm].
Qed.

Lemma interactive_pipeline_runs_no_action_check_witness :
  let s := {| self := Example.widget; world := Example.empty_world |} in
  let after := async_run_repository_checks Example.host_2023_12 Sample.with_checks s in
  calls (world (snd after))
  = [RunCheck "custom_components.hacs.validate.common.repository_description"
       "RepositoryDescription";
     RunCheck "custom_components.hacs.validate.plugin.plugin_file" "PluginFile"]
  /\ RULES (world (snd after))
     = register_files Example.host_2023_12 (check_modules Sample.with_checks) ∅.
Proof.
  intros s after. split; [vm_compute; reflexivity|].
  destruct (interactive_pipeline_runs_no_action_check Example.host_2023_12
              Sample.with_checks s eq_refl eq_refl eq_refl) as (Hrules & _).
  exact Hrules.
Defined.
